(** * Combined out-of-distribution (COOD) detection: a shallow embedding

    Embedding of [geti_sdk/detect_ood/ood_model.py]: the data item, the four
    OOD sub-models, the train/test purpose assignment and the orchestration
    that turns sub-model scores into the feature matrix of the random-forest
    meta-classifier.

    Conventions.
    - numpy's float64 scalars are idealised as exact rationals ([Q]); rounding,
      infinities and NaN are outside the model.
    - A 1-D numpy array is a [list Q]; a 2-D array produced by the external
      helpers is a list of rows; the feature matrix carries its shape.
    - A Python [dict] is an association list in insertion order.
    - Python exceptions are the [Err] results of the [result] monad.
    - Mutating methods return the updated object. *)

From Stdlib Require Import String Ascii Bool Arith ZArith QArith Qminmax
  Qround Qabs Lia Lqa List Permutation.
Import ListNotations.

Local Close Scope Q_scope.
Local Open Scope string_scope.
Local Open Scope list_scope.

Set Implicit Arguments.

(** ** Exceptions and the error monad *)

Inductive PyError : Type :=
| NotTrainedError                 (* ValueError("Model is not trained. ...") *)
| KeyError (key : option string)  (* dict lookup of a missing key *)
| IndexError                      (* sequence index out of range *)
| TypeError
| ValueError                      (* any other ValueError (numpy shapes, ...) *)
| AttributeError
| ZeroNormError.

Inductive result (A : Type) : Type :=
| Ok (a : A)
| Err (e : PyError).

Arguments Ok {A} a.
Arguments Err {A} e.

Definition bind {A B : Type} (r : result A) (k : A -> result B) : result B :=
  match r with
  | Ok a => k a
  | Err e => Err e
  end.

Notation "x <- c ;; k" := (bind c (fun x => k))
  (at level 61, c at next level, right associativity).

Definition is_ok {A : Type} (r : result A) : bool :=
  match r with Ok _ => true | Err _ => false end.

(** [mapM f l] runs [f] left to right and stops at the first exception, as a
    list comprehension or a [for] loop does. *)
Fixpoint mapM {A B : Type} (f : A -> result B) (l : list A) : result (list B) :=
  match l with
  | [] => Ok []
  | a :: l' => b <- f a ;; bs <- mapM f l' ;; Ok (b :: bs)
  end.

(** [seq[i]] for a non-negative index. *)
Definition getitem {A : Type} (l : list A) (i : nat) : result A :=
  match nth_error l i with
  | Some a => Ok a
  | None => Err IndexError
  end.

(** ** Python dictionaries (insertion ordered) *)

Module Dict.

Definition t (V : Type) : Type := list (string * V).

Definition keys {V} (d : t V) : list string := map fst d.

Fixpoint get {V} (d : t V) (k : string) : option V :=
  match d with
  | [] => None
  | (k', v) :: d' => if String.eqb k' k then Some v else get d' k
  end.

(** [d[k] = v]: an existing key keeps its position, a new key goes last. *)
Fixpoint set {V} (d : t V) (k : string) (v : V) : t V :=
  match d with
  | [] => [(k, v)]
  | (k', v') :: d' =>
      if String.eqb k' k then (k', v) :: d' else (k', v') :: set d' k v
  end.

(** [for k in src: d[k] = src[k]]. *)
Definition update {V} (d src : t V) : t V :=
  fold_left (fun acc kv => set acc (fst kv) (snd kv)) src d.

End Dict.

(** ** numpy operations on 1-D arrays *)

Module Np.

Definition zeros (n : nat) : list Q := repeat 0%Q n.
Definition ones (n : nat) : list Q := repeat 1%Q n.

Definition sum (a : list Q) : Q := fold_right Qplus 0%Q a.

(** [np.mean] of a non-empty 1-D array. *)
Definition mean (a : list Q) : Q :=
  (sum a / inject_Z (Z.of_nat (length a)))%Q.

(** Elementwise binary operation with numpy's broadcasting of 1-D shapes. *)
Definition broadcast2 (f : Q -> Q -> Q) (a b : list Q) : result (list Q) :=
  if Nat.eqb (length a) (length b) then
    Ok (map (fun p => f (fst p) (snd p)) (combine a b))
  else
    match a, b with
    | [x], _ => Ok (map (f x) b)
    | _, [y] => Ok (map (fun x => f x y) a)
    | _, _ => Err ValueError
    end.

Definition mul := broadcast2 Qmult.
Definition sub := broadcast2 Qminus.

(** [a += c] and [c + a] for a scalar [c]. *)
Definition iadd_scalar (a : list Q) (c : Q) : list Q :=
  map (fun x => (x + c)%Q) a.

Definition scalar_add (c : Q) (a : list Q) : list Q :=
  map (fun x => (c + x)%Q) a.

(** [np.min] of a Python list of scalars; the empty list raises. *)
Definition min (a : list Q) : result Q :=
  match a with
  | [] => Err ValueError
  | x :: a' => Ok (fold_left Qmin a' x)
  end.

(** [d[:, j]] on a 2-D array given by rows. *)
Definition column (d : list (list Q)) (j : nat) : result (list Q) :=
  mapM (fun row => getitem row j) d.

(** [d[:, -1]]. *)
Definition last_column (d : list (list Q)) : result (list Q) :=
  mapM (fun row => getitem row (length row - 1)) d.

(** [np.mean(d[:, 1:], axis=1)]. *)
Definition mean_tail (d : list (list Q)) : list Q :=
  map (fun row => mean (tl row)) d.

End Np.

(** A 2-D float array with its shape, rows first. *)
Record FeatureMatrix : Type := {
  n_rows : nat;
  n_cols : nat;
  rows : list (list Q)
}.

(** ** External collaborators

    Third-party code (numpy's square root and random choice, scikit-learn's
    random forest) and the helpers that [ood_model.py] imports from
    [detect_ood/utils.py] are parameters of the development. *)

Class ThirdParty : Type := {
  (** [np.sqrt] *)
  np_sqrt : Q -> Q;
  (** [np.random.choice(n, size, replace=False)] for the current generator
      state. *)
  np_random_choice : nat -> nat -> list nat;
  (** [RandomForestClassifier] *)
  classifier : Type;
  RandomForestClassifier_fit : FeatureMatrix -> list Q -> classifier;
  predict_proba : classifier -> FeatureMatrix -> list (list Q);
  classifier_score : classifier -> FeatureMatrix -> list Q -> Q
}.

Class Utils : Type := {
  KnnIndex : Type;      (* a faiss index *)
  PCA : Type;           (* a fitted sklearn PCA *)
  (** [perform_knn_indexing(feature_vectors, use_gpu)] *)
  perform_knn_indexing : list (list Q) -> bool -> KnnIndex;
  (** [perform_knn_search(knn_search_index, feature_vectors, k)] returns the
      sorted distances and the neighbour indices, a row per query. *)
  perform_knn_search :
    KnnIndex -> list (list Q) -> nat -> list (list Q) * list (list nat);
  (** [calculate_entropy_nearest_neighbours(train_labels,
      nns_labels_for_test_fts, k)] *)
  calculate_entropy_nearest_neighbours :
    list (option string) -> list (list nat) -> nat -> list Q;
  (** [fit_pca_model(feature_vectors, n_components)] *)
  fit_pca_model : list (list Q) -> Q -> PCA;
  (** [fre_score(feature_vectors, pca_model)] *)
  fre_score : list (list Q) -> PCA -> list Q
}.

(** ** Predictions (the fields of [geti_sdk.data_models.Prediction] read here) *)

Record ndarray : Type := {
  shape : list nat;
  data : list Q          (* the buffer in row-major order *)
}.

Definition flatten (a : ndarray) : ndarray :=
  {| shape := [length (data a)]; data := data a |}.

Record ScoredLabel : Type := {
  name : string;
  probability : Q
}.

Record Annotation : Type := {
  labels : list ScoredLabel
}.

Record Prediction : Type := {
  prediction_feature_vector : option ndarray;
  annotations : list Annotation
}.

(** ** DistributionDataItem *)

Inductive DistributionDataItemPurpose : Type :=
| TRAIN
| TEST.

Definition purpose_eqb (a b : DistributionDataItemPurpose) : bool :=
  match a, b with
  | TRAIN, TRAIN | TEST, TEST => true
  | _, _ => false
  end.

(** [np.linalg.norm] of a 1-D array. *)
Definition l2_norm `{ThirdParty} (v : list Q) : Q :=
  np_sqrt (Np.sum (map (fun x => (x * x)%Q) v)).

(** Modelled from the spec: [normalise_features] of [detect_ood/utils.py],
    whose body is missing.  The spec asks to divide the vector by its L2 norm
    and to treat a zero vector as an error case instead of producing NaN.
    The result is 2-D (one row per vector), as the caller's [[0]] shows. *)
Definition normalise_features `{ThirdParty} (v : list Q) : result (list (list Q)) :=
  let n := l2_norm v in
  if Qeq_bool n 0 then Err ZeroNormError
  else Ok [map (fun x => (x / n)%Q) v].

Module DistributionDataItem.

Record t : Type := mk {
  media_name : option string;
  image_path : option string;
  annotated_label : option string;
  raw_prediction : Prediction;
  purpose : option DistributionDataItemPurpose;
  _normalise_feature_vector : bool;
  feature_vector : list Q;
  max_prediction_probability : list Q;   (* a tuple *)
  predicted_label : string
}.

Definition __init__ `{ThirdParty}
    (raw_prediction : Prediction)
    (media_name media_path annotated_label : option string)
    (normalise_feature_vector : bool)
    (purpose : option DistributionDataItemPurpose) : result t :=
  fv0 <- match prediction_feature_vector raw_prediction with
         | Some a => Ok a
         | None => Err AttributeError
         end ;;
  let fv1 := if negb (Nat.eqb (length (shape fv0)) 1) then flatten fv0 else fv0 in
  fv2 <- (if normalise_feature_vector
          then rows <- normalise_features (data fv1) ;; getitem rows 0
          else Ok (data fv1)) ;;
  ann <- getitem (annotations raw_prediction) 0 ;;
  top <- getitem (labels ann) 0 ;;
  Ok {| media_name := media_name;
        image_path := media_path;
        annotated_label := annotated_label;
        raw_prediction := raw_prediction;
        purpose := purpose;
        _normalise_feature_vector := normalise_feature_vector;
        feature_vector := fv2;
        max_prediction_probability := [probability top];
        predicted_label := name top |}.

Definition is_feature_vector_normalised (self : t) : bool :=
  _normalise_feature_vector self.

Definition set_purpose (self : t) (p : DistributionDataItemPurpose) : t :=
  {| media_name := media_name self;
     image_path := image_path self;
     annotated_label := annotated_label self;
     raw_prediction := raw_prediction self;
     purpose := Some p;
     _normalise_feature_vector := _normalise_feature_vector self;
     feature_vector := feature_vector self;
     max_prediction_probability := max_prediction_probability self;
     predicted_label := predicted_label self |}.

End DistributionDataItem.

Abbreviation Item := DistributionDataItem.t.

(** The result of a scoring call: score name -> one value per data item. *)
Definition Scores : Type := Dict.t (list Q).

(** ** OOD sub-models *)

(** The abstract base class: what a concrete sub-model must provide, and the
    guarded scoring call shared by all of them. *)
Module OODSubModel.

Class Ops (M : Type) : Type := {
  _is_trained : M -> bool;
  train : M -> list Item -> result M;
  forward : M -> list Item -> result Scores
}.

Definition __call__ {M : Type} `{Ops M} (self : M) (data_items : list Item)
  : result Scores :=
  if negb (_is_trained self) then Err NotTrainedError
  else forward self data_items.

Definition is_trained {M : Type} `{Ops M} (self : M) : bool :=
  _is_trained self.

End OODSubModel.

(** An attribute that still holds its initial [None] is rejected where the
    helper would use it; [train] always fills the attribute, so a model that
    went through [train] never takes that branch. *)
Definition required {A : Type} (attr : option A) : result A :=
  match attr with
  | Some a => Ok a
  | None => Err TypeError
  end.

Module KNNBasedOODModel.
Section WithUtils.
Context `{Utils}.

Record t : Type := mk {
  _is_trained : bool;
  knn_k : nat;
  knn_search_index : option KnnIndex;
  train_set_labels : option (list (option string))
}.

Definition __init__ (knn_k : nat) : t :=
  {| _is_trained := false; knn_k := knn_k;
     knn_search_index := None; train_set_labels := None |}.

Definition train (self : t) (distribution_data : list Item) : result t :=
  let id_data := distribution_data in
  let feature_vectors := map DistributionDataItem.feature_vector id_data in
  let labeled_set_labels := map DistributionDataItem.annotated_label id_data in
  Ok {| _is_trained := true;
        knn_k := knn_k self;
        knn_search_index := Some (perform_knn_indexing feature_vectors false);
        train_set_labels := Some labeled_set_labels |}.

Definition forward (self : t) (data_items : list Item) : result Scores :=
  let features := map DistributionDataItem.feature_vector data_items in
  index <- required (knn_search_index self) ;;
  let (distances, nn_indices) :=
    perform_knn_search index features (knn_k self) in
  knn_distance <- Np.last_column distances ;;
  nn_distance <- Np.column distances 1 ;;
  let average_nn_distance := Np.mean_tail distances in
  train_labels <- required (train_set_labels self) ;;
  let entropy_score :=
    calculate_entropy_nearest_neighbours train_labels nn_indices (knn_k self) in
  let entropy_score := Np.iadd_scalar entropy_score 1 in
  enwedi_score <- Np.mul average_nn_distance entropy_score ;;
  enwedi_nn_score <- Np.mul nn_distance entropy_score ;;
  Ok [ ("knn_distance", knn_distance);
       ("nn_distance", nn_distance);
       ("average_nn_distance", average_nn_distance);
       ("entropy_score", entropy_score);
       ("enwedi_score", enwedi_score);
       ("enwedi_nn_score", enwedi_nn_score) ].

End WithUtils.

#[global] Instance ops `{Utils} : OODSubModel.Ops t :=
  {| OODSubModel._is_trained := _is_trained;
     OODSubModel.train := train;
     OODSubModel.forward := forward |}.

End KNNBasedOODModel.

Module GlobalFREBasedModel.
Section WithUtils.
Context `{Utils}.

Record t : Type := mk {
  _is_trained : bool;
  n_components : Q;
  pca_model : option PCA
}.

Definition __init__ (n_components : Q) : t :=
  {| _is_trained := false; n_components := n_components; pca_model := None |}.

Definition train (self : t) (distribution_data : list Item) : result t :=
  let feature_vectors :=
    map DistributionDataItem.feature_vector distribution_data in
  Ok {| _is_trained := true;
        n_components := n_components self;
        pca_model := Some (fit_pca_model feature_vectors (n_components self)) |}.

Definition forward (self : t) (data_items : list Item) : result Scores :=
  if negb (_is_trained self) then Err NotTrainedError
  else
    let features := map DistributionDataItem.feature_vector data_items in
    pca <- required (pca_model self) ;;
    let fre_scores := fre_score features pca in
    Ok [ ("global_fre_score", fre_scores) ].

End WithUtils.

#[global] Instance ops `{Utils} : OODSubModel.Ops t :=
  {| OODSubModel._is_trained := _is_trained;
     OODSubModel.train := train;
     OODSubModel.forward := forward |}.

End GlobalFREBasedModel.

(** *** Class labels as numpy sees them *)

Definition label_eqb (a b : option string) : bool :=
  match a, b with
  | Some x, Some y => String.eqb x y
  | None, None => true
  | _, _ => false
  end.

Fixpoint insert_sorted (s : string) (l : list string) : list string :=
  match l with
  | [] => [s]
  | x :: l' => if String.leb s x then s :: l else x :: insert_sorted s l'
  end.

Definition sort_strings (l : list string) : list string :=
  fold_right insert_sorted [] l.

(** [[i for i, j in enumerate(labels) if j == label]] *)
Definition indices_of (label : option string) (labels : list (option string))
  : list nat :=
  map fst
    (filter (fun p => label_eqb (snd p) label)
       (combine (seq 0 (length labels)) labels)).

(** [np.unique] of an array of labels: the sorted distinct values.  An array
    that holds [None] has dtype object, and sorting two or more of its
    entries compares [None] with [<], which raises. *)
Definition np_unique (labels : list (option string))
  : result (list (option string)) :=
  match mapM (fun l => match l with
                       | Some s => Ok s
                       | None => Err TypeError
                       end) labels with
  | Ok strs => Ok (map Some (sort_strings (nodup string_dec strs)))
  | Err e => if Nat.leb (length labels) 1 then Ok labels else Err e
  end.

Module ClassFREBasedModel.
Section WithUtils.
Context `{Utils}.

Record t : Type := mk {
  _is_trained : bool;
  n_components : Q;
  pca_models_per_class : list (option string * PCA)   (* a dict *)
}.

Definition __init__ (n_components : Q) : t :=
  {| _is_trained := false; n_components := n_components;
     pca_models_per_class := [] |}.

Definition train (self : t) (distribution_data : list Item) : result t :=
  let id_data := distribution_data in
  let feature_vectors := map DistributionDataItem.feature_vector id_data in
  let labels := map DistributionDataItem.annotated_label id_data in
  unique_labels <- np_unique labels ;;
  let pca_models :=
    map (fun label =>
           let class_indices := indices_of label labels in
           let class_features :=
             map (fun i => nth i feature_vectors []) class_indices in
           (label, fit_pca_model class_features (n_components self)))
        unique_labels in
  Ok {| _is_trained := true;
        n_components := n_components self;
        pca_models_per_class := pca_models |}.

(** [d[label]] on a dict keyed by class label. *)
Fixpoint lookup {V : Type} (d : list (option string * V)) (label : option string)
  : result V :=
  match d with
  | [] => Err (KeyError label)
  | (k, v) :: d' => if label_eqb k label then Ok v else lookup d' label
  end.

Definition epsilon : Q := 1 # 100000000.   (* 1e-8 *)

Definition forward (self : t) (data_items : list Item) : result Scores :=
  if negb (_is_trained self) then Err NotTrainedError
  else
    let num_data_items := length data_items in
    let features := map DistributionDataItem.feature_vector data_items in
    let fre_scores_per_class :=
      map (fun kv => (fst kv, fre_score features (snd kv)))
          (pca_models_per_class self) in
    let predicted_labels :=
      map DistributionDataItem.predicted_label data_items in
    fre_scores_for_predicted_class <-
      mapM (fun il =>
              scores <- lookup fre_scores_per_class (Some (snd il)) ;;
              getitem scores (fst il))
           (combine (seq 0 (length predicted_labels)) predicted_labels) ;;
    min_fre_scores <-
      mapM (fun i =>
              per_class <- mapM (fun kv => getitem (snd kv) i)
                                fre_scores_per_class ;;
              Np.min per_class)
           (seq 0 num_data_items) ;;
    diff <- Np.sub fre_scores_for_predicted_class min_fre_scores ;;
    Ok [ ("min_class_fre_score", min_fre_scores);
         ("predicted_class_fre_score", fre_scores_for_predicted_class);
         ("diff_min_and_predicted_class_fre", Np.scalar_add epsilon diff) ].

End WithUtils.

#[global] Instance ops `{Utils} : OODSubModel.Ops t :=
  {| OODSubModel._is_trained := _is_trained;
     OODSubModel.train := train;
     OODSubModel.forward := forward |}.

End ClassFREBasedModel.

Module ProbabilityBasedModel.

Record t : Type := mk {
  _is_trained : bool
}.

(** Only [super().__init__()]. *)
Definition __init__ : t := {| _is_trained := false |}.

Definition train (self : t) (distribution_data : list Item) : result t :=
  Ok {| _is_trained := true |}.

Definition forward (self : t) (data_items : list Item) : result Scores :=
  msp_scores <-
    mapM (fun data_item =>
            getitem (DistributionDataItem.max_prediction_probability data_item) 0)
         data_items ;;
  Ok [ ("max_softmax_probability", msp_scores) ].

#[global] Instance ops : OODSubModel.Ops t :=
  {| OODSubModel._is_trained := _is_trained;
     OODSubModel.train := train;
     OODSubModel.forward := forward |}.

End ProbabilityBasedModel.

(** The values a [sub_models] dict can hold. *)
Inductive SubModel `{Utils} : Type :=
| Knn (m : KNNBasedOODModel.t)
| ClassFre (m : ClassFREBasedModel.t)
| GlobalFre (m : GlobalFREBasedModel.t)
| Msp (m : ProbabilityBasedModel.t).

#[global] Instance SubModel_ops `{Utils} : OODSubModel.Ops SubModel :=
  {| OODSubModel._is_trained := fun self =>
       match self with
       | Knn m => OODSubModel._is_trained m
       | ClassFre m => OODSubModel._is_trained m
       | GlobalFre m => OODSubModel._is_trained m
       | Msp m => OODSubModel._is_trained m
       end;
     OODSubModel.train := fun self d =>
       match self with
       | Knn m => m' <- OODSubModel.train m d ;; Ok (Knn m')
       | ClassFre m => m' <- OODSubModel.train m d ;; Ok (ClassFre m')
       | GlobalFre m => m' <- OODSubModel.train m d ;; Ok (GlobalFre m')
       | Msp m => m' <- OODSubModel.train m d ;; Ok (Msp m')
       end;
     OODSubModel.forward := fun self d =>
       match self with
       | Knn m => OODSubModel.forward m d
       | ClassFre m => OODSubModel.forward m d
       | GlobalFre m => OODSubModel.forward m d
       | Msp m => OODSubModel.forward m d
       end |}.

(** ** Stratified selection *)

Definition label_dec (a b : option string) : {a = b} + {a <> b}.
Proof. decide equality; apply string_dec. Defined.

(** [int(fraction * n)] *)
Definition int_fraction (fraction : Q) (n : nat) : nat :=
  Z.to_nat (Qfloor (fraction * inject_Z (Z.of_nat n))%Q).

(** Modelled from the spec: [stratified_selection] of [detect_ood/utils.py],
    whose body is missing.  The spec gives no algorithm for the stratified
    splitter, only what its split achieves (see [stratified_selection_spec]
    below), so the function is a parameter of the model: it is handed the
    data, their labels, the fraction and the minimum number of samples per
    class, and returns the indices to train on. *)
Class StratifiedSplitter : Type := {
  stratified_selection :
    list Item -> list (option string) -> Q -> nat -> list Z
}.

(** ** The COOD model *)

Module COODModel.
Section WithCollaborators.
Context `{ThirdParty} `{Utils} `{StratifiedSplitter}.

Record t : Type := mk {
  id_distribution_data : list Item;
  ood_distribution_data : list Item;
  ood_classifier : option classifier;
  train_test_split : Q;
  sub_models : Dict.t SubModel
}.

Definition with_sub_models (self : t) (sm : Dict.t SubModel) : t :=
  {| id_distribution_data := id_distribution_data self;
     ood_distribution_data := ood_distribution_data self;
     ood_classifier := ood_classifier self;
     train_test_split := train_test_split self;
     sub_models := sm |}.

Definition with_ood_classifier (self : t) (c : classifier) : t :=
  {| id_distribution_data := id_distribution_data self;
     ood_distribution_data := ood_distribution_data self;
     ood_classifier := Some c;
     train_test_split := train_test_split self;
     sub_models := sub_models self |}.

(** A method call on an attribute that is still [None]. *)
Definition required_attr {A : Type} (attr : option A) : result A :=
  match attr with
  | Some a => Ok a
  | None => Err AttributeError
  end.

(** The dict literal of the constructor. *)
Definition default_sub_models : Dict.t SubModel :=
  [ ("knn_based", Knn (KNNBasedOODModel.__init__ 10));
    ("class_fre", ClassFre (ClassFREBasedModel.__init__ (995 # 1000)));
    ("global_fre", GlobalFre (GlobalFREBasedModel.__init__ (995 # 1000)));
    ("max_softmax_probability", Msp ProbabilityBasedModel.__init__) ].

Definition _train_sub_models (self : t) (train_data : list Item) : result t :=
  sm <- mapM (fun kv =>
                sub_model <- OODSubModel.train (snd kv) train_data ;;
                Ok (fst kv, sub_model))
             (sub_models self) ;;
  Ok (with_sub_models self sm).

Fixpoint infer_loop (values : list (string * SubModel))
    (scores_all_sub_models : Scores) (distribution_data : list Item)
  : result Scores :=
  match values with
  | [] => Ok scores_all_sub_models
  | (_, sub_model) :: rest =>
      scores_dict <- OODSubModel.__call__ sub_model distribution_data ;;
      infer_loop rest (Dict.update scores_all_sub_models scores_dict)
                 distribution_data
  end.

Definition _infer_sub_models (self : t) (distribution_data : list Item)
  : result Scores :=
  infer_loop (sub_models self) [] distribution_data.

(** [features[:, score_idx] = scores]: the right-hand side must have one
    entry per image, or a single entry that numpy broadcasts. *)
Definition assign_column (num_images : nat) (scores : list Q)
  : result (list Q) :=
  if Nat.eqb (length scores) num_images then Ok scores
  else match scores with
       | [x] => Ok (repeat x num_images)
       | _ => Err ValueError
       end.

Definition _aggregate_sub_model_scores_into_cood_features
    (scores_all_sub_models : Scores) (num_images : nat)
  : result FeatureMatrix :=
  columns <- mapM (fun kv => assign_column num_images (snd kv))
                  scores_all_sub_models ;;
  Ok {| n_rows := num_images;
        n_cols := length scores_all_sub_models;
        rows := map (fun i => map (fun col => nth i col 0%Q) columns)
                    (seq 0 num_images) |}.

(** [np.concatenate((a, b))] along axis 0. *)
Definition np_concatenate (a b : FeatureMatrix) : result FeatureMatrix :=
  if Nat.eqb (n_cols a) (n_cols b) then
    Ok {| n_rows := n_rows a + n_rows b;
          n_cols := n_cols a;
          rows := rows a ++ rows b |}
  else Err ValueError.

Definition _train (self : t) (train_id_data train_ood_data : list Item)
  : result t :=
  self <- _train_sub_models self train_id_data ;;
  let num_id_images := length train_id_data in
  let num_ood_images := length train_ood_data in
  id_scores_all_sub_models <- _infer_sub_models self train_id_data ;;
  ood_scores_all_sub_models <- _infer_sub_models self train_ood_data ;;
  id_features <- _aggregate_sub_model_scores_into_cood_features
                   id_scores_all_sub_models num_id_images ;;
  ood_features <- _aggregate_sub_model_scores_into_cood_features
                    ood_scores_all_sub_models num_ood_images ;;
  all_features <- np_concatenate id_features ood_features ;;
  let all_labels := Np.zeros num_id_images ++ Np.ones num_ood_images in
  Ok (with_ood_classifier self
        (RandomForestClassifier_fit all_features all_labels)).

Definition _evaluate_model (self : t) (test_id_data test_ood_data : list Item)
  : result (Dict.t Q) :=
  id_scores_all_sub_models <- _infer_sub_models self test_id_data ;;
  ood_scores_all_sub_models <- _infer_sub_models self test_ood_data ;;
  let num_id_images := length test_id_data in
  let num_ood_images := length test_ood_data in
  id_features <- _aggregate_sub_model_scores_into_cood_features
                   id_scores_all_sub_models num_id_images ;;
  ood_features <- _aggregate_sub_model_scores_into_cood_features
                    ood_scores_all_sub_models num_ood_images ;;
  all_features <- np_concatenate id_features ood_features ;;
  let all_labels := Np.zeros num_id_images ++ Np.ones num_ood_images in
  clf <- required_attr (ood_classifier self) ;;
  let mean_accuracy := classifier_score clf all_features all_labels in
  Ok [ ("mean_accuracy", mean_accuracy) ].

Definition __call__ (self : t) (prediction : Prediction) : result Q :=
  data_item <- DistributionDataItem.__init__ prediction
                 (Some "sample") (Some "sample") (Some "") true None ;;
  scores_all_sub_models <- _infer_sub_models self [data_item] ;;
  features_arranged <- _aggregate_sub_model_scores_into_cood_features
                         scores_all_sub_models 1 ;;
  clf <- required_attr (ood_classifier self) ;;
  let cood_score := predict_proba clf features_arranged in
  row <- getitem cood_score 0 ;;
  getitem row 1.

(** The position that the index [idx] addresses in a list of [n] elements:
    as in Python, an index below zero counts from the end, and an index
    outside [-n .. n-1] raises. *)
Definition position_of (n : nat) (idx : Z) : result nat :=
  if ((idx <? - Z.of_nat n) || (Z.of_nat n <=? idx))%Z then Err IndexError
  else if (idx <? 0)%Z then Ok (Z.to_nat (Z.of_nat n + idx))
  else Ok (Z.to_nat idx).

(** The item at a position gets the purpose [p]. *)
Fixpoint set_purpose_at (data : list Item) (idx : nat)
    (p : DistributionDataItemPurpose) : result (list Item) :=
  match data, idx with
  | [], _ => Err IndexError
  | item :: rest, O => Ok (DistributionDataItem.set_purpose item p :: rest)
  | item :: rest, S idx' =>
      rest' <- set_purpose_at rest idx' p ;; Ok (item :: rest')
  end.

(** The first loop sets [data[idx].purpose] for every listed index; the
    second loop tests [idx not in train_indices] for the positions
    [0 .. len(data)-1], so an item that was addressed by an index below zero
    is TEST in the end unless its position is listed as well. *)
Definition _assign_train_test_purpose_to_data
    (data : list Item) (train_indices : list Z) : result (list Item) :=
  data <- fold_left
            (fun acc idx =>
               d <- acc ;;
               i <- position_of (length d) idx ;;
               set_purpose_at d i TRAIN)
            train_indices (Ok data) ;;
  Ok (map (fun p =>
             if negb (existsb (Z.eqb (Z.of_nat (fst p))) train_indices)
             then DistributionDataItem.set_purpose (snd p) TEST
             else snd p)
          (combine (seq 0 (length data)) data)).

Definition _split_data (data : list Item) (stratified : bool)
    (split_ratio : Q) : result (list Item) :=
  let selected_indices :=
    if stratified then
      let labels := map DistributionDataItem.annotated_label data in
      stratified_selection data labels split_ratio 1
    else
      map Z.of_nat
          (np_random_choice (length data)
             (int_fraction split_ratio (length data))) in
  _assign_train_test_purpose_to_data data selected_indices.

Definition with_purpose (p : DistributionDataItemPurpose) (data : list Item)
  : list Item :=
  filter (fun item =>
            match DistributionDataItem.purpose item with
            | Some q => purpose_eqb q p
            | None => false
            end) data.

(** The constructor from the point where the ID and OOD items have been
    prepared: split, build the sub-models, train, evaluate. *)
Definition __init__ (id_data ood_data : list Item)
  : result (t * Dict.t Q) :=
  let train_test_split := (90 # 100)%Q in
  id_data <- _split_data id_data true train_test_split ;;
  ood_data <- _split_data ood_data false train_test_split ;;
  let self := {| id_distribution_data := id_data;
                 ood_distribution_data := ood_data;
                 ood_classifier := None;
                 train_test_split := train_test_split;
                 sub_models := default_sub_models |} in
  self <- _train self (with_purpose TRAIN id_data) (with_purpose TRAIN ood_data) ;;
  accuracy <- _evaluate_model self (with_purpose TEST id_data)
                              (with_purpose TEST ood_data) ;;
  Ok (self, accuracy).

End WithCollaborators.
End COODModel.

(** ** A small concrete world

    Stand-ins for the external collaborators, used to run the model on
    concrete data: distances are squared Euclidean distances to the indexed
    vectors, a "subspace" is the first vector of its class, the classifier
    remembers its training set. *)

Module Toy.

Definition sqdist (a b : list Q) : Q :=
  Np.sum (map (fun p => ((fst p - snd p) * (fst p - snd p))%Q) (combine a b)).

Definition third_party : ThirdParty :=
  {| np_sqrt := fun q => (Z.sqrt (Qnum q) # Pos.sqrt (Qden q))%Q;
     np_random_choice := fun n k => seq 0 k;
     classifier := (FeatureMatrix * list Q)%type;
     RandomForestClassifier_fit := fun X y => (X, y);
     predict_proba := fun c X => map (fun _ => [1 # 4; 3 # 4]%Q) (rows X);
     classifier_score := fun c X y => 1%Q |}.

Definition utils : Utils :=
  {| KnnIndex := list (list Q);
     PCA := list Q;
     perform_knn_indexing := fun fvs use_gpu => fvs;
     perform_knn_search := fun index fvs k =>
       (map (fun f => firstn k (map (sqdist f) index)) fvs,
        map (fun f => seq 0 k) fvs);
     calculate_entropy_nearest_neighbours := fun train_labels nn k =>
       map (fun _ => 0%Q) nn;
     fit_pca_model := fun fvs n_components => hd [] fvs;
     fre_score := fun fvs pca => map (fun f => sqdist f pca) fvs |}.

Definition prediction (fv : list Q) (label : string) (p : Q) : Prediction :=
  {| prediction_feature_vector :=
       Some {| shape := [length fv]; data := fv |};
     annotations := [ {| labels := [ {| name := label; probability := p |} ] |} ] |}.

(** An item as the constructor builds it when normalisation is off. *)
Definition item (fv : list Q) (predicted : string) (p : Q)
    (annotated : option string) : Item :=
  {| DistributionDataItem.media_name := None;
     DistributionDataItem.image_path := None;
     DistributionDataItem.annotated_label := annotated;
     DistributionDataItem.raw_prediction := prediction fv predicted p;
     DistributionDataItem.purpose := None;
     DistributionDataItem._normalise_feature_vector := false;
     DistributionDataItem.feature_vector := fv;
     DistributionDataItem.max_prediction_probability := [p];
     DistributionDataItem.predicted_label := predicted |}.

Definition cat : Item := item [1; 0]%Q "cat" (9 # 10) (Some "cat").
Definition cat2 : Item := item [3 # 4; 1 # 4]%Q "cat" (8 # 10) (Some "cat").
Definition dog : Item := item [0; 1]%Q "dog" (7 # 10) (Some "dog").
Definition dog2 : Item := item [1 # 4; 3 # 4]%Q "dog" (6 # 10) (Some "dog").
Definition odd : Item := item [5; 5]%Q "cat" (4 # 10) None.
Definition odd2 : Item := item [7; 2]%Q "dog" (3 # 10) None.

Definition cow : Item := item [1 # 2; 1 # 2]%Q "cow" (6 # 10) None.



(** A stratified splitter: of every class with two members or more, the
    last member is left out; every other position is selected. *)
Definition splitter : StratifiedSplitter :=
  {| stratified_selection := fun x y fraction min_samples_per_class =>
       map Z.of_nat
           (filter (fun i =>
                      match nth_error y i with
                      | Some c =>
                          negb (existsb (label_eqb c) (firstn i y)
                                && negb (existsb (label_eqb c) (skipn (S i) y)))
                      | None => false
                      end)
                   (seq 0 (length y))) |}.

Definition untrained_model : COODModel.t :=
  @COODModel.mk third_party utils [] [] None (90 # 100)
    (@COODModel.default_sub_models utils).

(** The model after [_train] on three ID items and two OOD items. *)
Definition trained_model : COODModel.t :=
  match @COODModel._train third_party utils untrained_model
          [cat; cat2; dog] [odd; odd2] with
  | Ok self => self
  | Err _ => untrained_model
  end.

(** A per-class sub-model fitted on the classes "cat" and "dog". *)
Definition class_fre : ClassFREBasedModel.t :=
  match @ClassFREBasedModel.train utils
          (@ClassFREBasedModel.__init__ utils (995 # 1000)) [cat; dog; cat2] with
  | Ok m => m
  | Err _ => @ClassFREBasedModel.__init__ utils (995 # 1000)
  end.

Definition class_fre_scores (items : list Item) : Scores :=
  match OODSubModel.__call__ class_fre items with
  | Ok scores => scores
  | Err _ => []
  end.

(** A neighbour-based sub-model with k = 2, indexed on three items. *)
Definition knn : KNNBasedOODModel.t :=
  match @KNNBasedOODModel.train utils (@KNNBasedOODModel.__init__ utils 2)
          [cat; dog; cat2] with
  | Ok m => m
  | Err _ => @KNNBasedOODModel.__init__ utils 2
  end.

Definition knn_scores (items : list Item) : Scores :=
  match OODSubModel.__call__ knn items with
  | Ok scores => scores
  | Err _ => []
  end.

Definition scores_of (items : list Item) : Scores :=
  match @COODModel._infer_sub_models third_party utils trained_model items with
  | Ok scores => scores
  | Err _ => []
  end.

End Toy.

(** ** Call sequences on one sub-model

    A client trains and scores an object in any order.  [run] replays such a
    sequence; a call that raises leaves the object as it was. *)

Module Lifecycle.

Inductive Op : Type :=
| CallTrain (distribution_data : list Item)
| CallScore (data_items : list Item).

Inductive Outcome : Type :=
| TrainReturned
| TrainRaised (e : PyError)
| ScoreReturned (scores : Scores)
| ScoreRaised (e : PyError).

Fixpoint run {M : Type} `{OODSubModel.Ops M} (self : M) (ops : list Op)
  : list Outcome :=
  match ops with
  | [] => []
  | CallTrain d :: rest =>
      match OODSubModel.train self d with
      | Ok self' => TrainReturned :: run self' rest
      | Err e => TrainRaised e :: run self rest
      end
  | CallScore items :: rest =>
      match OODSubModel.__call__ self items with
      | Ok s => ScoreReturned s :: run self rest
      | Err e => ScoreRaised e :: run self rest
      end
  end.

End Lifecycle.

(** ** Vocabulary of the statements *)

(** The entry that [raw_prediction.annotations[0].labels[0]] reads. *)
Definition top_label (raw_prediction : Prediction) : option ScoredLabel :=
  match nth_error (annotations raw_prediction) 0 with
  | Some ann => nth_error (labels ann) 0
  | None => None
  end.

(** [item] is what the constructor returned for [raw_prediction], for some
    choice of the remaining arguments. *)
Definition constructed `{ThirdParty} (raw_prediction : Prediction) (item : Item)
  : Prop :=
  exists media_name media_path annotated_label normalise purpose,
    DistributionDataItem.__init__ raw_prediction media_name media_path
      annotated_label normalise purpose = Ok item.

(** The keys of a dict after [d[k] = v], and after a sequence of such
    assignments. *)
Definition add_key (ks : list string) (k : string) : list string :=
  if existsb (String.eqb k) ks then ks else ks ++ [k].

Definition merge_keys (ks ks' : list string) : list string :=
  fold_left add_key ks' ks.

(** The score names each kind of sub-model emits, in the order of its dict
    literal. *)
Definition score_names `{Utils} (m : SubModel) : list string :=
  match m with
  | Knn _ => [ "knn_distance"; "nn_distance"; "average_nn_distance";
               "entropy_score"; "enwedi_score"; "enwedi_nn_score" ]
  | ClassFre _ => [ "min_class_fre_score"; "predicted_class_fre_score";
                    "diff_min_and_predicted_class_fre" ]
  | GlobalFre _ => [ "global_fre_score" ]
  | Msp _ => [ "max_softmax_probability" ]
  end.

(** The columns of the feature matrix for a registry of sub-models: the score
    names in the order in which the registry first emits them. *)
Definition column_names `{Utils} (sub_models : Dict.t SubModel) : list string :=
  fold_left merge_keys (map (fun kv => score_names (snd kv)) sub_models) [].

(** [features[i, j]] *)
Definition entry (features : FeatureMatrix) (i j : nat) : Q :=
  nth j (nth i (rows features) []) 0%Q.

(** The data after the purposes have been assigned: the items at the
    selected positions are TRAIN, the others TEST. *)
Definition assigned (data : list Item) (train_indices : list nat) : list Item :=
  map (fun p =>
         DistributionDataItem.set_purpose (snd p)
           (if existsb (Nat.eqb (fst p)) train_indices then TRAIN else TEST))
      (combine (seq 0 (length data)) data).

(** The positions listed among the indices: an index below zero is not
    the position of any item. *)
Definition positions (train_indices : list Z) : list nat :=
  map Z.to_nat (filter (Z.leb 0) train_indices).

(** The index addresses an item of a list of [n] elements. *)
Definition in_range (n : nat) (idx : Z) : Prop :=
  (- Z.of_nat n <= idx < Z.of_nat n)%Z.

(** The number of distinct positions listed. *)
Definition n_selected (train_indices : list Z) : nat :=
  length (nodup Nat.eq_dec (positions train_indices)).



(** The same of a selection of indices for the labels [y]: the indices are
    positions of the data, every class has a selected member, and every
    class with two members or more has a member that is not selected. *)
Definition represents (y : list (option string)) (selected : list Z) : Prop :=
  Forall (fun idx => (0 <= idx < Z.of_nat (length y))%Z) selected /\
  (forall c, In c y ->
     exists i, In (Z.of_nat i) selected /\ nth_error y i = Some c) /\
  (forall c, 2 <= count_occ label_dec y c ->
     exists i, ~ In (Z.of_nat i) selected /\ nth_error y i = Some c).


(** ** More sample collaborators *)

Module Sample.

(** As [Toy.utils], with every row of distances padded to [k] columns. *)
Definition utils : Utils :=
  {| KnnIndex := list (list Q);
     PCA := list Q;
     perform_knn_indexing := fun fvs use_gpu => fvs;
     perform_knn_search := fun index fvs k =>
       (map (fun f => firstn k (map (Toy.sqdist f) index ++ repeat 0%Q k)) fvs,
        map (fun f => seq 0 k) fvs);
     calculate_entropy_nearest_neighbours := fun train_labels nn k =>
       map (fun _ => 0%Q) nn;
     fit_pca_model := fun fvs n_components => hd [] fvs;
     fre_score := fun fvs pca => map (fun f => Toy.sqdist f pca) fvs |}.

Definition knn (k : nat) : KNNBasedOODModel.t :=
  @KNNBasedOODModel.mk utils true k
    (Some [[1; 0]%Q; [0; 1]%Q]) (Some [Some "cat"; Some "dog"]).

End Sample.

(** ** Data preparation

    The methods of [COODModel] that fetch, read and score the images.  They
    act on the platform, the file system, OpenCV and the deployment; these
    are operations on an abstract world, each of which may return, raise and
    change the world. *)

Inductive Exn : Type :=
| Raised (e : PyError)      (* an exception of the kinds used above *)
| IntKeyError (key : nat)   (* KeyError whose key is an integer *)
| External (code : nat)     (* whatever an external call raises *)
| OutsideModel.             (* a value that [DistributionDataItem] cannot hold here *)

Inductive outcome (A : Type) : Type :=
| Done (a : A)
| Raise (e : Exn).

Arguments Done {A} a.
Arguments Raise {A} e.

Definition IO (W A : Type) : Type := W -> outcome A * W.

Definition io_ret {W A : Type} (a : A) : IO W A := fun w => (Done a, w).

Definition io_raise {W A : Type} (e : Exn) : IO W A := fun w => (Raise e, w).

Definition io_bind {W A B : Type} (m : IO W A) (k : A -> IO W B) : IO W B :=
  fun w =>
    match m w with
    | (Done a, w') => k a w'
    | (Raise e, w') => (Raise e, w')
    end.

Notation "x <~ c ;; k" := (io_bind c (fun x => k))
  (at level 61, c at next level, right associativity).

Definition io_lift {W A : Type} (r : result A) : IO W A :=
  match r with
  | Ok a => io_ret a
  | Err e => io_raise (Raised e)
  end.

(** A [for] loop (or comprehension) that collects one result per element. *)
Fixpoint io_for {W A B : Type} (f : A -> IO W B) (l : list A) : IO W (list B) :=
  match l with
  | [] => io_ret []
  | a :: l' => b <~ f a ;; bs <~ io_for f l' ;; io_ret (b :: bs)
  end.

(** *** What [json.load] returns *)

#[warnings="-register-all"]
Inductive JSON : Type :=
| JNull
| JBool (b : bool)
| JNumber (q : Q)
| JString (s : string)
| JArray (l : list JSON)
| JObject (d : list (string * JSON)).   (* a dict, keys distinct *)

Fixpoint json_get (d : list (string * JSON)) (key : string) : option JSON :=
  match d with
  | [] => None
  | (k, v) :: d' => if String.eqb k key then Some v else json_get d' key
  end.

(** [v[key]] for a string key. *)
Definition subscript_key (v : JSON) (key : string) : outcome JSON :=
  match v with
  | JObject d =>
      match json_get d key with
      | Some x => Done x
      | None => Raise (Raised (KeyError (Some key)))
      end
  | _ => Raise (Raised TypeError)
  end.

(** [v[i]] for a non-negative integer.  Indexing a string gives its
    character at [i] as a string (for text outside ASCII the model gives a
    byte of it). *)
Definition subscript_index (v : JSON) (i : nat) : outcome JSON :=
  match v with
  | JArray l =>
      match nth_error l i with
      | Some x => Done x
      | None => Raise (Raised IndexError)
      end
  | JString s =>
      match String.get i s with
      | Some c => Done (JString (String c EmptyString))
      | None => Raise (Raised IndexError)
      end
  | JObject _ => Raise (IntKeyError i)
  | _ => Raise (Raised TypeError)
  end.

Definition outcome_bind {A B : Type} (o : outcome A) (k : A -> outcome B)
  : outcome B :=
  match o with
  | Done a => k a
  | Raise e => Raise e
  end.

(** *** Strings and paths ([str] methods and [posixpath]) *)

Definition lower_ascii (c : ascii) : ascii :=
  let n := nat_of_ascii c in
  if (Nat.leb 65 n && Nat.leb n 90)%bool then ascii_of_nat (n + 32) else c.

(** [s.lower()]; characters outside ASCII are left as they are, which does
    not change whether the result ends with one of the extensions below. *)
Fixpoint lower (s : string) : string :=
  match s with
  | EmptyString => EmptyString
  | String c r => String (lower_ascii c) (lower r)
  end.

Fixpoint endswith (s suffix : string) : bool :=
  if String.eqb s suffix then true
  else match s with
       | EmptyString => false
       | String _ r => endswith r suffix
       end.

Definition startswith (s prefix : string) : bool := String.prefix prefix s.

Fixpoint has_slash (s : string) : bool :=
  match s with
  | EmptyString => false
  | String c r => if Ascii.eqb c "/" then true else has_slash r
  end.

(** [os.path.join(a, b)] *)
Definition os_path_join (a b : string) : string :=
  if startswith b "/" then b
  else if (String.eqb a "" || endswith a "/")%bool then a ++ b
  else a ++ "/" ++ b.

(** [os.path.basename(p)]: what follows the last slash. *)
Fixpoint os_path_basename (p : string) : string :=
  match p with
  | EmptyString => EmptyString
  | String c r => if has_slash p then os_path_basename r else p
  end.

(** The part of [s] before its last dot, when it has a dot. *)
Fixpoint before_last_dot (s : string) : option string :=
  match s with
  | EmptyString => None
  | String c r =>
      match before_last_dot r with
      | Some root => Some (String c root)
      | None => if Ascii.eqb c "." then Some EmptyString else None
      end
  end.

Fixpoint all_dots (s : string) : bool :=
  match s with
  | EmptyString => true
  | String c r => if Ascii.eqb c "." then all_dots r else false
  end.

(** [os.path.splitext(p)[0]] for a path without a slash: the extension
    starts at the last dot, unless only dots precede it. *)
Definition splitext_root (p : string) : string :=
  match before_last_dot p with
  | Some root => if all_dots root then p else root
  | None => p
  end.

Definition valid_extensions : list string :=
  [ ".jpg"; ".jpeg"; ".png"; ".bmp"; ".gif"; ".tiff" ].

(** [image_name.lower().endswith(valid_extensions)] *)
Definition has_valid_extension (image_name : string) : bool :=
  existsb (endswith (lower image_name)) valid_extensions.

(** *** Platform objects *)

Module Dataset.
Record t : Type := mk { name : string }.
End Dataset.

Module Media.
Record t : Type := mk { name : string; id : string }.
End Media.

(** [ID_DATASET_NAMES] and [OOD_DATASET_NAMES] *)
Definition ID_DATASET_NAMES : list string := [ "Dataset" ].
Definition OOD_DATASET_NAMES : list string := [ "OOD reference dataset" ].

(** [name in NAMES] *)
Definition name_in (name : string) (names : list string) : bool :=
  existsb (String.eqb name) names.

(** The external operations of the data preparation. *)
Class Platform : Type := {
  World : Type;
  Image : Type;
  (** [image_client.get_all_images(dataset)] *)
  get_all_images : Dataset.t -> IO World (list Media.t);
  (** [image_client.download_all(path_to_folder, append_image_uid, dataset)] *)
  download_all : string -> bool -> Dataset.t -> IO World unit;
  (** [annotation_client.download_annotations_for_images(images,
      path_to_folder, append_image_uid)] *)
  download_annotations_for_images : list Media.t -> string -> bool -> IO World unit;
  os_listdir : string -> IO World (list string);
  os_path_exists : string -> IO World bool;
  os_makedirs : string -> IO World unit;
  (** [open(file, "r")] followed by [json.load] *)
  open_json_load : string -> IO World JSON;
  (** [cv2.imread]; [None] for a file it cannot read *)
  cv2_imread : string -> IO World (option Image);
  (** [cv2.cvtColor(img, cv2.COLOR_BGR2RGB)] *)
  cv2_cvtColor : option Image -> IO World Image;
  cv2_imwrite : string -> Image -> IO World bool;
  deployment_explain : Image -> IO World Prediction;
  deployment_infer : Image -> IO World Prediction;
  (** [CutoutTransform.__call__] *)
  cutout_transform : Image -> IO World Image
}.

(** What the source of a distribution can be: [Union[Dataset, str]]. *)
Inductive Source : Type :=
| FromDataset (dataset : Dataset.t)
| FromDirectory (path : string).

Module Preparation.
Section WithPlatform.
Context `{ThirdParty} `{Platform}.

(** The attributes of [COODModel] that the data preparation reads. *)
Record t : Type := mk {
  datasets : list Dataset.t;                 (* [self.project.datasets] *)
  ood_reference_images_dir : option string;
  data_dir : string;
  (** [CutoutTransform()] or [None] *)
  corruption_transform : bool
}.

(** [if x:] for an optional string. *)
Definition truthy (x : option string) : bool :=
  match x with
  | Some s => negb (String.eqb s "")
  | None => false
  end.

Definition _infer_image_on_deployment (self : t) (image_path : string)
    (explain : bool) : IO World Prediction :=
  img <~ cv2_imread image_path ;;
  img_rgb <~ cv2_cvtColor img ;;
  if explain then deployment_explain img_rgb else deployment_infer img_rgb.

(** The value returned is a JSON value, Python's [None] being JSON's
    [null]: the answer for a file that does not exist is [JNull], and so is
    a name that is [null] in the file. *)
Definition _load_annotations (annotation_file : string) : IO World JSON :=
  found <~ os_path_exists annotation_file ;;
  if (found : bool) then
    annotation <~ open_json_load annotation_file ;;
    (fun w =>
       (outcome_bind (subscript_key annotation "annotations") (fun a =>
        outcome_bind (subscript_index a 0) (fun first =>
        outcome_bind (subscript_key first "labels") (fun ls =>
        outcome_bind (subscript_index ls 0) (fun label =>
        subscript_key label "name")))), w))
  else io_ret JNull.

Definition _prepare_data_item (self : t) (image_path : string)
    (annotation_label : option string) : IO World Item :=
  prediction <~ _infer_image_on_deployment self image_path true ;;
  io_lift (DistributionDataItem.__init__ prediction
             (Some (splitext_root (os_path_basename image_path)))
             (Some image_path) annotation_label true None).

(** The label the constructor receives: a string or [None]. *)
Definition as_label (loaded : JSON) : IO World (option string) :=
  match loaded with
  | JNull => io_ret None
  | JString s => io_ret (Some s)
  | _ => io_raise OutsideModel
  end.

Definition _prepare_distribution_data (self : t) (source : Source)
  : IO World (list Item) :=
  paths <~
    match source with
    | FromDataset source =>
        media_list <~ get_all_images source ;;
        _ <~ download_all (data_dir self) true source ;;
        _ <~ download_annotations_for_images media_list (data_dir self) true ;;
        let annotations_dir := os_path_join (data_dir self) "annotations" in
        let image_dir :=
          os_path_join (os_path_join (data_dir self) "images")
                       (Dataset.name source) in
        let image_paths :=
          map (fun media =>
                 os_path_join image_dir
                   (Media.name media ++ "_" ++ Media.id media ++ ".jpg"))
              media_list in
        let annotation_files :=
          map (fun media =>
                 Some (os_path_join annotations_dir
                         (Media.name media ++ "_" ++ Media.id media ++ ".json")))
              media_list in
        io_ret (combine image_paths annotation_files)
    | FromDirectory source =>
        names <~ os_listdir source ;;
        let image_paths :=
          map (os_path_join source) (filter has_valid_extension names) in
        let annotation_files := repeat None (length image_paths) in
        io_ret (combine image_paths annotation_files)
    end ;;
  io_for (fun pa : string * option string =>
            let (image_path, annotation_file) := pa in
            annotation_label <~
              (if truthy annotation_file
               then match annotation_file with
                    | Some file => loaded <~ _load_annotations file ;;
                                   as_label loaded
                    | None => io_ret None
                    end
               else io_ret None) ;;
            _prepare_data_item self image_path annotation_label)
         paths.

Definition _create_ood_images (self : t) (reference_dataset : Dataset.t)
  : IO World string :=
  let ref_images_path :=
    os_path_join (os_path_join (data_dir self) (Dataset.name reference_dataset))
                 "images" in
  let corrupted_images_path := os_path_join (data_dir self) "ood_images" in
  found <~ os_path_exists corrupted_images_path ;;
  _ <~ (if negb found then os_makedirs corrupted_images_path else io_ret tt) ;;
  names <~ os_listdir ref_images_path ;;
  _ <~ io_for (fun image_name =>
                 let image_path := os_path_join ref_images_path image_name in
                 img <~ cv2_imread image_path ;;
                 img <~ cv2_cvtColor img ;;
                 corrupted_img <~
                   (if corruption_transform self then cutout_transform img
                    else io_raise (Raised TypeError)) ;;
                 let corrupted_image_path :=
                   os_path_join corrupted_images_path image_name in
                 cv2_imwrite corrupted_image_path corrupted_img)
              names ;;
  io_ret corrupted_images_path.

Record DistributionData : Type := {
  id_data : list Item;
  ood_data : list Item
}.

Definition _prepare_id_ood_data (self : t) : IO World DistributionData :=
  let datasets_in_project := datasets self in
  let id_datasets_in_geti :=
    filter (fun dataset => name_in (Dataset.name dataset) ID_DATASET_NAMES)
           datasets_in_project in
  let ood_datasets_in_geti :=
    filter (fun dataset =>
              (negb (name_in (Dataset.name dataset) ID_DATASET_NAMES)
               && name_in (Dataset.name dataset) OOD_DATASET_NAMES)%bool)
           datasets_in_project in
  if Nat.eqb (length id_datasets_in_geti) 0 then io_raise (Raised ValueError)
  else
    id_lists <~ io_for (fun dataset =>
                          _prepare_distribution_data self (FromDataset dataset))
                       id_datasets_in_geti ;;
    let id_distribution_data_items := concat id_lists in
    ood_distribution_data_items <~
      (if truthy (ood_reference_images_dir self) then
         match ood_reference_images_dir self with
         | Some dir => _prepare_distribution_data self (FromDirectory dir)
         | None => io_ret []
         end
       else if Nat.eqb (length ood_datasets_in_geti) 0 then
         ood_lists <~ io_for (fun dataset =>
                                ood_path <~ _create_ood_images self dataset ;;
                                _prepare_distribution_data self
                                  (FromDirectory ood_path))
                             id_datasets_in_geti ;;
         io_ret (concat ood_lists)
       else
         ood_lists <~ io_for (fun dataset =>
                                _prepare_distribution_data self
                                  (FromDataset dataset))
                             ood_datasets_in_geti ;;
         io_ret (concat ood_lists)) ;;
    io_ret {| id_data := id_distribution_data_items;
              ood_data := ood_distribution_data_items |}.

End WithPlatform.
End Preparation.

(** The body of the loop of [_prepare_distribution_data] over the zipped
    image paths and annotation files. *)
Definition step `{ThirdParty} `{Platform} (self : Preparation.t)
    (pa : string * option string) : IO World Item :=
  let (image_path, annotation_file) := pa in
  annotation_label <~
    (if Preparation.truthy annotation_file
     then match annotation_file with
          | Some file => loaded <~ Preparation._load_annotations file ;;
                         Preparation.as_label loaded
          | None => io_ret None
          end
     else io_ret None) ;;
  Preparation._prepare_data_item self image_path annotation_label.

(** A small world: JSON files, folders with their listings, the media of
    each dataset, and a log of the images written. *)
Module SampleWorld.

Record world : Type := {
  json_files : list (string * JSON);
  folders : list (string * list string);
  media : list (string * list Media.t);
  written : list string
}.

Fixpoint find {V : Type} (d : list (string * V)) (key : string) : option V :=
  match d with
  | [] => None
  | (k, v) :: d' => if String.eqb k key then Some v else find d' key
  end.

Definition platform : Platform :=
  {| World := world;
     Image := string;
     get_all_images := fun dataset w =>
       (Done match find (media w) (Dataset.name dataset) with
             | Some l => l
             | None => []
             end, w);
     download_all := fun path uid dataset w => (Done tt, w);
     download_annotations_for_images := fun images path uid w => (Done tt, w);
     os_listdir := fun path w =>
       (match find (folders w) path with
        | Some names => Done names
        | None => Raise (External 2)
        end, w);
     os_path_exists := fun path w =>
       (Done match find (json_files w) path, find (folders w) path with
             | None, None => false
             | _, _ => true
             end, w);
     os_makedirs := fun path w =>
       (Done tt, {| json_files := json_files w;
                    folders := (path, []) :: folders w;
                    media := media w;
                    written := written w |});
     open_json_load := fun path w =>
       (match find (json_files w) path with
        | Some v => Done v
        | None => Raise (External 2)
        end, w);
     cv2_imread := fun path w => (Done (Some path), w);
     cv2_cvtColor := fun img w =>
       (match img with
        | Some i => Done i
        | None => Raise (External 1)
        end, w);
     cv2_imwrite := fun path img w =>
       (Done true, {| json_files := json_files w;
                      folders := folders w;
                      media := media w;
                      written := path :: written w |});
     deployment_explain := fun img w =>
       (Done (Toy.prediction [3; 4]%Q "cat" (9 # 10)), w);
     deployment_infer := fun img w =>
       (Done (Toy.prediction [3; 4]%Q "cat" (9 # 10)), w);
     cutout_transform := fun img w => (Done img, w) |}.

Definition cat_annotation : JSON :=
  JObject [ ("annotations",
             JArray [ JObject [ ("labels",
                                 JArray [ JObject [ ("name", JString "cat") ] ]) ] ]) ].

Definition w0 : world :=
  {| json_files := [ ("data/annotations/img_7.json", cat_annotation) ];
     folders := [ ("shots", [ "a.JPG"; "notes.txt"; "b.png" ]) ];
     media := [ ("Dataset", [ {| Media.name := "img"; Media.id := "7" |} ]) ];
     written := [] |}.

Definition self (dir : option string) (names : list string) : Preparation.t :=
  {| Preparation.datasets := map Dataset.mk names;
     Preparation.ood_reference_images_dir := dir;
     Preparation.data_dir := "data";
     Preparation.corruption_transform :=
       match dir with None => true | Some _ => false end |}.

End SampleWorld.

(** A world in which the images of the dataset have been stored where
    [_create_ood_images] reads them. *)
Definition SampleWorld_w1 : SampleWorld.world :=
  {| SampleWorld.json_files := SampleWorld.json_files SampleWorld.w0;
     SampleWorld.folders :=
       ("data/Dataset/images", [ "img_7.jpg" ])
       :: ("data/ood_images", [ "img_7.jpg"; "readme.md" ])
       :: SampleWorld.folders SampleWorld.w0;
     SampleWorld.media := SampleWorld.media SampleWorld.w0;
     SampleWorld.written := [] |}.

(** ** Vocabulary of the data preparation *)

(** An item as the preparation leaves it: no purpose yet, and a normalised
    feature vector. *)
Definition unassigned (it : Item) : Prop :=
  DistributionDataItem.purpose it = None /\
  DistributionDataItem.is_feature_vector_normalised it = true.

(** [from_dataset self dataset w items w']: prepared in the world [w], the
    dataset gives [items] and leaves the world [w']; the items are the
    images of the media that the platform lists for the dataset in [w], one
    per medium and in that order, each at the place its image is downloaded
    to. *)
Definition from_dataset `{ThirdParty} `{Platform} (self : Preparation.t)
    (dataset : Dataset.t) (w : World) (items : list Item) (w' : World) : Prop :=
  Preparation._prepare_distribution_data self (FromDataset dataset) w
  = (Done items, w') /\
  exists media_list w1,
    get_all_images dataset w = (Done media_list, w1) /\
    map DistributionDataItem.image_path items
    = map (fun m =>
             Some (os_path_join
                     (os_path_join
                        (os_path_join (Preparation.data_dir self) "images")
                        (Dataset.name dataset))
                     (Media.name m ++ "_" ++ Media.id m ++ ".jpg")))
          media_list.

(** [from_directory self dir w items w']: prepared in the world [w], the
    folder [dir] gives [items] and leaves the world [w']; the items are the
    image files that the listing of [dir] in [w] names, in that order, and
    they have no annotated label. *)
Definition from_directory `{ThirdParty} `{Platform} (self : Preparation.t)
    (dir : string) (w : World) (items : list Item) (w' : World) : Prop :=
  Preparation._prepare_distribution_data self (FromDirectory dir) w
  = (Done items, w') /\
  exists names w1,
    os_listdir dir w = (Done names, w1) /\
    map DistributionDataItem.image_path items
    = map (fun n => Some (os_path_join dir n))
          (filter has_valid_extension names) /\
    Forall (fun it => DistributionDataItem.annotated_label it = None) items.

(** [generated_from self dataset w items w']: in the world [w] the images
    of the dataset are corrupted into [<data_dir>/ood_images], and that
    folder, prepared in the world this leaves, gives [items]. *)
Definition generated_from `{ThirdParty} `{Platform} (self : Preparation.t)
    (dataset : Dataset.t) (w : World) (items : list Item) (w' : World) : Prop :=
  exists w1,
    Preparation._create_ood_images self dataset w
    = (Done (os_path_join (Preparation.data_dir self) "ood_images"), w1) /\
    from_directory self (os_path_join (Preparation.data_dir self) "ood_images")
                   w1 items w'.

(** Sources handled in turn, each in the world the one before it left; the
    items are collected in that order. *)
Inductive in_turn {A W : Type} (R : A -> W -> list Item -> W -> Prop)
  : list A -> W -> list Item -> W -> Prop :=
| in_turn_nil (w : W) : in_turn R [] w [] w
| in_turn_cons (a : A) (l : list A) (w w1 w' : W) (items rest : list Item) :
    R a w items w1 ->
    in_turn R l w1 rest w' ->
    in_turn R (a :: l) w (items ++ rest) w'.

(** [dataset.name in ID_DATASET_NAMES] *)
Definition is_id_dataset (dataset : Dataset.t) : bool :=
  name_in (Dataset.name dataset) ID_DATASET_NAMES.

(** The [elif]: [dataset.name in OOD_DATASET_NAMES], for a dataset that is
    not an ID dataset. *)
Definition is_ood_dataset (dataset : Dataset.t) : bool :=
  (negb (name_in (Dataset.name dataset) ID_DATASET_NAMES)
   && name_in (Dataset.name dataset) OOD_DATASET_NAMES)%bool.

(** * Verification *)

(** ** The error monad *)

Lemma bind_Ok {A B : Type} (r : result A) (k : A -> result B) (b : B) :
  bind r k = Ok b -> exists a, r = Ok a /\ k a = Ok b.
Proof. destruct r as [a|e]; simpl; [eauto | discriminate]. Qed.

Lemma bind_Err {A B : Type} (r : result A) (k : A -> result B) (e : PyError) :
  bind r k = Err e -> r = Err e \/ exists a, r = Ok a /\ k a = Err e.
Proof. destruct r as [a|e']; simpl; [eauto | intros [= ->]; auto]. Qed.

(** Splits a successful sequence of binds found in hypothesis [H]. *)
Ltac bind_inv H :=
  let a := fresh "v" in
  let Ha := fresh "E" in
  apply bind_Ok in H; destruct H as (a & Ha & H).

Lemma getitem_Ok {A : Type} (l : list A) (i : nat) (a : A) :
  getitem l i = Ok a <-> nth_error l i = Some a.
Proof.
  unfold getitem. destruct (nth_error l i); split; congruence.
Qed.

Lemma getitem_Err {A : Type} (l : list A) (i : nat) (e : PyError) :
  getitem l i = Err e -> e = IndexError.
Proof. unfold getitem. destruct (nth_error l i); congruence. Qed.

Lemma mapM_length {A B : Type} (f : A -> result B) (l : list A) (bs : list B) :
  mapM f l = Ok bs -> length bs = length l.
Proof.
  revert bs. induction l as [|a l IH]; simpl; intros bs Hm.
  - injection Hm as <-. reflexivity.
  - bind_inv Hm. bind_inv Hm. injection Hm as <-. simpl. f_equal. auto.
Qed.

Lemma mapM_nth {A B : Type} (f : A -> result B) (l : list A) (bs : list B) :
  mapM f l = Ok bs ->
  forall i a, nth_error l i = Some a ->
    exists b, nth_error bs i = Some b /\ f a = Ok b.
Proof.
  revert bs. induction l as [|x l IH]; simpl; intros bs Hm i a Hi.
  - destruct i; discriminate.
  - bind_inv Hm. bind_inv Hm. injection Hm as <-.
    destruct i as [|i]; simpl in *.
    + injection Hi as <-. eauto.
    + eauto.
Qed.

Lemma mapM_Err {A B : Type} (f : A -> result B) (l : list A) (e : PyError) :
  mapM f l = Err e -> exists a, In a l /\ f a = Err e.
Proof.
  induction l as [|x l IH]; simpl; intros Hm; [discriminate|].
  apply bind_Err in Hm. destruct Hm as [Hx | (b & Hb & Hm)].
  - eauto.
  - apply bind_Err in Hm. destruct Hm as [Hl | (bs & Hbs & Hm)].
    + destruct (IH Hl) as (a & Ha & Hfa). eauto.
    + discriminate.
Qed.

Lemma mapM_total {A B : Type} (f : A -> result B) (l : list A) :
  (forall a, In a l -> exists b, f a = Ok b) -> exists bs, mapM f l = Ok bs.
Proof.
  induction l as [|x l IH]; simpl; intros Hf; [eauto|].
  destruct (Hf x (or_introl eq_refl)) as (b & ->).
  destruct IH as (bs & ->); [auto|]. simpl. eauto.
Qed.

Lemma mapM_map {A B : Type} (f : A -> result B) (g : A -> B) (l : list A) :
  (forall a, In a l -> f a = Ok (g a)) -> mapM f l = Ok (map g l).
Proof.
  induction l as [|x l IH]; simpl; intros Hf; [reflexivity|].
  rewrite (Hf x (or_introl eq_refl)). simpl. rewrite IH by auto. reflexivity.
Qed.

Lemma broadcast2_Err (f : Q -> Q -> Q) (a b : list Q) (e : PyError) :
  Np.broadcast2 f a b = Err e -> e = ValueError.
Proof.
  unfold Np.broadcast2. destruct (Nat.eqb _ _); [discriminate|].
  destruct a as [|x [|? ?]], b as [|y [|? ?]]; congruence.
Qed.

Lemma min_Err (a : list Q) (e : PyError) : Np.min a = Err e -> e = ValueError.
Proof. destruct a; simpl; congruence. Qed.

(** ** The untrained-call guard *)

Section Guard.
Context `{Utils}.

Lemma call_untrained {M : Type} `{OODSubModel.Ops M} (self : M) items :
  OODSubModel._is_trained self = false ->
  OODSubModel.__call__ self items = Err NotTrainedError.
Proof. unfold OODSubModel.__call__. intros ->. reflexivity. Qed.

Lemma knn_forward_raises (m : KNNBasedOODModel.t) items :
  KNNBasedOODModel.forward m items <> Err NotTrainedError.
Proof.
  unfold KNNBasedOODModel.forward. intros Hf.
  destruct (KNNBasedOODModel.knn_search_index m); simpl in Hf; [|discriminate].
  destruct (perform_knn_search _ _ _) as [distances nn_indices].
  repeat match type of Hf with
  | bind ?c _ = Err _ =>
      apply bind_Err in Hf; destruct Hf as [Hf | (? & _ & Hf)]
  end; try discriminate.
  - apply mapM_Err in Hf. destruct Hf as (? & _ & Hf).
    apply getitem_Err in Hf. discriminate.
  - apply mapM_Err in Hf. destruct Hf as (? & _ & Hf).
    apply getitem_Err in Hf. discriminate.
  - destruct (KNNBasedOODModel.train_set_labels m); discriminate.
  - apply broadcast2_Err in Hf. discriminate.
  - apply broadcast2_Err in Hf. discriminate.
Qed.

Lemma class_fre_lookup_Err {V : Type} (d : list (option string * V)) l e :
  ClassFREBasedModel.lookup d l = Err e -> e = KeyError l.
Proof.
  induction d as [|[k v] d IH]; simpl; [congruence|].
  destruct (label_eqb k l); [discriminate | auto].
Qed.

Lemma class_fre_forward_raises (m : ClassFREBasedModel.t) items :
  ClassFREBasedModel._is_trained m = true ->
  ClassFREBasedModel.forward m items <> Err NotTrainedError.
Proof.
  unfold ClassFREBasedModel.forward. intros -> Hf. simpl in Hf.
  apply bind_Err in Hf. destruct Hf as [Hf | (? & _ & Hf)].
  { apply mapM_Err in Hf. destruct Hf as (? & _ & Hf).
    apply bind_Err in Hf. destruct Hf as [Hf | (? & _ & Hf)].
    - apply class_fre_lookup_Err in Hf. discriminate.
    - apply getitem_Err in Hf. discriminate. }
  apply bind_Err in Hf. destruct Hf as [Hf | (? & _ & Hf)].
  { apply mapM_Err in Hf. destruct Hf as (? & _ & Hf).
    apply bind_Err in Hf. destruct Hf as [Hf | (? & _ & Hf)].
    - apply mapM_Err in Hf. destruct Hf as (? & _ & Hf).
      apply getitem_Err in Hf. discriminate.
    - apply min_Err in Hf. discriminate. }
  apply bind_Err in Hf. destruct Hf as [Hf | (? & _ & Hf)].
  - apply broadcast2_Err in Hf. discriminate.
  - discriminate.
Qed.

Lemma global_fre_forward_raises (m : GlobalFREBasedModel.t) items :
  GlobalFREBasedModel._is_trained m = true ->
  GlobalFREBasedModel.forward m items <> Err NotTrainedError.
Proof.
  unfold GlobalFREBasedModel.forward. intros -> Hf. simpl in Hf.
  destruct (GlobalFREBasedModel.pca_model m); discriminate.
Qed.

Lemma msp_forward_raises (m : ProbabilityBasedModel.t) items :
  ProbabilityBasedModel.forward m items <> Err NotTrainedError.
Proof.
  unfold ProbabilityBasedModel.forward. intros Hf.
  apply bind_Err in Hf. destruct Hf as [Hf | (? & _ & Hf)]; [|discriminate].
  apply mapM_Err in Hf. destruct Hf as (? & _ & Hf).
  apply getitem_Err in Hf. discriminate.
Qed.

Lemma call_trained (m : SubModel) items :
  OODSubModel._is_trained m = true ->
  OODSubModel.__call__ m items <> Err NotTrainedError.
Proof.
  unfold OODSubModel.__call__. intros Ht. rewrite Ht. simpl.
  destruct m as [m|m|m|m]; simpl in *.
  - apply knn_forward_raises.
  - apply class_fre_forward_raises; assumption.
  - apply global_fre_forward_raises; assumption.
  - apply msp_forward_raises.
Qed.

Lemma train_sets_flag (m m' : SubModel) d :
  OODSubModel.train m d = Ok m' -> OODSubModel._is_trained m' = true.
Proof.
  destruct m as [m|m|m|m]; simpl; intros Ht.
  - injection Ht as <-. reflexivity.
  - unfold ClassFREBasedModel.train in Ht.
    destruct (np_unique _); simpl in Ht; [|discriminate].
    injection Ht as <-. reflexivity.
  - injection Ht as <-. reflexivity.
  - injection Ht as <-. reflexivity.
Qed.

Lemma run_trained (m : SubModel) ops :
  OODSubModel._is_trained m = true ->
  ~ In (Lifecycle.ScoreRaised NotTrainedError) (Lifecycle.run m ops).
Proof.
  revert m. induction ops as [|op ops IH]; intros m Ht Hin;
    [exact Hin|].
  destruct op as [d|items]; cbn [Lifecycle.run] in Hin.
  - destruct (OODSubModel.train m d) as [m'|e] eqn:Etrain;
      destruct Hin as [Hin|Hin]; try discriminate.
    + apply (IH m'); [eapply train_sets_flag; eassumption | assumption].
    + apply (IH m); assumption.
  - destruct (OODSubModel.__call__ m items) as [s|e] eqn:Ecall;
      destruct Hin as [Hin|Hin]; try discriminate.
    + apply (IH m); assumption.
    + injection Hin as ->. apply (call_trained m items Ht Ecall).
    + apply (IH m); assumption.
Qed.

(** C3.  Each of the four constructors leaves the trained flag false;
    whatever the variant and the items, the scoring call on a sub-model
    whose trained flag is false raises the "not trained" error and returns
    no scores; and once [train] has returned, no scoring call of any later
    sequence of calls (scoring or retraining, of any length) raises that
    error. *)
Theorem untrained_call_guard :
  (forall k n,
      OODSubModel.is_trained (Knn (KNNBasedOODModel.__init__ k)) = false /\
      OODSubModel.is_trained (ClassFre (ClassFREBasedModel.__init__ n)) = false /\
      OODSubModel.is_trained (GlobalFre (GlobalFREBasedModel.__init__ n)) = false /\
      OODSubModel.is_trained (Msp ProbabilityBasedModel.__init__) = false) /\
  (forall (m : SubModel) items,
      OODSubModel.is_trained m = false ->
      OODSubModel.__call__ m items = Err NotTrainedError) /\
  (forall (m m' : SubModel) d ops,
      OODSubModel.train m d = Ok m' ->
      ~ In (Lifecycle.ScoreRaised NotTrainedError) (Lifecycle.run m' ops)).
Proof.
  split; [|split].
  - intros k n. repeat split.
  - intros m items Hm. apply call_untrained. exact Hm.
  - intros m m' d ops Ht. apply run_trained.
    eapply train_sets_flag; eassumption.
Qed.

End Guard.

Lemma untrained_call_guard_witness :
  OODSubModel.__call__
    (ClassFre (@ClassFREBasedModel.__init__ Toy.utils (995 # 1000)))
    [Toy.item [1; 0]%Q "cat" (9 # 10) (Some "cat")] = Err NotTrainedError /\
  ~ In (Lifecycle.ScoreRaised NotTrainedError)
       (Lifecycle.run
          (ClassFre
             (@ClassFREBasedModel.mk Toy.utils true (995 # 1000)
                [(Some "cat", [1; 0]%Q)]))
          [Lifecycle.CallScore [Toy.item [1; 0]%Q "cat" (9 # 10) (Some "cat")];
           Lifecycle.CallScore [Toy.item [0; 1]%Q "dog" (7 # 10) None]]).
Proof.
  split.
  - apply (proj1 (proj2 (@untrained_call_guard Toy.utils))). reflexivity.
  - apply (proj2 (proj2 (@untrained_call_guard Toy.utils))
             (ClassFre (@ClassFREBasedModel.__init__ Toy.utils (995 # 1000)))
             _ [Toy.item [1; 0]%Q "cat" (9 # 10) (Some "cat")]).
    reflexivity.
Defined.

(** ** The max-probability baseline *)

Lemma msp_forward_scores (m : ProbabilityBasedModel.t) items ps :
  Forall2 (fun it p =>
             nth_error (DistributionDataItem.max_prediction_probability it) 0
             = Some p) items ps ->
  ProbabilityBasedModel.forward m items = Ok [("max_softmax_probability", ps)].
Proof.
  intros Hf. unfold ProbabilityBasedModel.forward.
  assert (Hm : mapM (fun data_item =>
            getitem (DistributionDataItem.max_prediction_probability data_item) 0)
            items = Ok ps).
  { induction Hf as [|it p items ps Hp _ IH]; simpl; [reflexivity|].
    apply getitem_Ok in Hp. rewrite Hp. simpl. rewrite IH. reflexivity. }
  rewrite Hm. reflexivity.
Qed.

Lemma msp_call_scores (m : ProbabilityBasedModel.t) items ps :
  OODSubModel.is_trained m = true ->
  Forall2 (fun it p =>
             nth_error (DistributionDataItem.max_prediction_probability it) 0
             = Some p) items ps ->
  OODSubModel.__call__ m items = Ok [("max_softmax_probability", ps)].
Proof.
  intros Ht Hf. unfold OODSubModel.__call__.
  change (OODSubModel._is_trained m) with (OODSubModel.is_trained m).
  rewrite Ht. simpl. apply msp_forward_scores. exact Hf.
Qed.

(** C4, as the spec has it, fails: right after construction the trained flag
    of the max-probability sub-model is false, and a scoring call raises. *)
Lemma msp_untrained_after_construction :
  OODSubModel.is_trained ProbabilityBasedModel.__init__ <> true /\
  OODSubModel.__call__ ProbabilityBasedModel.__init__
    [Toy.item [1; 0]%Q "cat" (9 # 10) None] = Err NotTrainedError.
Proof. split; [discriminate | reflexivity]. Qed.

(** C4, amended.  The constructor leaves the trained flag false; [train] fits
    nothing: on any list of items it returns and only sets the flag; a
    trained max-probability sub-model emits exactly one score name,
    [max_softmax_probability], holding each item's stored top-1
    probability. *)
Theorem msp_flag_set_by_train :
  OODSubModel.is_trained ProbabilityBasedModel.__init__ = false /\
  (forall (m : ProbabilityBasedModel.t) d,
      OODSubModel.train m d = Ok {| ProbabilityBasedModel._is_trained := true |}) /\
  (forall (m : ProbabilityBasedModel.t) items ps,
      OODSubModel.is_trained m = true ->
      Forall2 (fun it p =>
                 nth_error (DistributionDataItem.max_prediction_probability it) 0
                 = Some p) items ps ->
      OODSubModel.__call__ m items = Ok [("max_softmax_probability", ps)]).
Proof.
  split; [reflexivity|]. split; [reflexivity|].
  intros m items ps Ht Hf. apply msp_call_scores; assumption.
Qed.

Lemma msp_flag_set_by_train_witness :
  OODSubModel.__call__ {| ProbabilityBasedModel._is_trained := true |}
    [Toy.item [1; 0]%Q "cat" (9 # 10) None; Toy.item [0; 1]%Q "dog" (7 # 10) None]
  = Ok [("max_softmax_probability", [9 # 10; 7 # 10]%Q)].
Proof.
  apply (proj2 (proj2 msp_flag_set_by_train)).
  - reflexivity.
  - repeat constructor.
Defined.

(** ** The stored top-1 probability *)

Section StoredProbability.
Context `{ThirdParty}.

Lemma init_stores_top_label (raw_prediction : Prediction) (item : Item) :
  constructed raw_prediction item ->
  exists top,
    top_label raw_prediction = Some top /\
    DistributionDataItem.max_prediction_probability item = [probability top] /\
    DistributionDataItem.predicted_label item = name top.
Proof.
  intros (mn & mp & al & nf & pu & Hi).
  unfold DistributionDataItem.__init__ in Hi.
  bind_inv Hi. bind_inv Hi. bind_inv Hi. bind_inv Hi.
  injection Hi as <-. simpl.
  match goal with
  | Ha : getitem (annotations _) 0 = Ok ?ann,
    Ht : getitem (labels ?ann) 0 = Ok ?top |- _ =>
      exists top; apply getitem_Ok in Ha; apply getitem_Ok in Ht;
      unfold top_label; rewrite Ha, Ht
  end.
  repeat split.
Qed.

(** C10.  The constructor stores the top-1 probability as a 1-element
    tuple and the predicted label as the plain name; for any list of
    constructed items a trained max-probability sub-model returns, under
    [max_softmax_probability], the scalar top-1 probability of each
    item's prediction. *)
Theorem msp_unboxes_stored_tuple :
  forall (raw_predictions : list Prediction) (items : list Item),
    Forall2 constructed raw_predictions items ->
    exists tops,
      Forall2 (fun p top => top_label p = Some top) raw_predictions tops /\
      Forall2 (fun it top =>
                 DistributionDataItem.max_prediction_probability it
                 = [probability top] /\
                 DistributionDataItem.predicted_label it = name top)
              items tops /\
      forall m : ProbabilityBasedModel.t,
        OODSubModel.is_trained m = true ->
        OODSubModel.__call__ m items
        = Ok [("max_softmax_probability", map probability tops)].
Proof.
  intros preds items Hc.
  assert (Ht : exists tops,
             Forall2 (fun p top => top_label p = Some top) preds tops /\
             Forall2 (fun it top =>
                 DistributionDataItem.max_prediction_probability it
                 = [probability top] /\
                 DistributionDataItem.predicted_label it = name top)
               items tops).
  { induction Hc as [|p it preds items Hpi _ IH].
    - exists []. split; constructor.
    - destruct IH as (tops & H1 & H2).
      destruct (init_stores_top_label Hpi) as (top & Htop & Htuple & Hname).
      exists (top :: tops). split; constructor; auto. }
  destruct Ht as (tops & H1 & H2). exists tops. repeat split; try assumption.
  intros m Hm. apply msp_call_scores; [exact Hm|].
  clear H1 Hc. induction H2 as [|it top items tops [Htuple _] _ IH]; simpl.
  - constructor.
  - constructor; [rewrite Htuple; reflexivity | exact IH].
Qed.

End StoredProbability.

(** ** Column order of the feature matrix *)

Lemma existsb_eqb_In (k : string) (ks : list string) :
  existsb (String.eqb k) ks = true <-> In k ks.
Proof.
  rewrite existsb_exists. split.
  - intros (x & Hx & He). apply String.eqb_eq in He. subst. exact Hx.
  - intros Hk. exists k. split; [exact Hk | apply String.eqb_refl].
Qed.

Lemma keys_set {V : Type} (d : Dict.t V) (k : string) (v : V) :
  Dict.keys (Dict.set d k v) = add_key (Dict.keys d) k.
Proof.
  unfold add_key. induction d as [|[k' v'] d IH]; simpl; [reflexivity|].
  rewrite (String.eqb_sym k k').
  destruct (String.eqb k' k); simpl; [reflexivity|].
  rewrite IH. destruct (existsb (String.eqb k) (Dict.keys d)); reflexivity.
Qed.

Lemma keys_update {V : Type} (src d : Dict.t V) :
  Dict.keys (Dict.update d src) = merge_keys (Dict.keys d) (Dict.keys src).
Proof.
  unfold Dict.update, merge_keys. revert d.
  induction src as [|[k v] src IH]; intros d; simpl; [reflexivity|].
  rewrite IH, keys_set. reflexivity.
Qed.

Lemma NoDup_add_key (ks : list string) (k : string) :
  NoDup ks -> NoDup (add_key ks k).
Proof.
  intros Hn. unfold add_key.
  destruct (existsb (String.eqb k) ks) eqn:E; [exact Hn|].
  apply NoDup_app; [exact Hn | repeat constructor; simpl; tauto |].
  intros x Hx [<-|[]]. apply existsb_eqb_In in Hx. congruence.
Qed.

Lemma NoDup_merge_keys (ks' ks : list string) :
  NoDup ks -> NoDup (merge_keys ks ks').
Proof.
  unfold merge_keys. revert ks.
  induction ks' as [|k ks' IH]; intros ks Hn; simpl; [exact Hn|].
  apply IH, NoDup_add_key, Hn.
Qed.

Lemma get_nth {V : Type} (d : Dict.t V) (j : nat) (k : string) (v : V) :
  NoDup (Dict.keys d) -> nth_error d j = Some (k, v) -> Dict.get d k = Some v.
Proof.
  revert j. induction d as [|[k' v'] d IH]; intros j Hn Hj.
  - destruct j; discriminate.
  - simpl in Hn. inversion Hn as [|? ? Hnotin Hn']; subst.
    destruct j as [|j]; simpl in *.
    + injection Hj as -> ->. rewrite String.eqb_refl. reflexivity.
    + destruct (String.eqb_spec k' k) as [->|Hne].
      * exfalso. apply Hnotin. apply nth_error_In in Hj.
        apply (in_map fst) in Hj. exact Hj.
      * eapply IH; eassumption.
Qed.

Section Columns.
Context `{ThirdParty} `{Utils}.

Lemma call_keys (m : SubModel) items scores :
  OODSubModel.__call__ m items = Ok scores ->
  Dict.keys scores = score_names m.
Proof.
  unfold OODSubModel.__call__.
  destruct (negb (OODSubModel._is_trained m)); [discriminate|].
  destruct m as [m|m|m|m]; simpl; intros Hf.
  - unfold KNNBasedOODModel.forward in Hf.
    bind_inv Hf. destruct (perform_knn_search _ _ _) as [distances nn].
    do 5 bind_inv Hf. injection Hf as <-. reflexivity.
  - unfold ClassFREBasedModel.forward in Hf.
    destruct (negb _); [discriminate|].
    do 3 bind_inv Hf. injection Hf as <-. reflexivity.
  - unfold GlobalFREBasedModel.forward in Hf.
    destruct (negb _); [discriminate|].
    bind_inv Hf. injection Hf as <-. reflexivity.
  - unfold ProbabilityBasedModel.forward in Hf.
    bind_inv Hf. injection Hf as <-. reflexivity.
Qed.

Lemma infer_loop_keys values : forall acc items scores,
  COODModel.infer_loop values acc items = Ok scores ->
  Dict.keys scores
  = fold_left merge_keys (map (fun kv => score_names (snd kv)) values)
              (Dict.keys acc).
Proof.
  induction values as [|[key m] values IH]; intros acc items scores Hl;
    cbn [COODModel.infer_loop] in Hl.
  - injection Hl as <-. reflexivity.
  - bind_inv Hl. cbn [map fold_left snd].
    rewrite (IH _ _ _ Hl), keys_update.
    rewrite (call_keys _ _ E). reflexivity.
Qed.

Lemma train_score_names (m m' : SubModel) d :
  OODSubModel.train m d = Ok m' -> score_names m' = score_names m.
Proof.
  destruct m as [m|m|m|m]; simpl; intros Ht;
    try (injection Ht as <-; reflexivity).
  bind_inv Ht. injection Ht as <-. reflexivity.
Qed.

Lemma train_sub_models_names (self self1 : COODModel.t) d :
  COODModel._train_sub_models self d = Ok self1 ->
  column_names (COODModel.sub_models self1)
  = column_names (COODModel.sub_models self).
Proof.
  unfold COODModel._train_sub_models. intros Ht. bind_inv Ht.
  injection Ht as <-. simpl. unfold column_names. f_equal.
  revert v E. induction (COODModel.sub_models self) as [|[k m] sm IH];
    intros v E; cbn [mapM] in E.
  - injection E as <-. reflexivity.
  - apply bind_Ok in E. destruct E as ([k' m'] & Hm & E).
    apply bind_Ok in Hm. destruct Hm as (m1 & Hm & Hk).
    injection Hk as <- <-.
    apply bind_Ok in E. destruct E as (sm' & Hsm & E).
    injection E as <-. cbn [map snd]. f_equal; [|apply IH; assumption].
    eapply train_score_names; eassumption.
Qed.

Lemma train_keeps_sub_models (self self' : COODModel.t) a b :
  COODModel._train self a b = Ok self' ->
  exists self1,
    COODModel._train_sub_models self a = Ok self1 /\
    COODModel.sub_models self' = COODModel.sub_models self1.
Proof.
  unfold COODModel._train. intros Ht. bind_inv Ht. do 5 bind_inv Ht.
  injection Ht as <-. eauto.
Qed.

Lemma NoDup_column_names (sm : Dict.t SubModel) : NoDup (column_names sm).
Proof.
  unfold column_names.
  assert (Hg : forall l acc, NoDup acc -> NoDup (fold_left merge_keys l acc)).
  { induction l as [|ks l IH]; intros acc Ha; simpl; [exact Ha|].
    apply IH, NoDup_merge_keys, Ha. }
  apply Hg. constructor.
Qed.

Lemma assign_column_length n col c :
  COODModel.assign_column n col = Ok c ->
  length c = n /\ (length col = n -> c = col).
Proof.
  unfold COODModel.assign_column.
  destruct (Nat.eqb_spec (length col) n) as [He|Hne].
  - intros [= <-]. auto.
  - destruct col as [|x [|? ?]]; try discriminate.
    intros [= <-]. rewrite repeat_length. split; [reflexivity | tauto].
Qed.

Lemma aggregate_shape scores n F :
  COODModel._aggregate_sub_model_scores_into_cood_features scores n = Ok F ->
  n_rows F = n /\ n_cols F = length scores /\ length (rows F) = n /\
  Forall (fun row => length row = length scores) (rows F) /\
  forall i j name col,
    i < n -> nth_error scores j = Some (name, col) -> length col = n ->
    entry F i j = nth i col 0%Q.
Proof.
  unfold COODModel._aggregate_sub_model_scores_into_cood_features.
  intros Ha. bind_inv Ha. injection Ha as <-. simpl.
  rename v into columns.
  pose proof (mapM_length _ _ E) as Hlen.
  repeat split.
  - rewrite length_map, length_seq. reflexivity.
  - apply Forall_forall. intros row Hrow. apply in_map_iff in Hrow.
    destruct Hrow as (i & <- & _). rewrite length_map. exact Hlen.
  - intros i j name col Hi Hj Hcol. unfold entry. simpl.
    destruct (mapM_nth _ _ E _ Hj) as (c & Hc & Hassign). simpl in Hassign.
    apply assign_column_length in Hassign. destruct Hassign as [_ Hsame].
    rewrite (Hsame Hcol) in Hc.
    rewrite (nth_indep _ [] (map (fun col0 : list Q => nth 0 col0 0%Q) columns))
      by (rewrite length_map, length_seq; exact Hi).
    rewrite (map_nth (fun i0 => map (fun col0 : list Q => nth i0 col0 0%Q) columns)).
    rewrite seq_nth by exact Hi. simpl.
    rewrite (nth_indep _ 0%Q (nth i [] 0%Q))
      by (rewrite length_map; apply nth_error_Some; congruence).
    rewrite (map_nth (fun col0 : list Q => nth i col0 0%Q)).
    f_equal. apply nth_error_nth. exact Hc.
Qed.

(** C2.  For a fixed registry of sub-models the feature columns are the
    registry's score names in a fixed order, without repetition: every
    successful score collection has exactly these keys in this order,
    whatever the items; aggregation yields an n-by-m matrix, m the number
    of distinct score names, whose column [j] holds the scores named by
    the [j]-th name; two runs over the same items give the same matrix;
    and training the sub-models does not change the column list, so the
    matrix built while training and the one built by any later call share
    their columns. *)
Theorem feature_columns_fixed (self : COODModel.t) :
  let names := column_names (COODModel.sub_models self) in
  NoDup names /\
  (forall items scores,
      COODModel._infer_sub_models self items = Ok scores ->
      Dict.keys scores = names) /\
  (forall items scores F,
      COODModel._infer_sub_models self items = Ok scores ->
      COODModel._aggregate_sub_model_scores_into_cood_features
        scores (length items) = Ok F ->
      n_rows F = length items /\ n_cols F = length names /\
      length (rows F) = length items /\
      Forall (fun row => length row = length names) (rows F) /\
      forall i j name,
        i < length items -> nth_error names j = Some name ->
        exists col,
          Dict.get scores name = Some col /\
          (length col = length items -> entry F i j = nth i col 0%Q)) /\
  (forall items s1 s2 F1 F2,
      COODModel._infer_sub_models self items = Ok s1 ->
      COODModel._infer_sub_models self items = Ok s2 ->
      COODModel._aggregate_sub_model_scores_into_cood_features
        s1 (length items) = Ok F1 ->
      COODModel._aggregate_sub_model_scores_into_cood_features
        s2 (length items) = Ok F2 ->
      F1 = F2) /\
  (forall d self1,
      COODModel._train_sub_models self d = Ok self1 ->
      column_names (COODModel.sub_models self1) = names) /\
  (forall a b self',
      COODModel._train self a b = Ok self' ->
      column_names (COODModel.sub_models self') = names).
Proof.
  intros names.
  assert (Hkeys : forall items scores,
             COODModel._infer_sub_models self items = Ok scores ->
             Dict.keys scores = names).
  { intros items scores Hi. apply infer_loop_keys in Hi. exact Hi. }
  split; [apply NoDup_column_names|].
  split; [exact Hkeys|].
  split; [|split; [|split]].
  - intros items scores F Hi Ha.
    pose proof (Hkeys _ _ Hi) as Hk.
    destruct (aggregate_shape _ _ Ha) as (Hr & Hc & Hl & Hrows & Hentry).
    assert (Hlen : length scores = length names).
    { rewrite <- Hk. unfold Dict.keys. rewrite length_map. reflexivity. }
    rewrite Hlen in Hc, Hrows. repeat split; try assumption.
    intros i j name Hi' Hj. rewrite <- Hk in Hj. unfold Dict.keys in Hj.
    rewrite nth_error_map in Hj.
    destruct (nth_error scores j) as [[k col]|] eqn:Ej; [|discriminate].
    injection Hj as ->. exists col. split.
    + eapply get_nth; [|eassumption]. rewrite Hk. apply NoDup_column_names.
    + intros Hcol. eapply Hentry; eassumption.
  - intros items s1 s2 F1 F2 H1 H2 Ha1 Ha2. congruence.
  - intros d self1 Ht. eapply train_sub_models_names; eassumption.
  - intros a b self' Ht.
    destruct (train_keeps_sub_models _ _ _ Ht) as (self1 & Hs & ->).
    eapply train_sub_models_names; eassumption.
Qed.

End Columns.

Example default_columns `{Utils} :
  column_names COODModel.default_sub_models
  = [ "knn_distance"; "nn_distance"; "average_nn_distance"; "entropy_score";
      "enwedi_score"; "enwedi_nn_score"; "min_class_fre_score";
      "predicted_class_fre_score"; "diff_min_and_predicted_class_fre";
      "global_fre_score"; "max_softmax_probability" ].
Proof. reflexivity. Qed.

Lemma feature_columns_fixed_witness :
  Dict.keys (Toy.scores_of [Toy.dog2])
  = column_names (COODModel.sub_models Toy.trained_model) /\
  Dict.keys (Toy.scores_of [Toy.cat; Toy.odd2])
  = column_names (COODModel.sub_models Toy.trained_model).
Proof.
  split.
  - apply (proj1 (proj2 (feature_columns_fixed Toy.trained_model)) [Toy.dog2]).
    vm_compute. reflexivity.
  - apply (proj1 (proj2 (feature_columns_fixed Toy.trained_model))
             [Toy.cat; Toy.odd2]).
    vm_compute. reflexivity.
Defined.

(** ** Training set of the meta-classifier and ensemble inference *)

Section MetaClassifier.
Context `{ThirdParty} `{Utils}.

Lemma nth_error_zeros_ones (n m i : nat) :
  (i < n -> nth_error (Np.zeros n ++ Np.ones m) i = Some 0%Q) /\
  (i < m -> nth_error (Np.zeros n ++ Np.ones m) (n + i) = Some 1%Q).
Proof.
  unfold Np.zeros, Np.ones. split; intros Hi.
  - rewrite nth_error_app1 by (rewrite repeat_length; exact Hi).
    apply nth_error_repeat. exact Hi.
  - rewrite nth_error_app2 by (rewrite repeat_length; lia).
    rewrite repeat_length. replace (n + i - n) with i by lia.
    apply nth_error_repeat. exact Hi.
Qed.

(** C1.  [_train] fits the classifier on the rows of the ID feature matrix
    followed by the rows of the OOD feature matrix, with one label per
    row: 0 on every ID row and 1 on every OOD row; and the ensemble call
    returns a value exactly when it is entry [[0][1]] of the stored
    classifier's [predict_proba] on the one-row feature matrix of the
    prediction. *)
Theorem meta_classifier_training_set_and_call :
  (forall (self self' : COODModel.t) train_id_data train_ood_data,
      COODModel._train self train_id_data train_ood_data = Ok self' ->
      exists self1 id_scores ood_scores id_features ood_features all_features,
        let n_id := length train_id_data in
        let n_ood := length train_ood_data in
        let all_labels := Np.zeros n_id ++ Np.ones n_ood in
        COODModel._train_sub_models self train_id_data = Ok self1 /\
        COODModel._infer_sub_models self1 train_id_data = Ok id_scores /\
        COODModel._infer_sub_models self1 train_ood_data = Ok ood_scores /\
        COODModel._aggregate_sub_model_scores_into_cood_features
          id_scores n_id = Ok id_features /\
        COODModel._aggregate_sub_model_scores_into_cood_features
          ood_scores n_ood = Ok ood_features /\
        rows all_features = rows id_features ++ rows ood_features /\
        n_rows all_features = n_id + n_ood /\
        length (rows id_features) = n_id /\
        length (rows ood_features) = n_ood /\
        length all_labels = length (rows all_features) /\
        (forall i, i < n_id ->
           nth_error (rows all_features) i = nth_error (rows id_features) i /\
           nth_error all_labels i = Some 0%Q) /\
        (forall i, i < n_ood ->
           nth_error (rows all_features) (n_id + i)
           = nth_error (rows ood_features) i /\
           nth_error all_labels (n_id + i) = Some 1%Q) /\
        COODModel.ood_classifier self'
        = Some (RandomForestClassifier_fit all_features all_labels) /\
        COODModel.sub_models self' = COODModel.sub_models self1) /\
  (forall (self : COODModel.t) prediction (cood_score : Q),
      COODModel.__call__ self prediction = Ok cood_score <->
      exists data_item scores features clf row,
        DistributionDataItem.__init__ prediction (Some "sample")
          (Some "sample") (Some "") true None = Ok data_item /\
        COODModel._infer_sub_models self [data_item] = Ok scores /\
        COODModel._aggregate_sub_model_scores_into_cood_features scores 1
        = Ok features /\
        COODModel.ood_classifier self = Some clf /\
        nth_error (predict_proba clf features) 0 = Some row /\
        nth_error row 1 = Some cood_score).
Proof.
  split.
  - intros self self' ids oods Ht. unfold COODModel._train in Ht.
    apply bind_Ok in Ht. destruct Ht as (self1 & Hsub & Ht).
    apply bind_Ok in Ht. destruct Ht as (id_scores & Hid & Ht).
    apply bind_Ok in Ht. destruct Ht as (ood_scores & Hood & Ht).
    apply bind_Ok in Ht. destruct Ht as (idF & HidF & Ht).
    apply bind_Ok in Ht. destruct Ht as (oodF & HoodF & Ht).
    apply bind_Ok in Ht. destruct Ht as (allF & Hcat & Ht).
    injection Ht as <-.
    exists self1, id_scores, ood_scores, idF, oodF, allF. cbv zeta.
    destruct (aggregate_shape _ _ HidF) as (Hr1 & _ & Hl1 & _).
    destruct (aggregate_shape _ _ HoodF) as (Hr2 & _ & Hl2 & _).
    unfold COODModel.np_concatenate in Hcat.
    destruct (Nat.eqb _ _); [|discriminate]. injection Hcat as <-.
    cbn [rows n_rows]. repeat split; try assumption; try reflexivity.
    + congruence.
    + rewrite !length_app. unfold Np.zeros, Np.ones.
      rewrite !repeat_length. congruence.
    + apply nth_error_app1. rewrite Hl1. assumption.
    + apply nth_error_zeros_ones. assumption.
    + rewrite nth_error_app2 by lia. f_equal. lia.
    + apply nth_error_zeros_ones. assumption.
  - intros self prediction cood_score. unfold COODModel.__call__. split.
    + intros Hc.
      apply bind_Ok in Hc. destruct Hc as (data_item & Hitem & Hc).
      apply bind_Ok in Hc. destruct Hc as (scores & Hscores & Hc).
      apply bind_Ok in Hc. destruct Hc as (features & Hfeat & Hc).
      apply bind_Ok in Hc. destruct Hc as (clf & Hclf & Hc).
      apply bind_Ok in Hc. destruct Hc as (row & Hrow & Hc).
      exists data_item, scores, features, clf, row.
      apply getitem_Ok in Hrow, Hc.
      unfold COODModel.required_attr in Hclf.
      destruct (COODModel.ood_classifier self); [|discriminate].
      injection Hclf as ->. repeat split; assumption.
    + intros (data_item & scores & features & clf & row
              & Hitem & Hscores & Hfeat & Hclf & Hrow & Hc).
      rewrite Hitem. cbn [bind]. rewrite Hscores. cbn [bind].
      rewrite Hfeat. cbn [bind]. rewrite Hclf. cbn [bind COODModel.required_attr].
      apply getitem_Ok in Hrow, Hc. rewrite Hrow. cbn [bind]. exact Hc.
Qed.

End MetaClassifier.

Lemma meta_classifier_training_set_and_call_witness :
  (exists all_features : FeatureMatrix,
      COODModel.ood_classifier Toy.trained_model
      = Some (all_features, [0; 0; 0; 1; 1]%Q) /\
      n_rows all_features = 5) /\
  (exists clf row,
      COODModel.ood_classifier Toy.trained_model = Some clf /\
      nth_error row 1 = Some (3 # 4)%Q).
Proof.
  split.
  - destruct (proj1 (@meta_classifier_training_set_and_call
                       Toy.third_party Toy.utils)
                Toy.untrained_model Toy.trained_model
                [Toy.cat; Toy.cat2; Toy.dog] [Toy.odd; Toy.odd2])
      as (self1 & ids & oods & idF & oodF & allF & _ & _ & _ & _ & _ & _
          & Hrows & _ & _ & _ & _ & _ & Hclf & _).
    + vm_compute. reflexivity.
    + exists allF. split; [exact Hclf | exact Hrows].
  - destruct (proj1 (proj2 (@meta_classifier_training_set_and_call
                              Toy.third_party Toy.utils)
                       Toy.trained_model
                       (Toy.prediction [3; 4]%Q "cat" (9 # 10)) (3 # 4)%Q))
      as (data_item & scores & features & clf & row & _ & _ & _ & Hclf & _ & Hrow).
    + vm_compute. reflexivity.
    + exists clf, row. split; assumption.
Defined.

Lemma msp_unboxes_stored_tuple_witness :
  exists tops,
    Forall2 (fun p top => top_label p = Some top)
      [Toy.prediction [3; 4]%Q "cat" (9 # 10)] tops /\
    Forall2 (fun it top =>
               DistributionDataItem.max_prediction_probability it
               = [probability top] /\
               DistributionDataItem.predicted_label it = name top)
      [Toy.item [3; 4]%Q "cat" (9 # 10) None] tops /\
    forall m : ProbabilityBasedModel.t,
      OODSubModel.is_trained m = true ->
      OODSubModel.__call__ m [Toy.item [3; 4]%Q "cat" (9 # 10) None]
      = Ok [("max_softmax_probability", map probability tops)].
Proof.
  apply (@msp_unboxes_stored_tuple Toy.third_party).
  constructor; [|constructor].
  exists None, None, None, false, None. reflexivity.
Defined.

(** ** Class labels *)

Lemma label_eqb_eq (a b : option string) : label_eqb a b = true <-> a = b.
Proof.
  destruct a as [x|], b as [y|]; simpl; try (split; congruence).
  rewrite String.eqb_eq. split; congruence.
Qed.

Lemma insert_sorted_In (s x : string) (l : list string) :
  In x (insert_sorted s l) <-> x = s \/ In x l.
Proof.
  induction l as [|y l IH]; simpl.
  - intuition congruence.
  - destruct (String.leb s y); simpl; rewrite ?IH; intuition congruence.
Qed.

Lemma sort_strings_In (x : string) (l : list string) :
  In x (sort_strings l) <-> In x l.
Proof.
  unfold sort_strings. induction l as [|y l IH]; simpl; [tauto|].
  rewrite insert_sorted_In, IH. intuition congruence.
Qed.

Lemma mapM_some (labels : list (option string)) (strs : list string) :
  mapM (fun l => match l with Some s => Ok s | None => Err TypeError end) labels
  = Ok strs ->
  labels = map Some strs.
Proof.
  revert strs. induction labels as [|[s|] labels IH]; intros strs Hm;
    cbn [mapM] in Hm.
  - injection Hm as <-. reflexivity.
  - cbn [bind] in Hm. bind_inv Hm. injection Hm as <-. simpl.
    f_equal. apply IH. assumption.
  - discriminate.
Qed.

Lemma np_unique_In (labels unique_labels : list (option string)) :
  np_unique labels = Ok unique_labels ->
  forall l, In l unique_labels <-> In l labels.
Proof.
  unfold np_unique. intros Hu l.
  destruct (mapM _ labels) as [strs|e] eqn:Em.
  - injection Hu as <-. apply mapM_some in Em. subst labels.
    rewrite !in_map_iff. split; intros (s & <- & Hs); exists s; split; trivial.
    + apply (proj1 (sort_strings_In _ _)) in Hs.
      apply (proj1 (nodup_In _ _ _)) in Hs. exact Hs.
    + apply (proj2 (sort_strings_In _ _)). apply (proj2 (nodup_In _ _ _)).
      exact Hs.
  - destruct (Nat.leb (length labels) 1); [|discriminate].
    injection Hu as <-. tauto.
Qed.

(** ** Per-class subspace errors *)

Lemma fold_min_In (a : list Q) (x : Q) : In (fold_left Qmin a x) (x :: a).
Proof.
  revert x. induction a as [|y a IH]; intros x; simpl; [auto|].
  destruct (IH (Qmin x y)) as [He|Hin]; [|auto].
  rewrite <- He. unfold Qmin, GenericMinMax.gmin.
  destruct (x ?= y)%Q; auto.
Qed.

Lemma fold_min_le (a : list Q) (x : Q) :
  forall e, In e (x :: a) -> (fold_left Qmin a x <= e)%Q.
Proof.
  revert x. induction a as [|y a IH]; intros x e He; simpl.
  - destruct He as [<-|[]]. apply Qle_refl.
  - destruct He as [<-|[<-|He]].
    + eapply Qle_trans; [apply IH; left; reflexivity | apply Q.le_min_l].
    + eapply Qle_trans; [apply IH; left; reflexivity | apply Q.le_min_r].
    + apply IH. right. exact He.
Qed.

Lemma np_min_spec (a : list Q) (m : Q) :
  Np.min a = Ok m -> In m a /\ forall e, In e a -> (m <= e)%Q.
Proof.
  destruct a as [|x a]; simpl; [discriminate|]. intros [= <-].
  split; [apply fold_min_In | apply fold_min_le].
Qed.

Lemma nth_error_combine {A B : Type} (l : list A) (l' : list B) i a b :
  nth_error l i = Some a -> nth_error l' i = Some b ->
  nth_error (combine l l') i = Some (a, b).
Proof.
  revert l' i. induction l as [|x l IH]; intros [|y l'] [|i]; simpl;
    try discriminate.
  - intros [= ->] [= ->]. reflexivity.
  - apply IH.
Qed.

Lemma broadcast2_same_length (f : Q -> Q -> Q) (a b : list Q) :
  length a = length b ->
  Np.broadcast2 f a b = Ok (map (fun p => f (fst p) (snd p)) (combine a b)).
Proof.
  intros Hl. unfold Np.broadcast2. rewrite Hl, Nat.eqb_refl. reflexivity.
Qed.

Lemma mapM_enumerate_nth {A B : Type} (f : nat * A -> result B)
    (l : list A) (bs : list B) :
  mapM f (combine (seq 0 (length l)) l) = Ok bs ->
  forall i a, nth_error l i = Some a ->
    exists b, nth_error bs i = Some b /\ f (i, a) = Ok b.
Proof.
  intros Hm i a Hi. eapply mapM_nth; [exact Hm|].
  apply nth_error_combine; [|exact Hi].
  assert (Hlt : i < length l) by (apply nth_error_Some; congruence).
  rewrite nth_error_nth' with (d := 0%nat) by (rewrite length_seq; exact Hlt).
  rewrite seq_nth by exact Hlt. reflexivity.
Qed.

Lemma mapM_seq_nth {B : Type} (f : nat -> result B) (n : nat) (bs : list B) :
  mapM f (seq 0 n) = Ok bs ->
  forall i, i < n -> exists b, nth_error bs i = Some b /\ f i = Ok b.
Proof.
  intros Hm i Hi. eapply mapM_nth; [exact Hm|].
  rewrite nth_error_nth' with (d := 0%nat) by (rewrite length_seq; exact Hi).
  rewrite seq_nth by exact Hi. reflexivity.
Qed.

Lemma mapM_Forall2 {A B : Type} (f : A -> result B) (l : list A) (bs : list B) :
  mapM f l = Ok bs -> Forall2 (fun a b => f a = Ok b) l bs.
Proof.
  revert bs. induction l as [|a l IH]; simpl; intros bs Hm.
  - injection Hm as <-. constructor.
  - bind_inv Hm. bind_inv Hm. injection Hm as <-. constructor; auto.
Qed.

Section ClassFRE.
Context `{Utils}.

Lemma lookup_map {V W : Type} (g : V -> W) (d : list (option string * V)) l :
  ClassFREBasedModel.lookup (map (fun kv => (fst kv, g (snd kv))) d) l
  = match ClassFREBasedModel.lookup d l with
    | Ok v => Ok (g v)
    | Err e => Err e
    end.
Proof.
  induction d as [|[k v] d IH]; simpl; [reflexivity|].
  destruct (label_eqb k l); [reflexivity | exact IH].
Qed.

Lemma lookup_Ok_In {V : Type} (d : list (option string * V)) l v :
  ClassFREBasedModel.lookup d l = Ok v -> In (l, v) d.
Proof.
  induction d as [|[k w] d IH]; simpl; [discriminate|].
  destruct (label_eqb k l) eqn:E.
  - apply label_eqb_eq in E. intros [= ->]. left. congruence.
  - auto.
Qed.

Lemma lookup_total {V : Type} (d : list (option string * V)) l :
  In l (map fst d) -> exists v, ClassFREBasedModel.lookup d l = Ok v.
Proof.
  induction d as [|[k w] d IH]; simpl; [tauto|].
  destruct (label_eqb k l) eqn:E; [eauto|].
  intros [Hk|Hin]; [|auto].
  apply label_eqb_eq in Hk. congruence.
Qed.

Lemma lookup_missing {V : Type} (d : list (option string * V)) l :
  ~ In l (map fst d) -> ClassFREBasedModel.lookup d l = Err (KeyError l).
Proof.
  induction d as [|[k w] d IH]; simpl; [reflexivity|].
  intros Hn. destruct (label_eqb k l) eqn:E.
  - apply label_eqb_eq in E. tauto.
  - apply IH. tauto.
Qed.

Lemma train_fitted_classes (self m : ClassFREBasedModel.t) train_items :
  ClassFREBasedModel.train self train_items = Ok m ->
  ClassFREBasedModel._is_trained m = true /\
  forall l, In l (map fst (ClassFREBasedModel.pca_models_per_class m)) <->
            In l (map DistributionDataItem.annotated_label train_items).
Proof.
  unfold ClassFREBasedModel.train. intros Ht. bind_inv Ht.
  injection Ht as <-. simpl. split; [reflexivity|].
  intros l. rewrite map_map. simpl. rewrite map_id.
  eapply np_unique_In. eassumption.
Qed.

End ClassFRE.

Lemma mapM_map_comp {A B C : Type} (g : A -> B) (f : B -> result C) (l : list A) :
  mapM f (map g l) = mapM (fun a => f (g a)) l.
Proof.
  induction l as [|a l IH]; simpl; [reflexivity|]. rewrite IH. reflexivity.
Qed.

Lemma Forall2_In_l {A B : Type} (R : A -> B -> Prop) (l : list A) (l' : list B) a :
  Forall2 R l l' -> In a l -> exists b, In b l' /\ R a b.
Proof.
  induction 1 as [|x y l l' Hxy _ IH]; simpl; [tauto|].
  intros [<-|Hin]; [eauto|].
  destruct (IH Hin) as (b & Hb & Hab). eauto.
Qed.

Section ClassFREScoring.
Context `{Utils}.

(** C5.  Whenever the trained per-class sub-model returns scores, it returns
    the three arrays [min_class_fre_score], [predicted_class_fre_score] and
    [diff_min_and_predicted_class_fre], one entry per item, and for the
    item at position [i]: the first is the minimum of the reconstruction
    errors of item [i] over all fitted class subspaces (it is one of them
    and it is below each of them), the second is the error under the
    subspace of the item's predicted label, the third is the second minus
    the first plus 1e-8, and it is at least 1e-8. *)
Theorem class_fre_min_and_gap :
  forall (m : ClassFREBasedModel.t) (items : list Item) (scores : Scores),
    OODSubModel.__call__ m items = Ok scores ->
    exists mins preds gaps,
      scores = [ ("min_class_fre_score", mins);
                 ("predicted_class_fre_score", preds);
                 ("diff_min_and_predicted_class_fre", gaps) ] /\
      length mins = length items /\
      length preds = length items /\
      length gaps = length items /\
      forall i item,
        nth_error items i = Some item ->
        let features := map DistributionDataItem.feature_vector items in
        exists mn pr gap class_errors pca,
          nth_error mins i = Some mn /\
          nth_error preds i = Some pr /\
          nth_error gaps i = Some gap /\
          Forall2 (fun kv e => nth_error (fre_score features (snd kv)) i = Some e)
                  (ClassFREBasedModel.pca_models_per_class m) class_errors /\
          In mn class_errors /\
          (forall e, In e class_errors -> (mn <= e)%Q) /\
          ClassFREBasedModel.lookup (ClassFREBasedModel.pca_models_per_class m)
            (Some (DistributionDataItem.predicted_label item)) = Ok pca /\
          nth_error (fre_score features pca) i = Some pr /\
          gap = (ClassFREBasedModel.epsilon + (pr - mn))%Q /\
          (gap == pr - mn + (1 # 100000000))%Q /\
          (1 # 100000000 <= gap)%Q.
Proof.
  intros m items scores Hc. unfold OODSubModel.__call__ in Hc.
  cbn [OODSubModel._is_trained OODSubModel.forward ClassFREBasedModel.ops] in Hc.
  unfold ClassFREBasedModel.forward in Hc.
  destruct (negb (ClassFREBasedModel._is_trained m)); [discriminate|].
  apply bind_Ok in Hc. destruct Hc as (preds & Hpreds & Hc).
  apply bind_Ok in Hc. destruct Hc as (mins & Hmins & Hc).
  apply bind_Ok in Hc. destruct Hc as (diff & Hdiff & Hc).
  injection Hc as <-.
  assert (Lp : length preds = length items).
  { rewrite (mapM_length _ _ Hpreds), length_combine, length_seq, length_map.
    apply Nat.min_id. }
  assert (Lm : length mins = length items).
  { rewrite (mapM_length _ _ Hmins), length_seq. reflexivity. }
  unfold Np.sub in Hdiff.
  rewrite broadcast2_same_length in Hdiff by congruence.
  injection Hdiff as <-.
  exists mins, preds, (Np.scalar_add ClassFREBasedModel.epsilon
                         (map (fun p => (fst p - snd p)%Q) (combine preds mins))).
  split; [reflexivity|]. split; [exact Lm|]. split; [exact Lp|].
  split.
  { unfold Np.scalar_add. rewrite !length_map, length_combine, Lp, Lm.
    apply Nat.min_id. }
  intros i item Hi features.
  assert (Hlt : i < length items) by (apply nth_error_Some; congruence).
  (* the error under the predicted label's subspace *)
  assert (Hlab : nth_error (map DistributionDataItem.predicted_label items) i
                 = Some (DistributionDataItem.predicted_label item)).
  { apply map_nth_error. exact Hi. }
  destruct (mapM_enumerate_nth _ _ Hpreds i Hlab) as (pr & Hpr & Hf).
  cbn [fst snd] in Hf. apply bind_Ok in Hf. destruct Hf as (arr & Harr & Hget).
  rewrite lookup_map in Harr.
  destruct (ClassFREBasedModel.lookup _ _) as [pca|e] eqn:Hpca; [|discriminate].
  injection Harr as <-. apply getitem_Ok in Hget.
  (* the minimum over the class subspaces *)
  destruct (mapM_seq_nth _ Hmins Hlt) as (mn & Hmn & Hg).
  apply bind_Ok in Hg. destruct Hg as (class_errors & Hce & Hmin).
  rewrite mapM_map_comp in Hce. cbn [snd] in Hce.
  apply mapM_Forall2 in Hce.
  assert (Hall : Forall2
            (fun kv e => nth_error (fre_score features (snd kv)) i = Some e)
            (ClassFREBasedModel.pca_models_per_class m) class_errors).
  { eapply Forall2_impl; [|exact Hce]. intros kv e He.
    apply getitem_Ok in He. exact He. }
  destruct (np_min_spec _ Hmin) as [Hin Hle].
  (* the gap *)
  assert (Hgap : (mn <= pr)%Q).
  { apply Hle. apply lookup_Ok_In in Hpca.
    destruct (Forall2_In_l _ Hall Hpca) as (e & He & Hnth). cbn [snd] in Hnth.
    fold features in Hget. congruence. }
  exists mn, pr, (ClassFREBasedModel.epsilon + (pr - mn))%Q, class_errors, pca.
  repeat split; try assumption; try reflexivity.
  - unfold Np.scalar_add. rewrite !nth_error_map.
    rewrite (nth_error_combine _ _ _ Hpr Hmn). reflexivity.
  - unfold ClassFREBasedModel.epsilon. ring.
  - unfold ClassFREBasedModel.epsilon. lra.
Qed.

End ClassFREScoring.

Lemma class_fre_min_and_gap_witness :
  exists mins preds gaps,
    Toy.class_fre_scores [Toy.cat; Toy.dog2]
    = [ ("min_class_fre_score", mins);
        ("predicted_class_fre_score", preds);
        ("diff_min_and_predicted_class_fre", gaps) ] /\
    length gaps = 2.
Proof.
  destruct (@class_fre_min_and_gap Toy.utils Toy.class_fre
              [Toy.cat; Toy.dog2] (Toy.class_fre_scores [Toy.cat; Toy.dog2]))
    as (mins & preds & gaps & Hs & _ & _ & Hg & _).
  - vm_compute. reflexivity.
  - exists mins, preds, gaps. split; assumption.
Defined.

(** ** Query labels without a fitted subspace *)

Lemma mapM_first_Err {A B : Type} (P : PyError -> Prop) (f : A -> result B)
    (l : list A) :
  (forall a, In a l -> (exists b, f a = Ok b) \/ (exists e, f a = Err e /\ P e)) ->
  (exists a, In a l /\ exists e, f a = Err e) ->
  exists e, mapM f l = Err e /\ P e.
Proof.
  induction l as [|x l IH]; intros Hall (a & Ha & e & Hfa); [destruct Ha|].
  cbn [mapM].
  destruct (Hall x (or_introl eq_refl)) as [(b & Hb)|(e' & He' & HP)].
  - rewrite Hb. cbn [bind].
    destruct IH as (e1 & Hm & HP1).
    + intros a' Ha'. apply Hall. right. exact Ha'.
    + destruct Ha as [<-|Ha]; [congruence|]. eauto.
    + rewrite Hm. cbn [bind]. eauto.
  - rewrite He'. cbn [bind]. eauto.
Qed.

Section UnfittedLabel.
Context `{Utils}.

(** The helper returns one reconstruction error per feature vector. *)
Hypothesis fre_score_length :
  forall feature_vectors pca,
    length (fre_score feature_vectors pca) = length feature_vectors.

Lemma predicted_class_step (m : ClassFREBasedModel.t) (items : list Item)
    (i : nat) (label : string) :
  i < length items ->
  let features := map DistributionDataItem.feature_vector items in
  let per := map (fun kv => (fst kv, fre_score features (snd kv)))
                 (ClassFREBasedModel.pca_models_per_class m) in
  let step := scores <- ClassFREBasedModel.lookup per (Some label) ;;
              getitem scores i in
  (In (Some label) (map fst (ClassFREBasedModel.pca_models_per_class m)) ->
   exists b, step = Ok b) /\
  (~ In (Some label) (map fst (ClassFREBasedModel.pca_models_per_class m)) ->
   step = Err (KeyError (Some label))).
Proof.
  intros Hi features per step. subst step. split; intros Hl.
  - subst per. rewrite lookup_map.
    destruct (lookup_total _ _ Hl) as (pca & ->). cbn [bind].
    unfold getitem.
    destruct (nth_error (fre_score features pca) i) eqn:E; [eauto|].
    apply nth_error_None in E. rewrite fre_score_length in E.
    subst features. rewrite length_map in E. lia.
  - subst per. rewrite lookup_map, lookup_missing by exact Hl. reflexivity.
Qed.

Lemma in_enumerate {A : Type} (l : list A) i a :
  In (i, a) (combine (seq 0 (length l)) l) -> i < length l /\ In a l.
Proof.
  intros Hin. split.
  - apply in_combine_l in Hin. apply in_seq in Hin. lia.
  - apply in_combine_r in Hin. exact Hin.
Qed.

(** C9.  Let the per-class sub-model be trained on [train_items], and let the
    helper return one error per feature vector.  If some query item's
    predicted label is not the annotated label of any training item, the
    scoring call raises [KeyError] for such a label and returns no scores;
    if every query item's predicted label is an annotated training label,
    the scoring call returns scores. *)
Theorem class_fre_unfitted_label_raises :
  forall (self m : ClassFREBasedModel.t) (train_items items : list Item),
    ClassFREBasedModel.train self train_items = Ok m ->
    let fitted := map DistributionDataItem.annotated_label train_items in
    ((exists it, In it items /\
                 ~ In (Some (DistributionDataItem.predicted_label it)) fitted) ->
     exists it,
       In it items /\
       ~ In (Some (DistributionDataItem.predicted_label it)) fitted /\
       OODSubModel.__call__ m items
       = Err (KeyError (Some (DistributionDataItem.predicted_label it)))) /\
    ((forall it, In it items ->
                 In (Some (DistributionDataItem.predicted_label it)) fitted) ->
     exists scores, OODSubModel.__call__ m items = Ok scores).
Proof.
  intros self m train_items items Ht fitted.
  destruct (train_fitted_classes _ _ Ht) as [Htrained Hkeys].
  unfold OODSubModel.__call__.
  cbn [OODSubModel._is_trained OODSubModel.forward ClassFREBasedModel.ops].
  unfold ClassFREBasedModel.forward. rewrite Htrained. cbn [negb].
  set (features := map DistributionDataItem.feature_vector items).
  set (per := map (fun kv => (fst kv, fre_score features (snd kv)))
                  (ClassFREBasedModel.pca_models_per_class m)).
  set (labels := map DistributionDataItem.predicted_label items).
  assert (Llab : length labels = length items) by apply length_map.
  split.
  - intros (it & Hit & Hnot).
    destruct (mapM_first_Err
                (fun e => exists it',
                     In it' items /\
                     ~ In (Some (DistributionDataItem.predicted_label it')) fitted /\
                     e = KeyError (Some (DistributionDataItem.predicted_label it')))
                (fun il : nat * string =>
                   scores <- ClassFREBasedModel.lookup per (Some (snd il)) ;;
                   getitem scores (fst il))
                (combine (seq 0 (length labels)) labels)) as (e & He & HP).
    + intros [i label] Hin. apply in_enumerate in Hin.
      destruct Hin as [Hi Hlabel]. rewrite Llab in Hi. cbn [fst snd].
      destruct (predicted_class_step m items label Hi) as [Hfit Hmiss].
      destruct (in_dec label_dec (Some label)
                  (map fst (ClassFREBasedModel.pca_models_per_class m)))
        as [Hin|Hout].
      * left. apply Hfit. exact Hin.
      * right. eexists. split; [apply Hmiss; exact Hout|].
        apply in_map_iff in Hlabel. destruct Hlabel as (it' & <- & Hit').
        exists it'. repeat split; trivial.
        intros Hf. apply Hout. apply Hkeys. exact Hf.
    + destruct (In_nth_error _ _ Hit) as (i & Hi).
      assert (Hlt : i < length items) by (apply nth_error_Some; congruence).
      exists (i, DistributionDataItem.predicted_label it). split.
      * eapply nth_error_In. apply nth_error_combine.
        -- rewrite nth_error_nth' with (d := 0%nat)
             by (rewrite length_seq, Llab; exact Hlt).
           rewrite seq_nth by (rewrite Llab; exact Hlt). reflexivity.
        -- apply map_nth_error. exact Hi.
      * cbn [fst snd].
        destruct (predicted_class_step m items
                    (DistributionDataItem.predicted_label it) Hlt) as [_ Hmiss].
        eexists. apply Hmiss. intros Hf. apply Hnot. apply Hkeys. exact Hf.
    + destruct HP as (it' & Hit' & Hnot' & ->). exists it'.
      repeat split; trivial. rewrite He. reflexivity.
  - intros Hall.
    destruct (mapM_total
                (fun il : nat * string =>
                   scores <- ClassFREBasedModel.lookup per (Some (snd il)) ;;
                   getitem scores (fst il))
                (combine (seq 0 (length labels)) labels)) as (preds & Hpreds).
    { intros [i label] Hin. apply in_enumerate in Hin.
      destruct Hin as [Hi Hlabel]. rewrite Llab in Hi. cbn [fst snd].
      destruct (predicted_class_step m items label Hi) as [Hfit _].
      apply Hfit. apply in_map_iff in Hlabel.
      destruct Hlabel as (it' & <- & Hit'). apply Hkeys. apply Hall. exact Hit'. }
    rewrite Hpreds. cbn [bind].
    destruct (mapM_total
                (fun i : nat =>
                   per_class <- mapM (fun kv : option string * list Q =>
                                        getitem (snd kv) i) per ;;
                   Np.min per_class)
                (seq 0 (length items))) as (mins & Hmins).
    { intros i Hi. apply in_seq in Hi.
      destruct (mapM_total (fun kv : option string * list Q => getitem (snd kv) i)
                  per) as (per_class & Hper).
      { intros [k arr] Hin. subst per. apply in_map_iff in Hin.
        destruct Hin as ([k' pca] & [= <- <-] & _). cbn [snd].
        unfold getitem.
        destruct (nth_error (fre_score features pca) i) eqn:E; [eauto|].
        apply nth_error_None in E. rewrite fre_score_length in E.
        subst features. rewrite length_map in E. lia. }
      rewrite Hper. cbn [bind].
      destruct per_class as [|x per_class]; [|simpl; eauto].
      exfalso. apply mapM_length in Hper. subst per.
      rewrite length_map in Hper.
      destruct (nth_error items i) as [it|] eqn:Ei;
        [|apply nth_error_None in Ei; lia].
      apply nth_error_In in Ei. apply Hall, Hkeys in Ei.
      destruct (ClassFREBasedModel.pca_models_per_class m);
        [destruct Ei | discriminate]. }
    rewrite Hmins. cbn [bind].
    unfold Np.sub. rewrite broadcast2_same_length.
    + cbn [bind]. eauto.
    + rewrite (mapM_length _ _ Hpreds), (mapM_length _ _ Hmins).
      rewrite length_combine, !length_seq, Llab. apply Nat.min_id.
Qed.

End UnfittedLabel.

Lemma class_fre_unfitted_label_raises_witness :
  (exists it,
      In it [Toy.cat; Toy.cow] /\
      ~ In (Some (DistributionDataItem.predicted_label it))
           (map DistributionDataItem.annotated_label [Toy.cat; Toy.dog; Toy.cat2]) /\
      OODSubModel.__call__ Toy.class_fre [Toy.cat; Toy.cow]
      = Err (KeyError (Some (DistributionDataItem.predicted_label it)))) /\
  (exists scores,
      OODSubModel.__call__ Toy.class_fre [Toy.cat; Toy.dog2] = Ok scores).
Proof.
  split.
  - apply (proj1 (@class_fre_unfitted_label_raises Toy.utils
                    (fun fvs pca => length_map _ fvs)
                    (@ClassFREBasedModel.__init__ Toy.utils (995 # 1000))
                    Toy.class_fre [Toy.cat; Toy.dog; Toy.cat2]
                    [Toy.cat; Toy.cow] eq_refl)).
    exists Toy.cow. split; [simpl; auto|].
    simpl. intros [Hc|[Hc|[Hc|[]]]]; discriminate Hc.
  - apply (proj2 (@class_fre_unfitted_label_raises Toy.utils
                    (fun fvs pca => length_map _ fvs)
                    (@ClassFREBasedModel.__init__ Toy.utils (995 # 1000))
                    Toy.class_fre [Toy.cat; Toy.dog; Toy.cat2]
                    [Toy.cat; Toy.dog2] eq_refl)).
    simpl. intros it [<-|[<-|[]]]; simpl; auto.
Defined.

(** ** Neighbour-based scores *)

Section KNNScoring.
Context `{Utils}.

Lemma mapM_getitem_nth (j : list Q -> nat) (d : list (list Q)) (col : list Q) :
  mapM (fun row => getitem row (j row)) d = Ok col ->
  forall i row, nth_error d i = Some row ->
    exists x, nth_error col i = Some x /\ nth_error row (j row) = Some x.
Proof.
  intros Hm i row Hi. destruct (mapM_nth _ _ Hm _ Hi) as (x & Hx & Hg).
  apply getitem_Ok in Hg. eauto.
Qed.

(** C6.  Whenever the trained neighbour-based sub-model returns scores, it
    returns the six arrays of its dict literal; [entropy_score] is the
    output of the entropy helper with 1 added to every entry, so it is at
    least 1 wherever the helper's entropy is not negative; and, the helpers
    returning one row and one entropy per query item, for the item at
    position [i] with distance row [row]: [nn_distance] is [row[1]],
    [average_nn_distance] is the mean of [row[1:]], [enwedi_score] is
    [average_nn_distance] times [entropy_score] and [enwedi_nn_score] is
    [nn_distance] times [entropy_score]. *)
Theorem knn_entropy_and_enwedi :
  forall (m : KNNBasedOODModel.t) (items : list Item) (scores : Scores),
    OODSubModel.__call__ m items = Ok scores ->
    exists index train_labels distances nn_indices
           knn_distance nn_distance enwedi_score enwedi_nn_score,
      let features := map DistributionDataItem.feature_vector items in
      let k := KNNBasedOODModel.knn_k m in
      let entropy :=
        calculate_entropy_nearest_neighbours train_labels nn_indices k in
      let entropy_score := map (fun h => (h + 1)%Q) entropy in
      let average_nn_distance := map (fun row => Np.mean (tl row)) distances in
      KNNBasedOODModel.knn_search_index m = Some index /\
      KNNBasedOODModel.train_set_labels m = Some train_labels /\
      perform_knn_search index features k = (distances, nn_indices) /\
      scores = [ ("knn_distance", knn_distance);
                 ("nn_distance", nn_distance);
                 ("average_nn_distance", average_nn_distance);
                 ("entropy_score", entropy_score);
                 ("enwedi_score", enwedi_score);
                 ("enwedi_nn_score", enwedi_nn_score) ] /\
      ((forall h, In h entropy -> (0 <= h)%Q) ->
       forall e, In e entropy_score -> (1 <= e)%Q) /\
      (length distances = length items ->
       length entropy = length items ->
       forall i item,
         nth_error items i = Some item ->
         exists row h nearest,
           nth_error distances i = Some row /\
           nth_error entropy i = Some h /\
           nth_error row 1 = Some nearest /\
           nth_error knn_distance i = nth_error row (length row - 1) /\
           nth_error nn_distance i = Some nearest /\
           nth_error average_nn_distance i = Some (Np.mean (tl row)) /\
           nth_error entropy_score i = Some (h + 1)%Q /\
           nth_error enwedi_score i = Some (Np.mean (tl row) * (h + 1))%Q /\
           nth_error enwedi_nn_score i = Some (nearest * (h + 1))%Q).
Proof.
  intros m items scores Hc. unfold OODSubModel.__call__ in Hc.
  cbn [OODSubModel._is_trained OODSubModel.forward KNNBasedOODModel.ops] in Hc.
  destruct (negb (KNNBasedOODModel._is_trained m)); [discriminate|].
  unfold KNNBasedOODModel.forward in Hc.
  apply bind_Ok in Hc. destruct Hc as (index & Hindex & Hc).
  destruct (perform_knn_search index _ _) as [distances nn_indices] eqn:Hsearch.
  apply bind_Ok in Hc. destruct Hc as (knn_distance & Hknn & Hc).
  apply bind_Ok in Hc. destruct Hc as (nn_distance & Hnn & Hc).
  apply bind_Ok in Hc. destruct Hc as (train_labels & Hlabels & Hc).
  apply bind_Ok in Hc. destruct Hc as (enwedi_score & Henwedi & Hc).
  apply bind_Ok in Hc. destruct Hc as (enwedi_nn_score & Henwedi_nn & Hc).
  injection Hc as <-.
  exists index, train_labels, distances, nn_indices,
         knn_distance, nn_distance, enwedi_score, enwedi_nn_score.
  cbv zeta.
  unfold required in Hindex, Hlabels.
  destruct (KNNBasedOODModel.knn_search_index m); [|discriminate].
  destruct (KNNBasedOODModel.train_set_labels m); [|discriminate].
  injection Hindex as ->. injection Hlabels as ->.
  split; [reflexivity|]. split; [reflexivity|]. split; [exact Hsearch|].
  split; [reflexivity|]. split.
  - intros Hpos e He. apply in_map_iff in He. destruct He as (h & <- & Hh).
    specialize (Hpos h Hh). lra.
  - intros Hrows Hentropy i item Hi.
    assert (Hlt : i < length items) by (apply nth_error_Some; congruence).
    destruct (nth_error distances i) as [row|] eqn:Hrow;
      [|apply nth_error_None in Hrow; lia].
    destruct (nth_error
                (calculate_entropy_nearest_neighbours train_labels nn_indices
                   (KNNBasedOODModel.knn_k m)) i) as [h|] eqn:Hh;
      [|apply nth_error_None in Hh; lia].
    destruct (mapM_getitem_nth (fun _ => 1) _ Hnn _ Hrow)
      as (nearest & Hn1 & Hn2).
    destruct (mapM_getitem_nth (fun row => length row - 1) _ Hknn _ Hrow)
      as (far & Hf1 & Hf2).
    assert (Havg : nth_error (Np.mean_tail distances) i
                   = Some (Np.mean (tl row))).
    { unfold Np.mean_tail.
      apply (map_nth_error (fun row => Np.mean (tl row))). exact Hrow. }
    assert (Hes : nth_error
                    (Np.iadd_scalar
                       (calculate_entropy_nearest_neighbours train_labels
                          nn_indices (KNNBasedOODModel.knn_k m)) 1) i
                  = Some (h + 1)%Q).
    { unfold Np.iadd_scalar.
      apply (map_nth_error (fun x => (x + 1)%Q)). exact Hh. }
    unfold Np.mul in Henwedi, Henwedi_nn.
    rewrite broadcast2_same_length in Henwedi, Henwedi_nn.
    + injection Henwedi as <-. injection Henwedi_nn as <-.
      exists row, h, nearest. repeat split; try assumption.
      * congruence.
      * rewrite nth_error_map, (nth_error_combine _ _ _ Havg Hes). reflexivity.
      * rewrite nth_error_map, (nth_error_combine _ _ _ Hn1 Hes). reflexivity.
    + unfold Np.iadd_scalar. rewrite length_map, (mapM_length _ _ Hnn). lia.
    + unfold Np.iadd_scalar, Np.mean_tail. rewrite !length_map. lia.
Qed.

End KNNScoring.

Lemma knn_entropy_and_enwedi_witness :
  exists knn_distance nn_distance average entropy_score enwedi enwedi_nn,
    Toy.knn_scores [Toy.cat2; Toy.dog2]
    = [ ("knn_distance", knn_distance); ("nn_distance", nn_distance);
        ("average_nn_distance", average); ("entropy_score", entropy_score);
        ("enwedi_score", enwedi); ("enwedi_nn_score", enwedi_nn) ] /\
    forall e, In e entropy_score -> (1 <= e)%Q.
Proof.
  destruct (@knn_entropy_and_enwedi Toy.utils Toy.knn [Toy.cat2; Toy.dog2]
              (Toy.knn_scores [Toy.cat2; Toy.dog2]))
    as (index & train_labels & distances & nn_indices & knn_distance
        & nn_distance & enwedi & enwedi_nn & Hindex & Hlabels & Hsearch
        & Hscores & Hone & _).
  - vm_compute. reflexivity.
  - do 6 eexists. split; [exact Hscores|].
    apply Hone. intros h Hh. cbn in Hh. apply in_map_iff in Hh.
    destruct Hh as (x & <- & _). discriminate.
Defined.

(** ** Normalisation of the feature vector *)

Section Normalisation.
Context `{ThirdParty}.

Lemma data_flatten_branch (a : ndarray) :
  data (if negb (Nat.eqb (length (shape a)) 1) then flatten a else a) = data a.
Proof. destruct (negb _); reflexivity. Qed.

(** C8.  With normalisation requested and a feature vector present, the
    constructor divides every entry of the flattened vector by the vector's
    L2 norm when that norm is not zero, and it returns for every prediction
    that has a top-1 label; when the norm is zero it raises the dedicated
    zero-norm error and stores nothing. *)
Theorem init_normalises_or_rejects_zero_norm :
  forall (raw_prediction : Prediction) (media_name media_path annotated_label :
            option string) (purpose : option DistributionDataItemPurpose)
         (a : ndarray),
    prediction_feature_vector raw_prediction = Some a ->
    let v := data a in
    let construct :=
      DistributionDataItem.__init__ raw_prediction media_name media_path
        annotated_label true purpose in
    ((l2_norm v == 0)%Q -> construct = Err ZeroNormError) /\
    (~ (l2_norm v == 0)%Q ->
     (forall item, construct = Ok item ->
        DistributionDataItem.feature_vector item
        = map (fun x => (x / l2_norm v)%Q) v /\
        DistributionDataItem.is_feature_vector_normalised item = true) /\
     (forall top, top_label raw_prediction = Some top ->
        exists item, construct = Ok item)).
Proof.
  intros raw mn mp al pu a Hfv v construct. subst construct.
  unfold DistributionDataItem.__init__. rewrite Hfv. cbn [bind].
  rewrite data_flatten_branch. fold v. unfold normalise_features.
  split.
  - intros Hz. apply Qeq_bool_iff in Hz. rewrite Hz. reflexivity.
  - intros Hnz.
    destruct (Qeq_bool (l2_norm v) 0) eqn:E;
      [apply Qeq_bool_iff in E; contradiction|].
    cbn [bind getitem nth_error]. split.
    + intros item Hi. bind_inv Hi. bind_inv Hi. injection Hi as <-.
      split; reflexivity.
    + intros top Htop. unfold top_label in Htop.
      destruct (nth_error (annotations raw) 0) as [ann|] eqn:Ea; [|discriminate].
      apply getitem_Ok in Ea, Htop. rewrite Ea. cbn [bind].
      rewrite Htop. cbn [bind]. eauto.
Qed.

End Normalisation.

Lemma init_normalises_or_rejects_zero_norm_witness :
  @DistributionDataItem.__init__ Toy.third_party
    (Toy.prediction [0; 0]%Q "cat" (9 # 10)) None None None true None
  = Err ZeroNormError /\
  exists item,
    @DistributionDataItem.__init__ Toy.third_party
      (Toy.prediction [3; 4]%Q "cat" (9 # 10)) None None None true None
    = Ok item.
Proof.
  split.
  - apply (proj1 (@init_normalises_or_rejects_zero_norm Toy.third_party
                    (Toy.prediction [0; 0]%Q "cat" (9 # 10))
                    None None None None _ eq_refl)).
    reflexivity.
  - apply (proj2 (proj2 (@init_normalises_or_rejects_zero_norm Toy.third_party
                    (Toy.prediction [3; 4]%Q "cat" (9 # 10))
                    None None None None _ eq_refl)
                   ltac:(discriminate))
             {| name := "cat"; probability := 9 # 10 |}).
    reflexivity.
Defined.

(** ** Lists of indices *)

Lemma existsb_nat_In (i : nat) (l : list nat) :
  existsb (Nat.eqb i) l = true <-> In i l.
Proof.
  rewrite existsb_exists. split.
  - intros (x & Hx & He). apply Nat.eqb_eq in He. subst. exact Hx.
  - intros Hi. exists i. split; [exact Hi | apply Nat.eqb_refl].
Qed.

Lemma existsb_Z_In (i : Z) (l : list Z) :
  existsb (Z.eqb i) l = true <-> In i l.
Proof.
  rewrite existsb_exists. split.
  - intros (x & Hx & He). apply Z.eqb_eq in He. subst. exact Hx.
  - intros Hi. exists i. split; [exact Hi | apply Z.eqb_refl].
Qed.

Lemma filter_mem_length (n : nat) (l : list nat) :
  NoDup l -> (forall x, In x l -> x < n) ->
  length (filter (fun i => existsb (Nat.eqb i) l) (seq 0 n)) = length l.
Proof.
  intros Hn Hlt. apply Permutation_length. apply NoDup_Permutation.
  - apply NoDup_filter, seq_NoDup.
  - exact Hn.
  - intros x. rewrite filter_In, existsb_nat_In, in_seq. split.
    + tauto.
    + intros Hx. specialize (Hlt x Hx). split; [lia | exact Hx].
Qed.

Lemma filter_not_mem_length (n : nat) (l : list nat) :
  NoDup l -> (forall x, In x l -> x < n) ->
  length (filter (fun i => negb (existsb (Nat.eqb i) l)) (seq 0 n))
  = n - length l.
Proof.
  intros Hn Hlt.
  pose proof (filter_length (fun i => existsb (Nat.eqb i) l) (seq 0 n)) as Hf.
  rewrite length_seq, filter_mem_length in Hf by assumption. lia.
Qed.

Lemma existsb_nodup (i : nat) (l : list nat) :
  existsb (Nat.eqb i) (nodup Nat.eq_dec l) = existsb (Nat.eqb i) l.
Proof.
  destruct (existsb (Nat.eqb i) l) eqn:E.
  - apply existsb_nat_In. apply nodup_In. apply existsb_nat_In. exact E.
  - apply not_true_is_false. intros E'. apply existsb_nat_In in E'.
    apply nodup_In in E'. apply existsb_nat_In in E'. congruence.
Qed.

(** *** Python indices and the positions they list *)

Lemma In_positions (i : nat) (l : list Z) :
  In i (positions l) <-> In (Z.of_nat i) l.
Proof.
  unfold positions. rewrite in_map_iff. split.
  - intros (z & Hz & Hin). apply filter_In in Hin. destruct Hin as [Hin Hle].
    apply Z.leb_le in Hle. subst i. rewrite Z2Nat.id by exact Hle. exact Hin.
  - intros Hin. exists (Z.of_nat i). split; [apply Nat2Z.id|].
    apply filter_In. split; [exact Hin | apply Z.leb_le; lia].
Qed.

Lemma positions_mem (i : nat) (l : list Z) :
  existsb (Nat.eqb i) (positions l) = existsb (Z.eqb (Z.of_nat i)) l.
Proof.
  destruct (existsb (Z.eqb (Z.of_nat i)) l) eqn:E.
  - apply existsb_nat_In, In_positions, existsb_Z_In, E.
  - apply not_true_is_false. intros E'.
    apply existsb_nat_In, In_positions, existsb_Z_In in E'. congruence.
Qed.

Lemma positions_of_nat (l : list nat) : positions (map Z.of_nat l) = l.
Proof.
  unfold positions. induction l as [|a l IH]; cbn [map filter]; [reflexivity|].
  destruct (0 <=? Z.of_nat a)%Z eqn:E; [|apply Z.leb_gt in E; lia].
  cbn [map]. rewrite Nat2Z.id. f_equal. exact IH.
Qed.

Lemma positions_lt (n : nat) (l : list Z) :
  Forall (in_range n) l -> forall i, In i (positions l) -> i < n.
Proof.
  intros Hr i Hi. apply In_positions in Hi.
  rewrite Forall_forall in Hr. specialize (Hr _ Hi). unfold in_range in Hr. lia.
Qed.

Lemma in_range_of_nat (n : nat) (l : list nat) :
  (forall i, In i l -> i < n) -> Forall (in_range n) (map Z.of_nat l).
Proof.
  intros Hlt. apply Forall_forall. intros z Hz. apply in_map_iff in Hz.
  destruct Hz as (i & <- & Hi). specialize (Hlt i Hi). unfold in_range. lia.
Qed.

Lemma in_range_dec (n : nat) (idx : Z) : {in_range n idx} + {~ in_range n idx}.
Proof.
  unfold in_range.
  destruct (Z_le_dec (- Z.of_nat n) idx), (Z_lt_dec idx (Z.of_nat n));
    [left | right | right | right]; lia.
Qed.

Lemma range_dec (n : nat) (l : list Z) :
  Forall (in_range n) l \/ Exists (fun idx => ~ in_range n idx) l.
Proof.
  induction l as [|idx l [IH|IH]].
  - left. constructor.
  - destruct (in_range_dec n idx) as [Hin|Hout].
    + left. constructor; assumption.
    + right. apply Exists_cons_hd. exact Hout.
  - right. apply Exists_cons_tl. exact IH.
Qed.

Lemma position_of_in_range (n : nat) (idx : Z) :
  in_range n idx ->
  exists i, COODModel.position_of n idx = Ok i /\ i < n /\
            ((0 <= idx)%Z -> i = Z.to_nat idx).
Proof.
  unfold in_range, COODModel.position_of. intros Hr.
  destruct (idx <? - Z.of_nat n)%Z eqn:E1; [apply Z.ltb_lt in E1; lia|].
  destruct (Z.of_nat n <=? idx)%Z eqn:E2; [apply Z.leb_le in E2; lia|].
  cbn [orb]. destruct (idx <? 0)%Z eqn:E3.
  - apply Z.ltb_lt in E3. eexists. split; [reflexivity|]. split; lia.
  - apply Z.ltb_ge in E3. eexists. split; [reflexivity|].
    split; [lia | reflexivity].
Qed.

Lemma position_of_out_of_range (n : nat) (idx : Z) :
  ~ in_range n idx -> COODModel.position_of n idx = Err IndexError.
Proof.
  unfold in_range, COODModel.position_of. intros Hr.
  destruct (idx <? - Z.of_nat n)%Z eqn:E1; [reflexivity|].
  destruct (Z.of_nat n <=? idx)%Z eqn:E2; [reflexivity|].
  exfalso. apply Hr. apply Z.ltb_ge in E1. apply Z.leb_gt in E2. lia.
Qed.

(** ** Assignment of the purposes *)

Lemma set_purpose_twice (it : Item) (p q : DistributionDataItemPurpose) :
  DistributionDataItem.set_purpose (DistributionDataItem.set_purpose it p) q
  = DistributionDataItem.set_purpose it q.
Proof. destruct it; reflexivity. Qed.

Lemma set_purpose_at_spec (p : DistributionDataItemPurpose) :
  forall (data : list Item) (idx : nat),
    idx < length data ->
    exists data',
      COODModel.set_purpose_at data idx p = Ok data' /\
      length data' = length data /\
      forall j,
        nth_error data' j
        = if Nat.eqb j idx
          then option_map (fun it => DistributionDataItem.set_purpose it p)
                          (nth_error data j)
          else nth_error data j.
Proof.
  intros items. induction items as [|item rest IH]; intros idx Hlt;
    simpl in Hlt; [lia|].
  destruct idx as [|idx]; simpl.
  - eexists. split; [reflexivity|]. split; [reflexivity|].
    intros [|j]; reflexivity.
  - destruct (IH idx) as (rest' & Hr & Hl & Hn); [lia|].
    rewrite Hr. simpl. eexists. split; [reflexivity|].
    split; [simpl; congruence|].
    intros [|j]; simpl; [reflexivity | apply Hn].
Qed.

Lemma assign_first_pass (train_indices : list Z) :
  forall data : list Item,
    Forall (in_range (length data)) train_indices ->
    exists data1,
      fold_left (fun acc idx =>
                   d <- acc ;;
                   i <- COODModel.position_of (length d) idx ;;
                   COODModel.set_purpose_at d i TRAIN)
                train_indices (Ok data) = Ok data1 /\
      length data1 = length data /\
      forall j,
        (nth_error data1 j = nth_error data j \/
         nth_error data1 j
         = option_map (fun it => DistributionDataItem.set_purpose it TRAIN)
                      (nth_error data j)) /\
        (In (Z.of_nat j) train_indices ->
         nth_error data1 j
         = option_map (fun it => DistributionDataItem.set_purpose it TRAIN)
                      (nth_error data j)).
Proof.
  induction train_indices as [|idx sel IH]; intros data Hr; cbn [fold_left].
  - exists data. split; [reflexivity|]. split; [reflexivity|].
    intros j. split; [left; reflexivity | intros []].
  - inversion Hr as [|? ? Hidx Hsel]; subst.
    destruct (position_of_in_range Hidx) as (i & Hi & Hlt & Hnonneg).
    cbn [bind]. rewrite Hi. cbn [bind].
    destruct (set_purpose_at_spec TRAIN data (idx := i) Hlt)
      as (d' & Hd & Hl & Hn).
    rewrite Hd.
    destruct (IH d') as (data1 & Hf & Hl1 & Hn1); [rewrite Hl; exact Hsel|].
    exists data1. split; [exact Hf|]. split; [congruence|].
    assert (Hidem : forall o : option Item,
               option_map (fun it => DistributionDataItem.set_purpose it TRAIN)
                 (option_map (fun it => DistributionDataItem.set_purpose it TRAIN) o)
               = option_map (fun it => DistributionDataItem.set_purpose it TRAIN) o).
    { intros [it|]; cbn [option_map]; [rewrite set_purpose_twice|]; reflexivity. }
    intros j. destruct (Hn1 j) as [Hor Hin]. specialize (Hn j).
    assert (Hd'j : nth_error d' j = nth_error data j \/
                   nth_error d' j
                   = option_map (fun it => DistributionDataItem.set_purpose it TRAIN)
                                (nth_error data j)).
    { rewrite Hn. destruct (Nat.eqb j i); auto. }
    split.
    + destruct Hor as [Hor|Hor], Hd'j as [Hd'j|Hd'j]; rewrite Hor, Hd'j, ?Hidem;
        auto.
    + intros [Heq|Hj].
      * assert (Hij : i = j) by (rewrite Hnonneg by lia; subst idx; apply Nat2Z.id).
        subst i. rewrite Nat.eqb_refl in Hn.
        destruct Hor as [Hor|Hor]; rewrite Hor, Hn, ?Hidem; reflexivity.
      * rewrite (Hin Hj).
        destruct Hd'j as [Hd'j|Hd'j]; rewrite Hd'j, ?Hidem; reflexivity.
Qed.

Lemma fold_purpose_Err (train_indices : list Z) (e : PyError) :
  fold_left (fun acc idx =>
               d <- acc ;;
               i <- COODModel.position_of (length d) idx ;;
               COODModel.set_purpose_at d i TRAIN)
            train_indices (Err e) = Err e.
Proof. induction train_indices as [|i l IH]; simpl; [reflexivity | exact IH]. Qed.

Lemma assign_first_pass_Err (train_indices : list Z) :
  forall items : list Item,
    Exists (fun idx => ~ in_range (length items) idx) train_indices ->
    fold_left (fun acc idx =>
                 d <- acc ;;
                 i <- COODModel.position_of (length d) idx ;;
                 COODModel.set_purpose_at d i TRAIN)
              train_indices (Ok items) = Err IndexError.
Proof.
  induction train_indices as [|idx sel IH]; intros items Hex; [inversion Hex|].
  cbn [fold_left bind].
  destruct (in_range_dec (length items) idx) as [Hin|Hout].
  - destruct (position_of_in_range Hin) as (i & Hi & Hlt & _).
    rewrite Hi. cbn [bind].
    destruct (set_purpose_at_spec TRAIN items Hlt) as (d' & Hd & Hl & _).
    rewrite Hd. apply IH. rewrite Hl.
    inversion Hex; subst; [contradiction | assumption].
  - rewrite (position_of_out_of_range Hout). cbn [bind]. apply fold_purpose_Err.
Qed.

Lemma nth_error_enumerate {A : Type} (l : list A) (j : nat) :
  nth_error (combine (seq 0 (length l)) l) j
  = option_map (fun a => (j, a)) (nth_error l j).
Proof.
  destruct (nth_error l j) as [a|] eqn:E; simpl.
  - apply nth_error_combine; [|exact E].
    assert (Hlt : j < length l) by (apply nth_error_Some; congruence).
    rewrite nth_error_nth' with (d := 0%nat) by (rewrite length_seq; exact Hlt).
    rewrite seq_nth by exact Hlt. reflexivity.
  - apply nth_error_None. apply nth_error_None in E.
    rewrite length_combine, length_seq. lia.
Qed.

Lemma assign_spec (data : list Item) (train_indices : list Z) :
  Forall (in_range (length data)) train_indices ->
  COODModel._assign_train_test_purpose_to_data data train_indices
  = Ok (assigned data (positions train_indices)).
Proof.
  intros Hr. unfold COODModel._assign_train_test_purpose_to_data.
  destruct (@assign_first_pass train_indices data Hr) as (data1 & Hf & Hl & Hn).
  rewrite Hf. cbn [bind]. f_equal. apply nth_error_ext. intros j.
  unfold assigned. rewrite !nth_error_map, !nth_error_enumerate.
  destruct (Hn j) as [Hor Hin].
  destruct (existsb (Z.eqb (Z.of_nat j)) train_indices) eqn:E.
  - rewrite (Hin (proj1 (existsb_Z_In _ _) E)).
    destruct (nth_error data j) as [it|]; cbn [option_map fst snd];
      [|reflexivity].
    rewrite positions_mem, E. reflexivity.
  - destruct Hor as [Hor|Hor]; rewrite Hor;
      (destruct (nth_error data j) as [it|]; cbn [option_map fst snd];
       [|reflexivity]);
      rewrite positions_mem, E; cbn [negb]; rewrite ?set_purpose_twice;
      reflexivity.
Qed.

Lemma assign_Err (data : list Item) (train_indices : list Z) :
  Exists (fun idx => ~ in_range (length data) idx) train_indices ->
  COODModel._assign_train_test_purpose_to_data data train_indices
  = Err IndexError.
Proof.
  intros Hex. unfold COODModel._assign_train_test_purpose_to_data.
  rewrite assign_first_pass_Err by exact Hex. reflexivity.
Qed.

Lemma assign_Ok (data split : list Item) (train_indices : list Z) :
  COODModel._assign_train_test_purpose_to_data data train_indices = Ok split ->
  Forall (in_range (length data)) train_indices /\
  split = assigned data (positions train_indices).
Proof.
  intros Ha. destruct (range_dec (length data) train_indices) as [Hin|Hout].
  - rewrite (assign_spec data Hin) in Ha. injection Ha as <-. auto.
  - rewrite (assign_Err data Hout) in Ha. discriminate.
Qed.

Lemma filter_fst_combine_length {A B : Type} (P : A -> bool) :
  forall (l : list A) (l' : list B),
    length l = length l' ->
    length (filter (fun p => P (fst p)) (combine l l')) = length (filter P l).
Proof.
  induction l as [|a l IH]; intros [|b l'] Hl; simpl in *; try discriminate;
    [reflexivity|].
  destruct (P a); simpl; rewrite IH by lia; reflexivity.
Qed.

Lemma assigned_count (data : list Item) (train_indices : list nat)
    (p : DistributionDataItemPurpose) :
  length (COODModel.with_purpose p (assigned data train_indices))
  = length (filter (fun i =>
                      purpose_eqb
                        (if existsb (Nat.eqb i) train_indices then TRAIN else TEST) p)
                   (seq 0 (length data))).
Proof.
  unfold COODModel.with_purpose, assigned.
  rewrite filter_map_swap, length_map. cbn [DistributionDataItem.purpose
    DistributionDataItem.set_purpose].
  apply (filter_fst_combine_length
           (fun i => purpose_eqb
                       (if existsb (Nat.eqb i) train_indices then TRAIN else TEST) p)).
  apply length_seq.
Qed.


Lemma nth_error_assigned (items : list Item) (train_indices : list nat) (i : nat) :
  nth_error (assigned items train_indices) i
  = option_map
      (fun it => DistributionDataItem.set_purpose it
                   (if existsb (Nat.eqb i) train_indices then TRAIN else TEST))
      (nth_error items i).
Proof.
  unfold assigned. rewrite nth_error_map, nth_error_enumerate.
  destruct (nth_error items i); reflexivity.
Qed.

Lemma length_assigned (items : list Item) (train_indices : list nat) :
  length (assigned items train_indices) = length items.
Proof.
  unfold assigned. rewrite length_map, length_combine, length_seq.
  apply Nat.min_id.
Qed.

Lemma assigned_sizes (items : list Item) (train_indices : list nat) :
  (forall i, In i train_indices -> i < length items) ->
  length (COODModel.with_purpose TRAIN (assigned items train_indices))
  = length (nodup Nat.eq_dec train_indices) /\
  length (COODModel.with_purpose TEST (assigned items train_indices))
  = length items - length (nodup Nat.eq_dec train_indices).
Proof.
  intros Hlt. rewrite !assigned_count.
  rewrite (filter_ext _ (fun i => existsb (Nat.eqb i) (nodup Nat.eq_dec train_indices)))
    by (intros i; rewrite existsb_nodup;
        destruct (existsb (Nat.eqb i) train_indices); reflexivity).
  rewrite (filter_ext (fun i => purpose_eqb _ TEST)
             (fun i => negb (existsb (Nat.eqb i) (nodup Nat.eq_dec train_indices))))
    by (intros i; rewrite existsb_nodup;
        destruct (existsb (Nat.eqb i) train_indices); reflexivity).
  assert (Hlt' : forall x, In x (nodup Nat.eq_dec train_indices) -> x < length items)
    by (intros x Hx; apply Hlt; apply nodup_In in Hx; exact Hx).
  rewrite filter_mem_length, filter_not_mem_length
    by (exact Hlt' || apply NoDup_nodup).
  split; reflexivity.
Qed.



Lemma assigned_purposes (data : list Item) (train_indices : list nat) :
  Forall (fun it => DistributionDataItem.purpose it = Some TRAIN \/
                    DistributionDataItem.purpose it = Some TEST)
         (assigned data train_indices).
Proof.
  apply Forall_forall. intros it Hit. unfold assigned in Hit.
  apply in_map_iff in Hit. destruct Hit as ([i x] & <- & _). simpl.
  destruct (existsb (Nat.eqb i) train_indices); auto.
Qed.

Lemma assigned_partition (data : list Item) (train_indices : list nat) :
  (forall i, In i train_indices -> i < length data) ->
  length (COODModel.with_purpose TRAIN (assigned data train_indices))
  + length (COODModel.with_purpose TEST (assigned data train_indices))
  = length data.
Proof.
  intros Hin. destruct (assigned_sizes data train_indices Hin) as [Htrain Htest].
  rewrite Htrain, Htest.
  assert (length (nodup Nat.eq_dec train_indices) <= length data); [|lia].
  rewrite <- (length_seq (length data) 0).
  apply NoDup_incl_length; [apply NoDup_nodup|].
  intros i Hi. apply nodup_In in Hi. apply in_seq. specialize (Hin i Hi). lia.
Qed.


(** ** The stratified split *)

Lemma int_fraction_90 (n : nat) : int_fraction (90 # 100) n = 9 * n / 10.
Proof.
  unfold int_fraction, Qfloor. cbn [Qmult Qnum Qden inject_Z].
  change (Z.pos (100 * 1)) with (10 * 10)%Z.
  replace (90 * Z.of_nat n)%Z with (10 * Z.of_nat (9 * n))%Z by lia.
  rewrite Z.div_mul_cancel_l by lia.
  change 10%Z with (Z.of_nat 10). rewrite <- Nat2Z.inj_div.
  apply Nat2Z.id.
Qed.


Section StratifiedSplit.
Context `{ThirdParty} `{StratifiedSplitter}.


End StratifiedSplit.

Lemma toy_choice_without_replacement :
  forall n k, k <= n ->
    NoDup (@np_random_choice Toy.third_party n k) /\
    length (@np_random_choice Toy.third_party n k) = k /\
    forall j, In j (@np_random_choice Toy.third_party n k) -> j < n.
Proof.
  intros n k Hk. simpl. split; [apply seq_NoDup|]. split; [apply length_seq|].
  intros j Hj. apply in_seq in Hj. lia.
Qed.


(** The requirements on the classes can be met for every list of labels:
    the sample splitter meets them. *)
Lemma first_occurrence (c : option string) (y : list (option string)) :
  In c y ->
  exists i, nth_error y i = Some c /\
            existsb (label_eqb c) (firstn i y) = false.
Proof.
  induction y as [|a y IH]; intros Hin; [destruct Hin|].
  destruct (label_dec a c) as [->|Hne].
  - exists 0. split; reflexivity.
  - destruct Hin as [Heq|Hin]; [contradiction|].
    destruct (IH Hin) as (i & Hi & Hfirst). exists (S i). split; [exact Hi|].
    cbn [firstn existsb]. rewrite Hfirst.
    destruct (label_eqb c a) eqn:E; [|reflexivity].
    apply label_eqb_eq in E. congruence.
Qed.

Lemma last_occurrence (c : option string) (y : list (option string)) :
  In c y ->
  exists i, nth_error y i = Some c /\
            existsb (label_eqb c) (skipn (S i) y) = false.
Proof.
  induction y as [|a y IH]; intros Hin; [destruct Hin|].
  destruct (in_dec label_dec c y) as [Hy|Hy].
  - destruct (IH Hy) as (i & Hi & Hlast). exists (S i). split; assumption.
  - destruct Hin as [->|Hin]; [|contradiction].
    exists 0. split; [reflexivity|]. cbn [skipn].
    apply not_true_is_false. intros E. apply existsb_exists in E.
    destruct E as (x & Hx & E). apply label_eqb_eq in E. subst x.
    contradiction.
Qed.

Lemma last_of_several (c : option string) (y : list (option string)) :
  2 <= count_occ label_dec y c ->
  exists i, nth_error y i = Some c /\
            existsb (label_eqb c) (firstn i y) = true /\
            existsb (label_eqb c) (skipn (S i) y) = false.
Proof.
  induction y as [|a y IH]; intros Hc; cbn [count_occ] in Hc; [lia|].
  destruct (label_dec a c) as [->|Hne].
  - assert (Hin : In c y) by (apply (count_occ_In label_dec); lia).
    destruct (last_occurrence c y Hin) as (i & Hi & Hlast).
    exists (S i). split; [exact Hi|]. split; [|exact Hlast].
    cbn [firstn existsb].
    rewrite (proj2 (label_eqb_eq c c) eq_refl). reflexivity.
  - destruct (IH Hc) as (i & Hi & Hfirst & Hlast).
    exists (S i). split; [exact Hi|]. split; [|exact Hlast].
    cbn [firstn existsb]. rewrite Hfirst. apply orb_true_r.
Qed.

Lemma splitter_represents (x : list Item) (y : list (option string))
    (fraction : Q) (min_samples_per_class : nat) :
  represents y
    (@stratified_selection Toy.splitter x y fraction min_samples_per_class).
Proof.
  cbn [stratified_selection Toy.splitter].
  set (keep := fun i : nat =>
                 match nth_error y i with
                 | Some c =>
                     negb (existsb (label_eqb c) (firstn i y)
                           && negb (existsb (label_eqb c) (skipn (S i) y)))
                 | None => false
                 end).
  assert (Hmem : forall i, In (Z.of_nat i)
                             (map Z.of_nat (filter keep (seq 0 (length y))))
                           <-> i < length y /\ keep i = true).
  { intros i. rewrite in_map_iff. split.
    - intros (j & Hj & Hin). apply Nat2Z.inj in Hj. subst j.
      apply filter_In in Hin. destruct Hin as [Hin Hk]. apply in_seq in Hin.
      split; [lia | exact Hk].
    - intros [Hlt Hk]. exists i. split; [reflexivity|].
      apply filter_In. split; [apply in_seq; lia | exact Hk]. }
  split; [|split].
  - apply Forall_forall. intros z Hz. apply in_map_iff in Hz.
    destruct Hz as (i & <- & Hi). apply filter_In in Hi.
    destruct Hi as [Hi _]. apply in_seq in Hi. lia.
  - intros c Hc. destruct (first_occurrence c y Hc) as (i & Hi & Hfirst).
    exists i. split; [|exact Hi]. apply Hmem. split.
    + apply nth_error_Some. congruence.
    + unfold keep. rewrite Hi, Hfirst. reflexivity.
  - intros c Hc. destruct (last_of_several c y Hc) as (i & Hi & Hfirst & Hlast).
    exists i. split; [|exact Hi]. intros Hin. apply Hmem in Hin.
    destruct Hin as [_ Hk]. unfold keep in Hk.
    rewrite Hi, Hfirst, Hlast in Hk. discriminate Hk.
Qed.


(** * Further properties of the code *)

(** ** Purpose assignment in general *)

(** X1.  [_assign_train_test_purpose_to_data] raises exactly when some train
    index addresses no item of the data (it is [len(data)] or more, or below
    [-len(data)]), and then it raises [IndexError]; otherwise it returns the
    same items in the same order, the item at a listed position with purpose
    TRAIN and every other item with purpose TEST, nothing else changed.  An
    index below zero lists no position: the item it addresses is TEST unless
    its position is listed too. *)
Theorem assign_purpose_positions_or_index_error :
  forall (items : list Item) (train_indices : list Z),
    (COODModel._assign_train_test_purpose_to_data items train_indices
     = Err IndexError <->
     exists idx, In idx train_indices /\
                 (Z.of_nat (length items) <= idx \/
                  idx < - Z.of_nat (length items))%Z) /\
    (forall e,
        COODModel._assign_train_test_purpose_to_data items train_indices = Err e ->
        e = IndexError) /\
    (forall split,
        COODModel._assign_train_test_purpose_to_data items train_indices
        = Ok split ->
        length split = length items /\
        forall i it,
          nth_error items i = Some it ->
          (In (Z.of_nat i) train_indices ->
           nth_error split i = Some (DistributionDataItem.set_purpose it TRAIN)) /\
          (~ In (Z.of_nat i) train_indices ->
           nth_error split i = Some (DistributionDataItem.set_purpose it TEST))).
Proof.
  intros items sel.
  destruct (range_dec (length items) sel) as [Hin|Hout].
  - rewrite (assign_spec items Hin). split; [|split].
    + split; [discriminate|]. intros (idx & Hi & Hle).
      rewrite Forall_forall in Hin. specialize (Hin idx Hi).
      unfold in_range in Hin. lia.
    + discriminate.
    + intros split [= <-]. split; [apply length_assigned|].
      intros i it Hi. rewrite nth_error_assigned, Hi, positions_mem.
      cbn [option_map]. split; intros Hmem.
      * rewrite (proj2 (existsb_Z_In _ sel) Hmem). reflexivity.
      * destruct (existsb (Z.eqb (Z.of_nat i)) sel) eqn:E; [|reflexivity].
        apply existsb_Z_In in E. contradiction.
  - rewrite (assign_Err items Hout). split; [|split].
    + split; [intros _ | reflexivity].
      apply Exists_exists in Hout. destruct Hout as (idx & Hi & Hno).
      exists idx. split; [exact Hi|]. unfold in_range in Hno. lia.
    + intros e [= <-]. reflexivity.
    + discriminate.
Qed.

Lemma assign_purpose_positions_or_index_error_witness :
  nth_error
    (match COODModel._assign_train_test_purpose_to_data
             [Toy.cat; Toy.dog; Toy.cow] [2; 0; 2]%Z with
     | Ok split => split
     | Err _ => []
     end) 1
  = Some (DistributionDataItem.set_purpose Toy.dog TEST) /\
  COODModel._assign_train_test_purpose_to_data [Toy.cat; Toy.dog] [0; 2]%Z
  = Err IndexError /\
  nth_error
    (match COODModel._assign_train_test_purpose_to_data
             [Toy.cat; Toy.dog] [-1]%Z with
     | Ok split => split
     | Err _ => []
     end) 1
  = Some (DistributionDataItem.set_purpose Toy.dog TEST).
Proof.
  split; [|split].
  - apply (proj2 (proj2 (proj2 (assign_purpose_positions_or_index_error
                                  [Toy.cat; Toy.dog; Toy.cow] [2; 0; 2]%Z))
                          _ eq_refl) 1 Toy.dog eq_refl).
    simpl. intros [Hz|[Hz|[Hz|[]]]]; discriminate Hz.
  - apply (proj1 (assign_purpose_positions_or_index_error
                    [Toy.cat; Toy.dog] [0; 2]%Z)).
    exists 2%Z. split; [simpl; auto | simpl; lia].
  - apply (proj2 (proj2 (proj2 (assign_purpose_positions_or_index_error
                                  [Toy.cat; Toy.dog] [-1]%Z))
                          _ eq_refl) 1 Toy.dog eq_refl).
    simpl. intros [Hz|[]]; discriminate Hz.
Defined.

(** X2.  A second assignment overwrites the first: assigning purposes to
    data that already went through an assignment gives what assigning
    them to the original data gives; and the outcome depends only on
    which indices are listed, not on their order or repetition. *)
Theorem assign_purpose_overwrites :
  forall (items : list Item) (first second : list Z),
    (forall split,
        COODModel._assign_train_test_purpose_to_data items first = Ok split ->
        COODModel._assign_train_test_purpose_to_data split second
        = COODModel._assign_train_test_purpose_to_data items second) /\
    ((forall idx, In idx first <-> In idx second) ->
     COODModel._assign_train_test_purpose_to_data items first
     = COODModel._assign_train_test_purpose_to_data items second).
Proof.
  intros items s1 s2. split.
  - intros split H1. apply assign_Ok in H1. destruct H1 as [_ ->].
    destruct (range_dec (length items) s2) as [Hin2|Hout2].
    + rewrite !assign_spec by (rewrite ?length_assigned; exact Hin2).
      f_equal. apply nth_error_ext. intros i.
      rewrite !nth_error_assigned.
      destruct (nth_error items i); reflexivity.
    + rewrite !assign_Err by (rewrite ?length_assigned; exact Hout2).
      reflexivity.
  - intros Hsame.
    destruct (range_dec (length items) s1) as [Hin1|Hout1].
    + assert (Hin2 : Forall (in_range (length items)) s2).
      { rewrite Forall_forall in *. intros idx Hi. apply Hin1, Hsame, Hi. }
      rewrite !assign_spec by assumption. f_equal.
      apply nth_error_ext. intros i. rewrite !nth_error_assigned, !positions_mem.
      replace (existsb (Z.eqb (Z.of_nat i)) s2)
        with (existsb (Z.eqb (Z.of_nat i)) s1); [reflexivity|].
      destruct (existsb (Z.eqb (Z.of_nat i)) s1) eqn:E1; symmetry.
      * apply existsb_Z_In, Hsame, existsb_Z_In, E1.
      * apply not_true_is_false. intros E2. apply existsb_Z_In, Hsame in E2.
        apply existsb_Z_In in E2. congruence.
    + assert (Hout2 : Exists (fun idx => ~ in_range (length items) idx) s2).
      { apply Exists_exists in Hout1. destruct Hout1 as (idx & Hi & Hno).
        apply Exists_exists. exists idx. split; [apply Hsame, Hi | exact Hno]. }
      rewrite !assign_Err by assumption. reflexivity.
Qed.

Lemma assign_purpose_overwrites_witness :
  COODModel._assign_train_test_purpose_to_data
    (assigned [Toy.cat; Toy.dog; Toy.cow] [0; 1]) [2]%Z
  = COODModel._assign_train_test_purpose_to_data [Toy.cat; Toy.dog; Toy.cow] [2]%Z
  /\
  COODModel._assign_train_test_purpose_to_data [Toy.cat; Toy.dog; Toy.cow]
    [1; 0; 1]%Z
  = COODModel._assign_train_test_purpose_to_data [Toy.cat; Toy.dog; Toy.cow]
      [0; 1]%Z.
Proof.
  split.
  - apply (proj1 (assign_purpose_overwrites [Toy.cat; Toy.dog; Toy.cow]
                    [0; 1]%Z [2]%Z)).
    reflexivity.
  - apply (proj2 (assign_purpose_overwrites [Toy.cat; Toy.dog; Toy.cow]
                    [1; 0; 1]%Z [0; 1]%Z)).
    intros i. simpl. tauto.
Defined.

(** X3.  After a purpose assignment that returned, the TRAIN items are as
    many as the distinct listed positions, the TEST items are all the
    others, and every item is in exactly one of the two partitions. *)
Theorem assign_purpose_partition_sizes :
  forall (items split : list Item) (train_indices : list Z),
    COODModel._assign_train_test_purpose_to_data items train_indices = Ok split ->
    length (COODModel.with_purpose TRAIN split) = n_selected train_indices /\
    length (COODModel.with_purpose TRAIN split)
    + length (COODModel.with_purpose TEST split) = length items /\
    Forall (fun it => DistributionDataItem.purpose it = Some TRAIN \/
                      DistributionDataItem.purpose it = Some TEST) split.
Proof.
  intros items split sel Ha. apply assign_Ok in Ha. destruct Ha as [Hin ->].
  pose proof (positions_lt Hin) as Hlt.
  split; [apply (assigned_sizes items (positions sel) Hlt)|].
  split; [apply assigned_partition; exact Hlt | apply assigned_purposes].
Qed.

Lemma assign_purpose_partition_sizes_witness :
  length (COODModel.with_purpose TRAIN
            (assigned [Toy.cat; Toy.dog; Toy.cow] [2; 0; 2])) = 2.
Proof.
  exact (proj1 (assign_purpose_partition_sizes
                  [Toy.cat; Toy.dog; Toy.cow] [2; 0; 2; -1]%Z eq_refl)).
Defined.

(** ** The unstratified split *)

Lemma int_fraction_le (ratio : Q) (n : nat) :
  (ratio <= 1)%Q -> int_fraction ratio n <= n.
Proof.
  intros Hr. unfold int_fraction.
  assert (Hq : (Qfloor (ratio * inject_Z (Z.of_nat n)) <= Z.of_nat n)%Z).
  { rewrite <- (Qfloor_Z (Z.of_nat n)) at 2. apply Qfloor_resp_le.
    assert (0 <= inject_Z (Z.of_nat n))%Q.
    { change 0%Q with (inject_Z 0). rewrite <- Zle_Qle. lia. }
    nra. }
  lia.
Qed.

Section RandomSplit.
Context `{ThirdParty} `{StratifiedSplitter}.

Hypothesis choice_without_replacement :
  forall n k, k <= n ->
    NoDup (np_random_choice n k) /\
    length (np_random_choice n k) = k /\
    forall j, In j (np_random_choice n k) -> j < n.

(** X4.  The unstratified split at a ratio between 0 and 1 returns with
    exactly [int(split_ratio * len(data))] items in TRAIN and all the others
    in TEST; at the ratio 0.90 that is [9 * n / 10] items rounded down, so a
    single item goes to TEST and TRAIN stays empty. *)
Theorem random_split_sizes :
  forall (items : list Item) (split_ratio : Q),
    (0 <= split_ratio)%Q -> (split_ratio <= 1)%Q ->
    exists split,
      COODModel._split_data items false split_ratio = Ok split /\
      length (COODModel.with_purpose TRAIN split)
      = int_fraction split_ratio (length items) /\
      length (COODModel.with_purpose TEST split)
      = length items - int_fraction split_ratio (length items) /\
      (split_ratio = (90 # 100)%Q ->
       length (COODModel.with_purpose TRAIN split) = 9 * length items / 10 /\
       (length items = 1 -> COODModel.with_purpose TRAIN split = [])).
Proof.
  intros items ratio _ Hr.
  pose proof (@int_fraction_le ratio (length items) Hr) as Hk.
  destruct (choice_without_replacement Hk) as (Hnd & Hlen & Hlt).
  set (sel := np_random_choice (length items)
                (int_fraction ratio (length items))) in *.
  exists (assigned items sel).
  destruct (assigned_sizes items sel Hlt) as [Htrain Htest].
  rewrite (nodup_fixed_point Nat.eq_dec Hnd), Hlen in Htrain, Htest.
  split; [|split; [exact Htrain | split; [exact Htest|]]].
  - unfold COODModel._split_data. fold sel.
    rewrite (assign_spec items (in_range_of_nat sel Hlt)), positions_of_nat.
    reflexivity.
  - intros ->. rewrite int_fraction_90 in Htrain. split; [exact Htrain|].
    intros Hone. rewrite Hone in Htrain. apply length_zero_iff_nil.
    exact Htrain.
Qed.

End RandomSplit.

Lemma random_split_sizes_witness :
  exists split,
    @COODModel._split_data Toy.third_party Toy.splitter [Toy.odd] false (90 # 100)
    = Ok split /\
    COODModel.with_purpose TRAIN split = [].
Proof.
  destruct (@random_split_sizes Toy.third_party Toy.splitter
              toy_choice_without_replacement
              [Toy.odd] (90 # 100)) as (split & Hs & _ & _ & Hdefault).
  - discriminate.
  - discriminate.
  - exists split. split; [exact Hs|]. apply Hdefault; reflexivity.
Defined.

(** ** Retraining *)

(** X5.  Training a sub-model again discards the earlier fit: training on
    [second] a sub-model that was trained on [first] gives what training
    the original sub-model on [second] gives, for each of the four kinds. *)
Theorem retraining_overwrites `{Utils} :
  forall (m m1 : SubModel) (first second : list Item),
    OODSubModel.train m first = Ok m1 ->
    OODSubModel.train m1 second = OODSubModel.train m second.
Proof.
  intros m m1 d1 d2 Ht. destruct m as [m|m|m|m]; simpl in Ht.
  - injection Ht as <-. reflexivity.
  - apply bind_Ok in Ht. destruct Ht as (m' & Hm & Ht). injection Ht as <-.
    unfold ClassFREBasedModel.train in Hm. apply bind_Ok in Hm.
    destruct Hm as (u & _ & Hm). injection Hm as <-. reflexivity.
  - injection Ht as <-. reflexivity.
  - injection Ht as <-. reflexivity.
Qed.

Lemma retraining_overwrites_witness :
  OODSubModel.train (ClassFre Toy.class_fre) [Toy.dog; Toy.dog2]
  = OODSubModel.train
      (ClassFre (@ClassFREBasedModel.__init__ Toy.utils (995 # 1000)))
      [Toy.dog; Toy.dog2].
Proof.
  apply (@retraining_overwrites Toy.utils
           (ClassFre (@ClassFREBasedModel.__init__ Toy.utils (995 # 1000)))
           (ClassFre Toy.class_fre) [Toy.cat; Toy.dog; Toy.cat2]).
  reflexivity.
Defined.

(** ** The number of neighbours *)


Section Neighbours.
Context `{Utils}.

(** The search returns, for every query vector, a row of [k] distances and
    a row of neighbour positions; the entropy helper returns one value per
    row of neighbour positions. *)
Hypothesis search_shape :
  forall index fvs k,
    length (fst (perform_knn_search index fvs k)) = length fvs /\
    length (snd (perform_knn_search index fvs k)) = length fvs /\
    Forall (fun row => length row = k) (fst (perform_knn_search index fvs k)).

Hypothesis entropy_length :
  forall labels nn k,
    length (calculate_entropy_nearest_neighbours labels nn k) = length nn.


End Neighbours.



(** ** What training and inference of the ensemble require *)

Section EnsembleRequirements.
Context `{ThirdParty} `{Utils}.

Lemma class_fre_call_labels (m : ClassFREBasedModel.t) items scores :
  OODSubModel.__call__ m items = Ok scores ->
  forall it, In it items ->
    In (Some (DistributionDataItem.predicted_label it))
       (map fst (ClassFREBasedModel.pca_models_per_class m)).
Proof.
  intros Hc it Hit. unfold OODSubModel.__call__ in Hc.
  cbn [OODSubModel._is_trained OODSubModel.forward ClassFREBasedModel.ops] in Hc.
  unfold ClassFREBasedModel.forward in Hc.
  destruct (negb (ClassFREBasedModel._is_trained m)); [discriminate|].
  apply bind_Ok in Hc. destruct Hc as (preds & Hpreds & _).
  destruct (In_nth_error _ _ Hit) as (i & Hi).
  assert (Hlab : nth_error (map DistributionDataItem.predicted_label items) i
                 = Some (DistributionDataItem.predicted_label it))
    by (apply map_nth_error; exact Hi).
  destruct (mapM_enumerate_nth _ _ Hpreds i Hlab) as (pr & _ & Hf).
  cbn [fst snd] in Hf. apply bind_Ok in Hf. destruct Hf as (arr & Harr & _).
  rewrite lookup_map in Harr.
  destruct (ClassFREBasedModel.lookup _ _) as [pca|e] eqn:Hpca; [|discriminate].
  apply lookup_Ok_In in Hpca. apply (in_map fst) in Hpca. exact Hpca.
Qed.

Lemma infer_loop_calls values : forall acc items scores,
  COODModel.infer_loop values acc items = Ok scores ->
  forall key m, In (key, m) values ->
    exists s, OODSubModel.__call__ m items = Ok s.
Proof.
  induction values as [|[k0 m0] values IH]; intros acc items scores Hl key m Hin;
    [destruct Hin|].
  cbn [COODModel.infer_loop] in Hl. apply bind_Ok in Hl.
  destruct Hl as (s0 & Hs0 & Hl). destruct Hin as [[= <- <-]|Hin]; [eauto|].
  eapply IH; eassumption.
Qed.

Lemma infer_loop_Err values : forall acc items e,
  COODModel.infer_loop values acc items = Err e ->
  exists key m, In (key, m) values /\ OODSubModel.__call__ m items = Err e.
Proof.
  induction values as [|[k0 m0] values IH]; intros acc items e Hl;
    cbn [COODModel.infer_loop] in Hl; [discriminate|].
  apply bind_Err in Hl. destruct Hl as [Hl|(s0 & Hs0 & Hl)].
  - exists k0, m0. split; [left; reflexivity | exact Hl].
  - destruct (IH _ _ _ Hl) as (key & m & Hin & Hm).
    exists key, m. split; [right; exact Hin | exact Hm].
Qed.

Lemma train_sub_models_member (self self1 : COODModel.t) d :
  COODModel._train_sub_models self d = Ok self1 ->
  (forall key m, In (key, m) (COODModel.sub_models self) ->
     exists m', In (key, m') (COODModel.sub_models self1) /\
                OODSubModel.train m d = Ok m') /\
  (forall key m', In (key, m') (COODModel.sub_models self1) ->
     exists m, In (key, m) (COODModel.sub_models self) /\
               OODSubModel.train m d = Ok m') /\
  map fst (COODModel.sub_models self1) = map fst (COODModel.sub_models self) /\
  COODModel.ood_classifier self1 = COODModel.ood_classifier self /\
  COODModel.id_distribution_data self1 = COODModel.id_distribution_data self /\
  COODModel.ood_distribution_data self1 = COODModel.ood_distribution_data self.
Proof.
  unfold COODModel._train_sub_models. intros Ht.
  apply bind_Ok in Ht. destruct Ht as (sm & Hsm & Ht). injection Ht as <-.
  cbn [COODModel.sub_models COODModel.with_sub_models COODModel.ood_classifier
       COODModel.id_distribution_data COODModel.ood_distribution_data].
  split; [|split; [|split; [|repeat split]]].
  - revert sm Hsm. induction (COODModel.sub_models self) as [|[k0 m0] l IH];
      intros sm Hsm key m Hin; [destruct Hin|].
    cbn [mapM] in Hsm. apply bind_Ok in Hsm. destruct Hsm as ([k1 m1] & H1 & Hsm).
    apply bind_Ok in H1. destruct H1 as (m1' & Hm1 & H1). injection H1 as <- <-.
    apply bind_Ok in Hsm. destruct Hsm as (sm' & Hsm' & Hsm). injection Hsm as <-.
    cbn [fst snd] in *. destruct Hin as [[= <- <-]|Hin].
    + exists m1'. split; [left; reflexivity | exact Hm1].
    + destruct (IH _ Hsm' _ _ Hin) as (m' & Hin' & Hm').
      exists m'. split; [right; exact Hin' | exact Hm'].
  - revert sm Hsm. induction (COODModel.sub_models self) as [|[k0 m0] l IH];
      intros sm Hsm key m' Hin; cbn [mapM] in Hsm.
    { injection Hsm as <-. destruct Hin. }
    apply bind_Ok in Hsm. destruct Hsm as ([k1 m1] & H1 & Hsm).
    apply bind_Ok in H1. destruct H1 as (m1' & Hm1 & H1). injection H1 as <- <-.
    apply bind_Ok in Hsm. destruct Hsm as (sm' & Hsm' & Hsm). injection Hsm as <-.
    cbn [fst snd] in *. destruct Hin as [[= <- <-]|Hin].
    + exists m0. split; [left; reflexivity | exact Hm1].
    + destruct (IH _ Hsm' _ _ Hin) as (m & Hin' & Hm).
      exists m. split; [right; exact Hin' | exact Hm].
  - revert sm Hsm. induction (COODModel.sub_models self) as [|[k0 m0] l IH];
      intros sm Hsm; cbn [mapM] in Hsm.
    { injection Hsm as <-. reflexivity. }
    apply bind_Ok in Hsm. destruct Hsm as ([k1 m1] & H1 & Hsm).
    apply bind_Ok in H1. destruct H1 as (m1' & Hm1 & H1). injection H1 as <- <-.
    apply bind_Ok in Hsm. destruct Hsm as (sm' & Hsm' & Hsm). injection Hsm as <-.
    cbn [map fst]. f_equal. apply IH. exact Hsm'.
Qed.

Lemma train_steps (self self' : COODModel.t) train_id_data train_ood_data :
  COODModel._train self train_id_data train_ood_data = Ok self' ->
  exists self1 id_scores ood_scores clf,
    COODModel._train_sub_models self train_id_data = Ok self1 /\
    COODModel._infer_sub_models self1 train_id_data = Ok id_scores /\
    COODModel._infer_sub_models self1 train_ood_data = Ok ood_scores /\
    self' = COODModel.with_ood_classifier self1 clf.
Proof.
  unfold COODModel._train. intros Ht.
  apply bind_Ok in Ht. destruct Ht as (self1 & Hsub & Ht).
  apply bind_Ok in Ht. destruct Ht as (id_scores & Hid & Ht).
  apply bind_Ok in Ht. destruct Ht as (ood_scores & Hood & Ht).
  apply bind_Ok in Ht. destruct Ht as (idF & HidF & Ht).
  apply bind_Ok in Ht. destruct Ht as (oodF & HoodF & Ht).
  apply bind_Ok in Ht. destruct Ht as (allF & Hcat & Ht).
  injection Ht as <-. eauto 8.
Qed.

(** X7.  With a per-class sub-model in the registry (as in the default
    one), training the ensemble returns only if the predicted label of
    every ID and OOD training item is the annotated label of some ID
    training item; and the trained ensemble answers a prediction only if
    its top-1 label is such an annotated label.  Any other label makes the
    per-class scores raise. *)
Theorem ensemble_requires_fitted_labels :
  forall (self self' : COODModel.t) train_id_data train_ood_data key m0,
    In (key, ClassFre m0) (COODModel.sub_models self) ->
    COODModel._train self train_id_data train_ood_data = Ok self' ->
    let fitted := map DistributionDataItem.annotated_label train_id_data in
    (forall it, In it (train_id_data ++ train_ood_data) ->
       In (Some (DistributionDataItem.predicted_label it)) fitted) /\
    (forall prediction cood_score,
       COODModel.__call__ self' prediction = Ok cood_score ->
       exists top, top_label prediction = Some top /\
                   In (Some (name top)) fitted).
Proof.
  intros self self' ids oods key m0 Hreg Ht fitted.
  destruct (train_steps _ _ _ Ht)
    as (self1 & id_scores & ood_scores & clf & Hsub & Hid & Hood & ->).
  destruct (train_sub_models_member _ _ Hsub) as (Hmem & _).
  destruct (Hmem _ _ Hreg) as (m' & Hin' & Hm').
  cbn [OODSubModel.train SubModel_ops] in Hm'.
  apply bind_Ok in Hm'. destruct Hm' as (m1 & Hm1 & Hm'). injection Hm' as <-.
  destruct (train_fitted_classes _ _ Hm1) as [_ Hkeys].
  assert (Hscored : forall items scores,
            COODModel._infer_sub_models self1 items = Ok scores ->
            forall it, In it items ->
              In (Some (DistributionDataItem.predicted_label it)) fitted).
  { intros items scores Hi it Hit.
    destruct (infer_loop_calls _ _ _ Hi _ _ Hin') as (s & Hs).
    apply Hkeys. apply (class_fre_call_labels m1 items (scores := s)); [exact Hs | exact Hit]. }
  split.
  - intros it Hit. apply in_app_or in Hit. destruct Hit as [Hit|Hit].
    + apply (Hscored _ _ Hid it Hit).
    + apply (Hscored _ _ Hood it Hit).
  - intros prediction v Hc. unfold COODModel.__call__ in Hc.
    apply bind_Ok in Hc. destruct Hc as (data_item & Hitem & Hc).
    apply bind_Ok in Hc. destruct Hc as (scores & Hscores & _).
    destruct (init_stores_top_label (raw_prediction := prediction) (item := data_item))
      as (top & Htop & _ & Hname).
    { do 5 eexists. exact Hitem. }
    exists top. split; [exact Htop|]. rewrite <- Hname.
    eapply (Hscored [data_item]); [exact Hscores | left; reflexivity].
Qed.

End EnsembleRequirements.

Lemma ensemble_requires_fitted_labels_witness :
  Forall (fun it =>
            In (Some (DistributionDataItem.predicted_label it))
               (map DistributionDataItem.annotated_label
                    [Toy.cat; Toy.cat2; Toy.dog]))
         ([Toy.cat; Toy.cat2; Toy.dog] ++ [Toy.odd; Toy.odd2]).
Proof.
  apply Forall_forall.
  apply (proj1 (@ensemble_requires_fitted_labels Toy.third_party Toy.utils
                  Toy.untrained_model Toy.trained_model
                  [Toy.cat; Toy.cat2; Toy.dog] [Toy.odd; Toy.odd2]
                  "class_fre" (@ClassFREBasedModel.__init__ Toy.utils (995 # 1000))
                  (or_intror (or_introl eq_refl))
                  ltac:(vm_compute; reflexivity))).
Defined.

(** ** The ensemble before and after training *)

Lemma init_errors `{ThirdParty} raw_prediction mn mp al nf pu e :
  DistributionDataItem.__init__ raw_prediction mn mp al nf pu = Err e ->
  e = AttributeError \/ e = ZeroNormError \/ e = IndexError.
Proof.
  unfold DistributionDataItem.__init__. intros Hi.
  apply bind_Err in Hi. destruct Hi as [Hi|(fv0 & _ & Hi)].
  { destruct (prediction_feature_vector raw_prediction); [discriminate|].
    injection Hi as <-. auto. }
  apply bind_Err in Hi. destruct Hi as [Hi|(fv2 & _ & Hi)].
  { destruct nf; [|discriminate].
    apply bind_Err in Hi. destruct Hi as [Hi|(rows & _ & Hi)].
    - unfold normalise_features in Hi.
      destruct (Qeq_bool _ _); [|discriminate]. injection Hi as <-. auto.
    - apply getitem_Err in Hi. auto. }
  apply bind_Err in Hi. destruct Hi as [Hi|(ann & _ & Hi)].
  { apply getitem_Err in Hi. auto. }
  apply bind_Err in Hi. destruct Hi as [Hi|(top & _ & Hi)]; [|discriminate].
  apply getitem_Err in Hi. auto.
Qed.

Section EnsembleGuard.
Context `{ThirdParty} `{Utils}.

Lemma aggregate_Err scores n e :
  COODModel._aggregate_sub_model_scores_into_cood_features scores n = Err e ->
  e = ValueError.
Proof.
  unfold COODModel._aggregate_sub_model_scores_into_cood_features. intros Ha.
  apply bind_Err in Ha. destruct Ha as [Ha|(? & _ & Ha)]; [|discriminate].
  apply mapM_Err in Ha. destruct Ha as ([k col] & _ & Ha). cbn [snd] in Ha.
  unfold COODModel.assign_column in Ha.
  destruct (Nat.eqb _ _); [discriminate|].
  destruct col as [|x [|? ?]]; congruence.
Qed.

Lemma trained_registry (self self' : COODModel.t) a b :
  COODModel._train self a b = Ok self' ->
  (forall key m, In (key, m) (COODModel.sub_models self') ->
     OODSubModel.is_trained m = true) /\
  map fst (COODModel.sub_models self') = map fst (COODModel.sub_models self) /\
  COODModel.ood_classifier self' <> None.
Proof.
  intros Ht.
  destruct (train_steps _ _ _ Ht) as (self1 & ids & oods & clf & Hsub & _ & _ & ->).
  destruct (train_sub_models_member _ _ Hsub) as (_ & Hback & Hkeys & _).
  cbn [COODModel.sub_models COODModel.with_ood_classifier COODModel.ood_classifier].
  split; [|split; [exact Hkeys | discriminate]].
  intros key m Hin. destruct (Hback _ _ Hin) as (m0 & _ & Hm).
  eapply train_sets_flag. exact Hm.
Qed.

(** X8.  The ensemble guards its own use: if any sub-model of the registry
    is untrained, the ensemble call returns no score, and on the freshly
    built default registry it raises the "not trained" error for every
    prediction the data item constructor accepts; after [_train] has
    returned, every sub-model is trained, the classifier is set, and no
    ensemble call raises the "not trained" error. *)
Theorem ensemble_call_guard :
  (forall (self : COODModel.t) key m prediction,
      In (key, m) (COODModel.sub_models self) ->
      OODSubModel.is_trained m = false ->
      forall cood_score, COODModel.__call__ self prediction <> Ok cood_score) /\
  (forall (self : COODModel.t) prediction data_item,
      COODModel.sub_models self = COODModel.default_sub_models ->
      DistributionDataItem.__init__ prediction (Some "sample") (Some "sample")
        (Some "") true None = Ok data_item ->
      COODModel.__call__ self prediction = Err NotTrainedError) /\
  (forall (self self' : COODModel.t) train_id_data train_ood_data,
      COODModel._train self train_id_data train_ood_data = Ok self' ->
      (forall key m, In (key, m) (COODModel.sub_models self') ->
         OODSubModel.is_trained m = true) /\
      COODModel.ood_classifier self' <> None /\
      forall prediction,
        COODModel.__call__ self' prediction <> Err NotTrainedError).
Proof.
  split; [|split].
  - intros self key m prediction Hin Hm v Hc. unfold COODModel.__call__ in Hc.
    apply bind_Ok in Hc. destruct Hc as (data_item & _ & Hc).
    apply bind_Ok in Hc. destruct Hc as (scores & Hscores & _).
    destruct (infer_loop_calls _ _ _ Hscores _ _ Hin) as (s & Hs).
    rewrite (call_untrained m [data_item] Hm) in Hs. discriminate.
  - intros self prediction data_item Hreg Hitem. unfold COODModel.__call__.
    rewrite Hitem. cbn [bind]. unfold COODModel._infer_sub_models.
    rewrite Hreg. reflexivity.
  - intros self self' ids oods Ht.
    destruct (trained_registry _ _ _ Ht) as (Htrained & _ & Hclf).
    split; [exact Htrained|]. split; [exact Hclf|].
    intros prediction Hc. unfold COODModel.__call__ in Hc.
    apply bind_Err in Hc. destruct Hc as [Hc|(data_item & _ & Hc)].
    { apply init_errors in Hc. destruct Hc as [Hc|[Hc|Hc]]; discriminate. }
    apply bind_Err in Hc. destruct Hc as [Hc|(scores & _ & Hc)].
    { apply infer_loop_Err in Hc. destruct Hc as (key & m & Hin & Hm).
      apply (call_trained m [data_item] (Htrained _ _ Hin) Hm). }
    apply bind_Err in Hc. destruct Hc as [Hc|(features & _ & Hc)].
    { apply aggregate_Err in Hc. discriminate. }
    apply bind_Err in Hc. destruct Hc as [Hc|(clf & _ & Hc)].
    { destruct (COODModel.ood_classifier self'); discriminate. }
    apply bind_Err in Hc. destruct Hc as [Hc|(row & _ & Hc)];
      apply getitem_Err in Hc; discriminate.
Qed.

End EnsembleGuard.

Lemma ensemble_call_guard_witness :
  COODModel.__call__ Toy.untrained_model (Toy.prediction [3; 4]%Q "cat" (9 # 10))
  = Err NotTrainedError /\
  COODModel.__call__ Toy.trained_model (Toy.prediction [3; 4]%Q "cat" (9 # 10))
  <> Err NotTrainedError.
Proof.
  split.
  - eapply (proj1 (proj2 (@ensemble_call_guard Toy.third_party Toy.utils)));
      reflexivity.
  - apply (proj2 (proj2 (proj2 (proj2 (@ensemble_call_guard Toy.third_party Toy.utils))
                           Toy.untrained_model Toy.trained_model
                           [Toy.cat; Toy.cat2; Toy.dog] [Toy.odd; Toy.odd2]
                           ltac:(vm_compute; reflexivity)))).
Defined.

(** ** The constructor *)

Lemma assigned_same_items (items : list Item) (train_indices : list nat) :
  Forall2 (fun it it' => exists p, it' = DistributionDataItem.set_purpose it p)
          items (assigned items train_indices).
Proof.
  unfold assigned. generalize 0 as s.
  induction items as [|it items IH]; intros s; simpl; constructor; eauto.
Qed.

Section Constructor.
Context `{ThirdParty} `{Utils} `{StratifiedSplitter}.

Lemma split_data_assigned (items split : list Item) stratified ratio :
  COODModel._split_data items stratified ratio = Ok split ->
  exists train_indices, split = assigned items train_indices.
Proof.
  unfold COODModel._split_data. intros Hs. apply assign_Ok in Hs.
  destruct Hs as [_ ->]. eexists. reflexivity.
Qed.

(** X9.  When the constructor returns (from the point where the ID and OOD
    items are prepared), the model stores the same ID and OOD items in the
    same order, each with a purpose; its registry holds the four sub-models
    under their four names, all trained, and they were fitted on the ID
    items of purpose TRAIN alone; the classifier is set; and the reported
    metrics consist of the single entry [mean_accuracy]. *)
Theorem constructor_postcondition :
  forall (id_data ood_data : list Item) (self : COODModel.t) (metrics : Dict.t Q),
    COODModel.__init__ id_data ood_data = Ok (self, metrics) ->
    Forall2 (fun it it' => exists p, it' = DistributionDataItem.set_purpose it p)
            id_data (COODModel.id_distribution_data self) /\
    Forall2 (fun it it' => exists p, it' = DistributionDataItem.set_purpose it p)
            ood_data (COODModel.ood_distribution_data self) /\
    Dict.keys (COODModel.sub_models self)
    = [ "knn_based"; "class_fre"; "global_fre"; "max_softmax_probability" ] /\
    (forall key m, In (key, m) (COODModel.sub_models self) ->
       OODSubModel.is_trained m = true) /\
    (exists untrained self1,
       COODModel.sub_models untrained = COODModel.default_sub_models /\
       COODModel._train_sub_models untrained
         (COODModel.with_purpose TRAIN (COODModel.id_distribution_data self))
       = Ok self1 /\
       COODModel.sub_models self = COODModel.sub_models self1) /\
    COODModel.ood_classifier self <> None /\
    Dict.keys metrics = [ "mean_accuracy" ].
Proof.
  intros id_data ood_data self metrics Hi. unfold COODModel.__init__ in Hi.
  apply bind_Ok in Hi. destruct Hi as (ids & Hids & Hi).
  apply bind_Ok in Hi. destruct Hi as (oods & Hoods & Hi).
  apply bind_Ok in Hi. destruct Hi as (trained & Htrain & Hi).
  apply bind_Ok in Hi. destruct Hi as (accuracy & Heval & Hi).
  injection Hi as <- <-.
  destruct (split_data_assigned _ _ _ Hids) as (sel_id & ->).
  destruct (split_data_assigned _ _ _ Hoods) as (sel_ood & ->).
  destruct (trained_registry _ _ _ Htrain) as (Hflags & Hkeys & Hclf).
  destruct (train_steps _ _ _ Htrain)
    as (self1 & id_scores & ood_scores & clf & Hsub & _ & _ & Hself).
  destruct (train_sub_models_member _ _ Hsub) as (_ & _ & _ & _ & Hid & Hood).
  cbn [COODModel.id_distribution_data COODModel.ood_distribution_data] in Hid, Hood.
  assert (Hstored_id : COODModel.id_distribution_data trained
                       = assigned id_data sel_id)
    by (rewrite Hself; exact Hid).
  assert (Hstored_ood : COODModel.ood_distribution_data trained
                        = assigned ood_data sel_ood)
    by (rewrite Hself; exact Hood).
  rewrite Hstored_id, Hstored_ood.
  split; [apply assigned_same_items|]. split; [apply assigned_same_items|].
  split; [exact Hkeys|]. split; [exact Hflags|].
  split; [|split; [exact Hclf|]].
  - eexists. exists self1. split; [|split; [exact Hsub|]].
    + reflexivity.
    + rewrite Hself. reflexivity.
  - unfold COODModel._evaluate_model in Heval.
    do 6 (apply bind_Ok in Heval; destruct Heval as (? & _ & Heval)).
    injection Heval as <-. reflexivity.
Qed.

End Constructor.

Lemma constructor_postcondition_witness :
  exists self metrics,
    @COODModel.__init__ Toy.third_party Toy.utils Toy.splitter
      [Toy.cat; Toy.cat2; Toy.dog; Toy.dog2] [Toy.odd; Toy.odd2; Toy.odd]
    = Ok (self, metrics) /\
    Dict.keys metrics = [ "mean_accuracy" ].
Proof.
  destruct (@COODModel.__init__ Toy.third_party Toy.utils Toy.splitter
              [Toy.cat; Toy.cat2; Toy.dog; Toy.dog2] [Toy.odd; Toy.odd2; Toy.odd])
    as [[self metrics]|e] eqn:E.
  - exists self, metrics. split; [reflexivity|].
    apply (@constructor_postcondition Toy.third_party Toy.utils Toy.splitter
             _ _ _ _ E).
  - vm_compute in E. discriminate E.
Defined.

(** ** Data preparation *)

Lemma io_bind_Done {W A B : Type} (m : IO W A) (k : A -> IO W B) w b w' :
  io_bind m k w = (Done b, w') ->
  exists a w1, m w = (Done a, w1) /\ k a w1 = (Done b, w').
Proof.
  unfold io_bind. destruct (m w) as [[a|e] w1]; [eauto | discriminate].
Qed.

Lemma io_for_Done {W A B : Type} (f : A -> IO W B) (l : list A) :
  forall w bs w',
    io_for f l w = (Done bs, w') ->
    Forall2 (fun a b => exists w1 w2, f a w1 = (Done b, w2)) l bs.
Proof.
  induction l as [|a l IH]; intros w bs w' Hf; cbn [io_for] in Hf.
  - injection Hf as <- _. constructor.
  - apply io_bind_Done in Hf. destruct Hf as (b & w1 & Hb & Hf).
    apply io_bind_Done in Hf. destruct Hf as (bs' & w2 & Hbs & Hf).
    injection Hf as <- _. constructor; [eauto | eapply IH; exact Hbs].
Qed.

Lemma io_lift_Done {W A : Type} (r : result A) (w w' : W) a :
  io_lift r w = (Done a, w') -> r = Ok a /\ w' = w.
Proof.
  destruct r as [x|e]; simpl; unfold io_ret, io_raise; intros [= <- <-];
    auto.
Qed.

Section LoadAnnotations.
Context `{Platform}.

(** X10.  [_load_annotations] returns [None] for a file that does not exist,
    without opening it.  For a file that exists and loads, it returns a
    value exactly when the loaded JSON is an object whose ["annotations"]
    is a list starting with an object whose ["labels"] is a list starting
    with an object that has a ["name"], and then it returns that name, so
    it returns [None] exactly when the name is [null]; and an object whose
    ["annotations"] list is empty makes it raise [IndexError]. *)
Theorem load_annotations_shape :
  forall (annotation_file : string) (w w1 : World),
    (os_path_exists annotation_file w = (Done false, w1) ->
     Preparation._load_annotations annotation_file w = (Done JNull, w1)) /\
    (forall annotation w2,
        os_path_exists annotation_file w = (Done true, w1) ->
        open_json_load annotation_file w1 = (Done annotation, w2) ->
        (forall name,
            Preparation._load_annotations annotation_file w
            = (Done name, w2) <->
            exists d first rest label others,
              annotation = JObject d /\
              json_get d "annotations" = Some (JArray (JObject first :: rest)) /\
              json_get first "labels" = Some (JArray (JObject label :: others)) /\
              json_get label "name" = Some name) /\
        (forall d, annotation = JObject d ->
                   json_get d "annotations" = Some (JArray []) ->
                   Preparation._load_annotations annotation_file w
                   = (Raise (Raised IndexError), w2))).
Proof.
  intros file w w1. unfold Preparation._load_annotations. split.
  - intros He. unfold io_bind. rewrite He. reflexivity.
  - intros annotation w2 He Ho. unfold io_bind. rewrite He, Ho. split.
    + intros name. split.
      * intros Hl. injection Hl as Hl.
        destruct annotation as [| | | |l|d]; try discriminate Hl.
        cbn [subscript_key outcome_bind] in Hl.
        destruct (json_get d "annotations") as [a|] eqn:Ea; [|discriminate Hl].
        cbn [outcome_bind] in Hl.
        destruct a as [| | |s|[|first rest]|da]; try discriminate Hl.
        { cbn [subscript_index] in Hl.
          destruct (String.get 0 s); discriminate Hl. }
        cbn [subscript_index nth_error outcome_bind] in Hl.
        destruct first as [| | | |l|first]; try discriminate Hl.
        cbn [subscript_key outcome_bind] in Hl.
        destruct (json_get first "labels") as [ls|] eqn:El; [|discriminate Hl].
        cbn [outcome_bind] in Hl.
        destruct ls as [| | |s|[|label others]|dl]; try discriminate Hl.
        { cbn [subscript_index] in Hl.
          destruct (String.get 0 s); discriminate Hl. }
        cbn [subscript_index nth_error outcome_bind] in Hl.
        destruct label as [| | | |l|label]; try discriminate Hl.
        cbn [subscript_key] in Hl.
        destruct (json_get label "name") as [v|] eqn:En; [|discriminate Hl].
        injection Hl as <-. exists d, first, rest, label, others. auto.
      * intros (d & first & rest & label & others & -> & Ea & El & En).
        cbn [subscript_key outcome_bind]. rewrite Ea.
        cbn [outcome_bind subscript_index nth_error subscript_key].
        rewrite El. cbn [outcome_bind subscript_index nth_error subscript_key].
        rewrite En. reflexivity.
    + intros d -> Ea. cbn [subscript_key outcome_bind]. rewrite Ea. reflexivity.
Qed.

End LoadAnnotations.

Lemma load_annotations_shape_witness :
  @Preparation._load_annotations SampleWorld.platform
    "data/annotations/img_7.json" SampleWorld.w0
  = (Done (JString "cat"), SampleWorld.w0) /\
  @Preparation._load_annotations SampleWorld.platform
    "data/annotations/other.json" SampleWorld.w0
  = (Done JNull, SampleWorld.w0).
Proof.
  split.
  - apply (proj1 (proj2 (@load_annotations_shape SampleWorld.platform
                           "data/annotations/img_7.json"
                           SampleWorld.w0 SampleWorld.w0)
                    SampleWorld.cat_annotation SampleWorld.w0
                    eq_refl eq_refl)).
    do 5 eexists. repeat split; reflexivity.
  - apply (proj1 (@load_annotations_shape SampleWorld.platform
                    "data/annotations/other.json"
                    SampleWorld.w0 SampleWorld.w0)).
    reflexivity.
Defined.

(** *** Paths *)

Lemma string_app_assoc (a b c : string) :
  ((a ++ b) ++ c)%string = (a ++ (b ++ c))%string.
Proof. induction a as [|x a IH]; simpl; [reflexivity | rewrite IH; reflexivity]. Qed.

Lemma has_slash_app (a b : string) :
  has_slash (a ++ b)%string = (has_slash a || has_slash b)%bool.
Proof.
  induction a as [|x a IH]; simpl; [reflexivity|].
  destruct (Ascii.eqb x "/"); [reflexivity | exact IH].
Qed.

Lemma basename_no_slash (f : string) :
  has_slash f = false -> os_path_basename f = f.
Proof. destruct f as [|c r]; simpl; [reflexivity|]. intros ->. reflexivity. Qed.

Lemma basename_after_slash (d f : string) :
  has_slash f = false -> os_path_basename (d ++ "/" ++ f)%string = f.
Proof.
  intros Hf. induction d as [|c d IH].
  - simpl. apply basename_no_slash. exact Hf.
  - change (String c d ++ "/" ++ f)%string with (String c (d ++ "/" ++ f))%string.
    cbn [os_path_basename].
    replace (has_slash (String c (d ++ "/" ++ f))) with true; [exact IH|].
    symmetry. cbn [has_slash]. destruct (Ascii.eqb c "/"); [reflexivity|].
    rewrite has_slash_app. simpl. apply orb_true_r.
Qed.

Lemma endswith_slash (d : string) :
  endswith d "/" = true -> exists d', d = (d' ++ "/")%string.
Proof.
  induction d as [|c r IH]; cbn [endswith].
  - simpl. discriminate.
  - destruct (String.eqb_spec (String c r) "/") as [->|Hne].
    + intros _. exists EmptyString. reflexivity.
    + intros He. destruct (IH He) as (d' & ->). exists (String c d').
      reflexivity.
Qed.

Lemma no_slash_not_absolute (f : string) :
  has_slash f = false -> startswith f "/" = false.
Proof.
  unfold startswith. destruct f as [|c r]; [reflexivity|].
  cbn [has_slash]. intros Hs. cbn [String.prefix].
  destruct (ascii_dec "/" c) as [<-|Hne]; [|reflexivity].
  rewrite Ascii.eqb_refl in Hs. discriminate.
Qed.

Lemma basename_join (dir f : string) :
  has_slash f = false -> os_path_basename (os_path_join dir f) = f.
Proof.
  intros Hf. unfold os_path_join. rewrite (no_slash_not_absolute f Hf).
  destruct (String.eqb_spec dir "") as [->|Hne]; cbn [orb].
  - simpl. apply basename_no_slash. exact Hf.
  - destruct (endswith dir "/") eqn:E.
    + destruct (endswith_slash dir E) as (d' & ->).
      rewrite string_app_assoc. apply basename_after_slash. exact Hf.
    + apply basename_after_slash. exact Hf.
Qed.

Lemma before_last_dot_jpg (stem : string) :
  before_last_dot (stem ++ ".jpg")%string = Some stem.
Proof.
  induction stem as [|c r IH]; [reflexivity|].
  change (String c r ++ ".jpg")%string with (String c (r ++ ".jpg"))%string.
  cbn [before_last_dot]. rewrite IH. reflexivity.
Qed.

Lemma all_dots_underscore (a b : string) :
  all_dots (a ++ "_" ++ b)%string = false.
Proof.
  induction a as [|c a IH]; [reflexivity|].
  change (String c a ++ "_" ++ b)%string with (String c (a ++ "_" ++ b))%string.
  cbn [all_dots]. destruct (Ascii.eqb c "."); [exact IH | reflexivity].
Qed.

Lemma stored_name_recovered (image_dir name id : string) :
  has_slash name = false -> has_slash id = false ->
  splitext_root
    (os_path_basename (os_path_join image_dir (name ++ "_" ++ id ++ ".jpg")))%string
  = (name ++ "_" ++ id)%string.
Proof.
  intros Hn Hi. rewrite basename_join.
  - replace (name ++ "_" ++ id ++ ".jpg")%string
      with ((name ++ "_" ++ id) ++ ".jpg")%string
      by (rewrite !string_app_assoc; reflexivity).
    unfold splitext_root. rewrite before_last_dot_jpg, all_dots_underscore.
    reflexivity.
  - rewrite !has_slash_app, Hn, Hi. reflexivity.
Qed.

(** X11.  The media name the items get is the name the image was stored
    under: for a medium whose name and id have no slash, stripping folder
    and extension from the image path built for it gives back
    [<name>_<id>], whatever the folder. *)
Theorem media_name_round_trip :
  forall (image_dir : string) (media : Media.t),
    has_slash (Media.name media) = false ->
    has_slash (Media.id media) = false ->
    splitext_root
      (os_path_basename
         (os_path_join image_dir
            (Media.name media ++ "_" ++ Media.id media ++ ".jpg")))%string
    = (Media.name media ++ "_" ++ Media.id media)%string.
Proof.
  intros dir [name id] Hn Hi. cbn [Media.name Media.id] in *.
  apply stored_name_recovered; assumption.
Qed.

Lemma media_name_round_trip_witness :
  splitext_root
    (os_path_basename (os_path_join "data/images/Dataset" "img.v2_7.jpg"))
  = "img.v2_7".
Proof.
  apply (media_name_round_trip "data/images/Dataset"
           {| Media.name := "img.v2"; Media.id := "7" |}); reflexivity.
Defined.

(** *** The items of one source *)

Lemma map_fst_combine {A B : Type} (l : list A) (l' : list B) :
  length l <= length l' -> map fst (combine l l') = l.
Proof.
  revert l'. induction l as [|a l IH]; intros [|b l'] Hl; simpl in *;
    try reflexivity; try lia.
  f_equal. apply IH. lia.
Qed.

Lemma Forall2_map_eq {A B C : Type} (R : A -> B -> Prop) (f : B -> C) (g : A -> C)
    (l : list A) (l' : list B) :
  (forall a b, R a b -> f b = g a) -> Forall2 R l l' -> map f l' = map g l.
Proof.
  intros Hfg. induction 1 as [|a b l l' Hab _ IH]; simpl; [reflexivity|].
  rewrite (Hfg a b Hab), IH. reflexivity.
Qed.

Lemma Forall2_Forall_r {A B : Type} (R : A -> B -> Prop) (P : A -> Prop)
    (Q : B -> Prop) (l : list A) (l' : list B) :
  (forall a b, P a -> R a b -> Q b) -> Forall P l -> Forall2 R l l' -> Forall Q l'.
Proof.
  intros HPQ HP. induction 1 as [|a b l l' Hab _ IH]; constructor.
  - inversion HP; subst. eauto.
  - apply IH. inversion HP; assumption.
Qed.

Lemma Forall2_combine_map {A B C D : Type} (R : B * C -> D -> Prop)
    (f : A -> B) (g : A -> C) (l : list A) (items : list D) :
  Forall2 R (combine (map f l) (map g l)) items ->
  Forall2 (fun a it => R (f a, g a) it) l items.
Proof.
  revert items. induction l as [|a l IH]; intros items HF; simpl in HF.
  - inversion HF. constructor.
  - inversion HF; subst. constructor; auto.
Qed.

Lemma repeat_map_const {A C : Type} (c : C) (l : list A) :
  repeat c (length l) = map (fun _ => c) l.
Proof. induction l as [|a l IH]; simpl; [reflexivity | f_equal; exact IH]. Qed.

Lemma Forall2_concat_r {A B : Type} (R : A -> list B -> Prop) (Q : B -> Prop)
    (l : list A) (ls : list (list B)) :
  (forall a bs, In a l -> R a bs -> Forall Q bs) ->
  Forall2 R l ls -> Forall Q (concat ls).
Proof.
  intros HR. induction 1 as [|a bs l ls Hab _ IH]; simpl; [constructor|].
  apply Forall_app. split.
  - apply (HR a bs); [left; reflexivity | exact Hab].
  - apply IH. intros a' bs' Hin. apply HR. right. exact Hin.
Qed.

Section SourceItems.
Context `{ThirdParty} `{Platform}.

Lemma prepare_data_item_Done (self : Preparation.t) path label w item w' :
  Preparation._prepare_data_item self path label w = (Done item, w') ->
  DistributionDataItem.image_path item = Some path /\
  DistributionDataItem.media_name item
  = Some (splitext_root (os_path_basename path)) /\
  DistributionDataItem.annotated_label item = label /\
  DistributionDataItem.purpose item = None /\
  DistributionDataItem.is_feature_vector_normalised item = true.
Proof.
  unfold Preparation._prepare_data_item. intros Hp.
  apply io_bind_Done in Hp. destruct Hp as (prediction & w1 & _ & Hp).
  apply io_lift_Done in Hp. destruct Hp as [Hi _].
  unfold DistributionDataItem.__init__ in Hi.
  do 4 (apply bind_Ok in Hi; destruct Hi as (? & _ & Hi)).
  injection Hi as <-. repeat split.
Qed.

Lemma step_Done (self : Preparation.t) pa w item w' :
  step self pa w = (Done item, w') ->
  DistributionDataItem.image_path item = Some (fst pa) /\
  DistributionDataItem.media_name item
  = Some (splitext_root (os_path_basename (fst pa))) /\
  (snd pa = None -> DistributionDataItem.annotated_label item = None) /\
  DistributionDataItem.purpose item = None /\
  DistributionDataItem.is_feature_vector_normalised item = true.
Proof.
  destruct pa as [path file]. unfold step. intros Hs.
  apply io_bind_Done in Hs. destruct Hs as (label & w1 & Hl & Hs).
  destruct (prepare_data_item_Done _ _ _ _ Hs) as (Hp & Hm & Ha & Hpu & Hn).
  cbn [fst snd]. repeat split; try assumption.
  intros ->. cbn [Preparation.truthy] in Hl. injection Hl as <- _. exact Ha.
Qed.

(** The items made from a directory, one per listed image name. *)
Lemma directory_items (self : Preparation.t) (dir : string) w items w' :
  Preparation._prepare_distribution_data self (FromDirectory dir) w
  = (Done items, w') ->
  exists names w1,
    os_listdir dir w = (Done names, w1) /\
    Forall2 (fun n it =>
               DistributionDataItem.image_path it = Some (os_path_join dir n) /\
               DistributionDataItem.annotated_label it = None /\
               DistributionDataItem.purpose it = None /\
               DistributionDataItem.is_feature_vector_normalised it = true)
            (filter has_valid_extension names) items.
Proof.
  intros Hp. unfold Preparation._prepare_distribution_data in Hp.
  apply io_bind_Done in Hp. destruct Hp as (paths & w1 & Hpaths & Hfor).
  apply (io_for_Done (step self)) in Hfor.
  apply io_bind_Done in Hpaths. destruct Hpaths as (names & wa & Hl & Hpaths).
  injection Hpaths as <- _. exists names, wa. split; [exact Hl|].
  rewrite length_map, repeat_map_const in Hfor.
  apply (@Forall2_combine_map _ _ _ _ _ (os_path_join dir)
           (fun _ => @None string)) in Hfor.
  eapply Forall2_impl; [|exact Hfor].
  intros n it (wb & wc & Hs). apply step_Done in Hs. cbn [fst snd] in Hs.
  destruct Hs as (Hp & _ & Ha & Hpu & Hn). auto.
Qed.

(** The items made from a dataset, one per medium. *)
Lemma dataset_items (self : Preparation.t) (dataset : Dataset.t) w items w' :
  Preparation._prepare_distribution_data self (FromDataset dataset) w
  = (Done items, w') ->
  exists media_list w1,
    get_all_images dataset w = (Done media_list, w1) /\
    Forall2 (fun m it =>
               let path :=
                 os_path_join
                   (os_path_join
                      (os_path_join (Preparation.data_dir self) "images")
                      (Dataset.name dataset))
                   (Media.name m ++ "_" ++ Media.id m ++ ".jpg")%string in
               DistributionDataItem.image_path it = Some path /\
               DistributionDataItem.media_name it
               = Some (splitext_root (os_path_basename path)) /\
               DistributionDataItem.purpose it = None /\
               DistributionDataItem.is_feature_vector_normalised it = true)
            media_list items.
Proof.
  intros Hp. unfold Preparation._prepare_distribution_data in Hp.
  apply io_bind_Done in Hp. destruct Hp as (paths & w1 & Hpaths & Hfor).
  apply (io_for_Done (step self)) in Hfor.
  apply io_bind_Done in Hpaths. destruct Hpaths as (media_list & wa & Hm & Hpaths).
  apply io_bind_Done in Hpaths. destruct Hpaths as (? & wb & _ & Hpaths).
  apply io_bind_Done in Hpaths. destruct Hpaths as (? & wc & _ & Hpaths).
  injection Hpaths as <- _. exists media_list, wa. split; [exact Hm|].
  apply Forall2_combine_map in Hfor.
  eapply Forall2_impl; [|exact Hfor].
  intros m it (wd & we & Hs). apply step_Done in Hs. cbn [fst snd] in Hs.
  destruct Hs as (Hp & Hn & _ & Hpu & Hnorm). cbv zeta. auto.
Qed.

(** X12.  When [_prepare_distribution_data] returns, every item has no
    purpose yet and a normalised feature vector.  For a directory the items
    are, in listing order, the listed names that end in one of the image
    extensions (whatever their case), each at its path under the directory
    and without annotated label; other files are skipped.  For a dataset
    there is one item per medium, in order, at
    [<data_dir>/images/<dataset>/<name>_<id>.jpg], and its media name is
    [<name>_<id>] when name and id have no slash. *)
Theorem distribution_data_items :
  forall (self : Preparation.t) (source : Source) w items w',
    Preparation._prepare_distribution_data self source w = (Done items, w') ->
    Forall (fun it => DistributionDataItem.purpose it = None /\
                      DistributionDataItem.is_feature_vector_normalised it = true)
           items /\
    match source with
    | FromDirectory dir =>
        exists names w1,
          os_listdir dir w = (Done names, w1) /\
          map DistributionDataItem.image_path items
          = map (fun n => Some (os_path_join dir n))
                (filter has_valid_extension names) /\
          Forall (fun it => DistributionDataItem.annotated_label it = None) items
    | FromDataset dataset =>
        exists media_list w1,
          get_all_images dataset w = (Done media_list, w1) /\
          map DistributionDataItem.image_path items
          = map (fun m =>
                   Some (os_path_join
                           (os_path_join
                              (os_path_join (Preparation.data_dir self) "images")
                              (Dataset.name dataset))
                           (Media.name m ++ "_" ++ Media.id m ++ ".jpg")%string))
                media_list /\
          ((forall m, In m media_list ->
              has_slash (Media.name m) = false /\ has_slash (Media.id m) = false) ->
           map DistributionDataItem.media_name items
           = map (fun m => Some (Media.name m ++ "_" ++ Media.id m)%string)
                 media_list)
    end.
Proof.
  intros self [dataset|dir] w items w' Hp.
  - destruct (dataset_items _ _ _ Hp) as (media_list & w1 & Hm & HF). split.
    + refine (@Forall2_Forall_r _ _ _ (fun _ => True) _ media_list items _ _ HF).
      * intros m it _ (_ & _ & Hpu & Hn). auto.
      * apply Forall_forall. auto.
    + exists media_list, w1. split; [exact Hm|]. split.
      * eapply Forall2_map_eq; [|exact HF]. intros m it Hr. apply Hr.
      * intros Hslash.
        assert (HF' : Forall2 (fun m it =>
                  In m media_list /\
                  DistributionDataItem.media_name it
                  = Some (Media.name m ++ "_" ++ Media.id m)%string)
                  media_list items).
        { clear Hm Hp. revert Hslash. induction HF as [|m it ms its Hr HF IH];
            intros Hslash; constructor.
          - split; [left; reflexivity|]. destruct Hr as (_ & Hn & _).
            rewrite Hn. f_equal.
            destruct (Hslash m (or_introl eq_refl)) as [Hs1 Hs2].
            apply stored_name_recovered; assumption.
          - eapply Forall2_impl; [|apply IH].
            + intros a b [Hin Hb]. split; [right; exact Hin | exact Hb].
            + intros m' Hin. apply Hslash. right. exact Hin. }
        eapply Forall2_map_eq; [|exact HF']. intros m it [_ Hr]. exact Hr.
  - destruct (directory_items _ _ _ Hp) as (names & w1 & Hl & HF). split.
    + refine (@Forall2_Forall_r _ _ _ (fun _ => True) _ _ items _ _ HF).
      * intros n it _ (_ & _ & Hpu & Hn). auto.
      * apply Forall_forall. auto.
    + exists names, w1. split; [exact Hl|]. split.
      * eapply Forall2_map_eq; [|exact HF]. intros n it Hr. apply Hr.
      * refine (@Forall2_Forall_r _ _ _ (fun _ => True) _ _ items _ _ HF).
        -- intros n it _ (_ & Ha & _). exact Ha.
        -- apply Forall_forall. auto.
Qed.

End SourceItems.

Example extension_filter :
  filter has_valid_extension
    [ "a.JPG"; "notes.txt"; "b.png"; "c.jpg.bak"; ".gif"; "d.TiFf"; "jpg" ]
  = [ "a.JPG"; "b.png"; ".gif"; "d.TiFf" ].
Proof. reflexivity. Qed.

Lemma distribution_data_items_witness :
  exists items w',
    @Preparation._prepare_distribution_data Toy.third_party SampleWorld.platform
      (SampleWorld.self None []) (FromDirectory "shots") SampleWorld.w0
    = (Done items, w') /\
    map DistributionDataItem.image_path items
    = [ Some "shots/a.JPG"; Some "shots/b.png" ].
Proof.
  destruct (@Preparation._prepare_distribution_data Toy.third_party
              SampleWorld.platform (SampleWorld.self None [])
              (FromDirectory "shots") SampleWorld.w0) as [[items|e] w'] eqn:E.
  - exists items, w'. split; [reflexivity|].
    destruct (proj2 (@distribution_data_items Toy.third_party SampleWorld.platform
                       _ _ _ _ _ E)) as (names & w1 & Hl & Hpaths & _).
    injection Hl as <- _. exact Hpaths.
  - vm_compute in E. discriminate E.
Defined.

(** ** In-distribution and out-of-distribution data *)

Lemma name_in_id (name : string) :
  name_in name ID_DATASET_NAMES = true -> name = "Dataset"%string.
Proof.
  unfold name_in, ID_DATASET_NAMES. cbn [existsb]. rewrite orb_false_r.
  apply String.eqb_eq.
Qed.

Lemma name_in_ood (name : string) :
  name_in name OOD_DATASET_NAMES = true -> name = "OOD reference dataset"%string.
Proof.
  unfold name_in, OOD_DATASET_NAMES. cbn [existsb]. rewrite orb_false_r.
  apply String.eqb_eq.
Qed.

Lemma filter_none {A : Type} (f : A -> bool) (l : list A) :
  (forall a, In a l -> f a = false) -> filter f l = [].
Proof.
  induction l as [|a l IH]; intros Hf; simpl; [reflexivity|].
  rewrite (Hf a (or_introl eq_refl)). apply IH. intros b Hb. apply Hf.
  right. exact Hb.
Qed.

Lemma length_zero_nil {A : Type} (l : list A) :
  Nat.eqb (length l) 0 = true -> l = [].
Proof. destruct l; [reflexivity | discriminate]. Qed.

Lemma io_for_in_turn {W A : Type} (f : A -> IO W (list Item)) (l : list A) :
  forall w ls w',
    io_for f l w = (Done ls, w') ->
    in_turn (fun a wa items wb => f a wa = (Done items, wb)) l w (concat ls) w'.
Proof.
  induction l as [|a l IH]; intros w ls w' Hf; cbn [io_for] in Hf.
  - injection Hf as <- <-. constructor.
  - apply io_bind_Done in Hf. destruct Hf as (b & w1 & Hb & Hf).
    apply io_bind_Done in Hf. destruct Hf as (bs & w2 & Hbs & Hf).
    injection Hf as <- <-. cbn [concat].
    econstructor; [exact Hb | apply IH; exact Hbs].
Qed.

Lemma in_turn_impl {W A : Type} (R R' : A -> W -> list Item -> W -> Prop)
    (Q : Item -> Prop) (l : list A) w items w' :
  (forall a wa its wb, In a l -> R a wa its wb -> R' a wa its wb /\ Forall Q its) ->
  in_turn R l w items w' ->
  in_turn R' l w items w' /\ Forall Q items.
Proof.
  intros HR. induction 1 as [w|a l w w1 w' its rest Ha _ IH].
  - split; constructor.
  - destruct (HR a w its w1 (or_introl eq_refl) Ha) as [Ha' Hq].
    destruct IH as [IH1 IH2].
    { intros a' wa its' wb Hin. apply HR. right. exact Hin. }
    split; [econstructor; eassumption | apply Forall_app; auto].
Qed.

Section IdOodData.
Context `{ThirdParty} `{Platform}.

Lemma from_dataset_intro (self : Preparation.t) (dataset : Dataset.t)
    w items w' :
  Preparation._prepare_distribution_data self (FromDataset dataset) w
  = (Done items, w') ->
  from_dataset self dataset w items w' /\ Forall unassigned items.
Proof.
  intros Hp. destruct (dataset_items _ _ _ Hp) as (media_list & w1 & Hm & HF).
  split; [split; [exact Hp|]|].
  - exists media_list, w1. split; [exact Hm|].
    eapply Forall2_map_eq; [|exact HF]. intros m it Hr. apply Hr.
  - refine (@Forall2_Forall_r _ _ _ (fun _ => True) _ media_list items _ _ HF).
    + intros m it _ (_ & _ & Hpu & Hn). split; assumption.
    + apply Forall_forall. auto.
Qed.

Lemma from_directory_intro (self : Preparation.t) (dir : string)
    w items w' :
  Preparation._prepare_distribution_data self (FromDirectory dir) w
  = (Done items, w') ->
  from_directory self dir w items w' /\ Forall unassigned items.
Proof.
  intros Hp. destruct (directory_items _ _ _ Hp) as (names & w1 & Hl & HF).
  split; [split; [exact Hp|]|].
  - exists names, w1. split; [exact Hl|]. split.
    + eapply Forall2_map_eq; [|exact HF]. intros n it Hr. apply Hr.
    + refine (@Forall2_Forall_r _ _ _ (fun _ => True) _ _ items _ _ HF).
      * intros n it _ (_ & Ha & _). exact Ha.
      * apply Forall_forall. auto.
  - refine (@Forall2_Forall_r _ _ _ (fun _ => True) _ _ items _ _ HF).
    + intros n it _ (_ & _ & Hpu & Hn). split; assumption.
    + apply Forall_forall. auto.
Qed.

Lemma create_ood_images_Done (self : Preparation.t) (dataset : Dataset.t)
    w path w' :
  Preparation._create_ood_images self dataset w = (Done path, w') ->
  path = os_path_join (Preparation.data_dir self) "ood_images" /\
  exists names w1 w2,
    os_listdir (os_path_join
                  (os_path_join (Preparation.data_dir self)
                                (Dataset.name dataset)) "images") w1
    = (Done names, w2) /\
    (Preparation.corruption_transform self = false -> names = []).
Proof.
  unfold Preparation._create_ood_images. intros Hc.
  apply io_bind_Done in Hc. destruct Hc as (found & w1 & _ & Hc).
  apply io_bind_Done in Hc. destruct Hc as ([] & w2 & _ & Hc).
  apply io_bind_Done in Hc. destruct Hc as (names & w3 & Hl & Hc).
  apply io_bind_Done in Hc. destruct Hc as (written & w4 & Hfor & Hc).
  injection Hc as <- _. split; [reflexivity|].
  exists names, w2, w3. split; [exact Hl|].
  intros Hnone. destruct names as [|n rest]; [reflexivity|]. exfalso.
  cbn [io_for] in Hfor. rewrite Hnone in Hfor.
  apply io_bind_Done in Hfor. destruct Hfor as (b & w5 & Hb & _).
  apply io_bind_Done in Hb. destruct Hb as (img & w6 & _ & Hb).
  apply io_bind_Done in Hb. destruct Hb as (rgb & w7 & _ & Hb).
  apply io_bind_Done in Hb. destruct Hb as (c & w8 & Hb & _).
  discriminate Hb.
Qed.

(** X13.  Without a dataset named [Dataset] in the project,
    [_prepare_id_ood_data] raises [ValueError] before anything is fetched,
    read or inferred: the world is as it was. *)
Theorem id_dataset_required :
  forall (self : Preparation.t) w,
    (forall dataset, In dataset (Preparation.datasets self) ->
                     Dataset.name dataset <> "Dataset"%string) ->
    Preparation._prepare_id_ood_data self w = (Raise (Raised ValueError), w).
Proof.
  intros self w Hnone. unfold Preparation._prepare_id_ood_data.
  rewrite (@filter_none _ (fun dataset =>
             name_in (Dataset.name dataset) ID_DATASET_NAMES)).
  - reflexivity.
  - intros d Hd.
    destruct (name_in (Dataset.name d) ID_DATASET_NAMES) eqn:E; [|reflexivity].
    apply name_in_id in E. elim (Hnone d Hd E).
Qed.

(** X14.  When [_create_ood_images] returns, it returns
    [<data_dir>/ood_images] whatever the reference dataset, after listing
    [<data_dir>/<dataset>/images]; and when the model has no corruption
    transform, it can only return if that listing was empty: with an image
    to corrupt, the call of the missing transform raises. *)
Theorem create_ood_images_result :
  forall (self : Preparation.t) (reference_dataset : Dataset.t) w path w',
    Preparation._create_ood_images self reference_dataset w = (Done path, w') ->
    path = os_path_join (Preparation.data_dir self) "ood_images" /\
    exists names w1 w2,
      os_listdir (os_path_join
                    (os_path_join (Preparation.data_dir self)
                                  (Dataset.name reference_dataset)) "images") w1
      = (Done names, w2) /\
      (Preparation.corruption_transform self = false -> names = []).
Proof.
  intros self d w path w' Hc. exact (create_ood_images_Done _ _ _ Hc).
Qed.

(** X15.  Where the prepared data come from.  When [_prepare_id_ood_data]
    returns, every item is without purpose and normalised.  The
    in-distribution items are those of the datasets named [Dataset], taken
    in turn from the world the call starts in.  In the world this leaves,
    the out-of-distribution items are made, in this order of preference:
    from the files listed in the directory of reference images, when one is
    given and not empty; else from the datasets named
    [OOD reference dataset] in turn, when the project has one; else, for
    each dataset named [Dataset] in turn, from the files listed in
    [<data_dir>/ood_images] after the images of that dataset were
    corrupted into it.  The world the last of them leaves is the one the
    call returns. *)
Theorem prepared_data_provenance :
  forall (self : Preparation.t) w r w',
    Preparation._prepare_id_ood_data self w = (Done r, w') ->
    let id_datasets := filter is_id_dataset (Preparation.datasets self) in
    let ood_datasets := filter is_ood_dataset (Preparation.datasets self) in
    Forall unassigned (Preparation.id_data r) /\
    Forall unassigned (Preparation.ood_data r) /\
    exists w1,
      in_turn (from_dataset self) id_datasets w (Preparation.id_data r) w1 /\
      (forall dir,
          Preparation.ood_reference_images_dir self = Some dir ->
          dir <> ""%string ->
          from_directory self dir w1 (Preparation.ood_data r) w') /\
      (Preparation.truthy (Preparation.ood_reference_images_dir self) = false ->
       ood_datasets <> [] ->
       in_turn (from_dataset self) ood_datasets w1 (Preparation.ood_data r) w') /\
      (Preparation.truthy (Preparation.ood_reference_images_dir self) = false ->
       ood_datasets = [] ->
       in_turn (generated_from self) id_datasets w1 (Preparation.ood_data r) w').
Proof.
  intros self w r w' Hp idl oodl.
  unfold Preparation._prepare_id_ood_data in Hp.
  change (filter (fun dataset =>
                    name_in (Dataset.name dataset) ID_DATASET_NAMES)
                 (Preparation.datasets self)) with idl in Hp.
  change (filter (fun dataset =>
            (negb (name_in (Dataset.name dataset) ID_DATASET_NAMES)
             && name_in (Dataset.name dataset) OOD_DATASET_NAMES)%bool)
            (Preparation.datasets self)) with oodl in Hp.
  destruct (Nat.eqb (length idl) 0); [discriminate Hp|].
  apply io_bind_Done in Hp. destruct Hp as (id_lists & w1 & Hid & Hp).
  apply io_bind_Done in Hp. destruct Hp as (ood_items & w2 & Hood & Hp).
  injection Hp as <- <-. cbn [Preparation.id_data Preparation.ood_data].
  assert (Hdatasets : forall l ls wa wb,
             io_for (fun dataset =>
                       Preparation._prepare_distribution_data self
                         (FromDataset dataset)) l wa = (Done ls, wb) ->
             in_turn (from_dataset self) l wa (concat ls) wb /\
             Forall unassigned (concat ls)).
  { intros l ls wa wb Hfor. apply io_for_in_turn in Hfor.
    refine (in_turn_impl _ _ Hfor).
    intros d wc its wd _ Hd. exact (from_dataset_intro _ _ _ Hd). }
  destruct (Hdatasets _ _ _ _ Hid) as [Hidrun Hidfresh].
  assert (Hoodfresh : Forall unassigned ood_items /\
    (forall dir,
        Preparation.ood_reference_images_dir self = Some dir ->
        dir <> ""%string -> from_directory self dir w1 ood_items w2) /\
    (Preparation.truthy (Preparation.ood_reference_images_dir self) = false ->
     oodl <> [] -> in_turn (from_dataset self) oodl w1 ood_items w2) /\
    (Preparation.truthy (Preparation.ood_reference_images_dir self) = false ->
     oodl = [] -> in_turn (generated_from self) idl w1 ood_items w2)).
  { destruct (Preparation.truthy (Preparation.ood_reference_images_dir self))
      eqn:Etruthy.
    - destruct (Preparation.ood_reference_images_dir self) as [dir|] eqn:Edir;
        [|discriminate Etruthy].
      destruct (from_directory_intro _ _ _ Hood) as [Hdir Hfresh].
      split; [exact Hfresh|]. split; [|split; discriminate].
      intros dir' [= <-] _. exact Hdir.
    - assert (Hnodir : forall dir,
                 Preparation.ood_reference_images_dir self = Some dir ->
                 dir <> ""%string ->
                 from_directory self dir w1 ood_items w2).
      { intros dir Hdir Hne. rewrite Hdir in Etruthy.
        cbn [Preparation.truthy] in Etruthy.
        rewrite (proj2 (String.eqb_neq dir "") Hne) in Etruthy.
        discriminate Etruthy. }
      destruct (Nat.eqb (length oodl) 0) eqn:El.
      + apply length_zero_nil in El.
        apply io_bind_Done in Hood.
        destruct Hood as (ood_lists & w3 & Hfor & Hood).
        injection Hood as <- <-. apply io_for_in_turn in Hfor.
        assert (Hgen : forall d wa its wb,
                   In d idl ->
                   (ood_path <~ Preparation._create_ood_images self d ;;
                    Preparation._prepare_distribution_data self
                      (FromDirectory ood_path)) wa = (Done its, wb) ->
                   generated_from self d wa its wb /\ Forall unassigned its).
        { intros d wa its wb _ Hd.
          apply io_bind_Done in Hd. destruct Hd as (ood_path & wc & Hc & Hd).
          pose proof (create_ood_images_Done _ _ _ Hc) as [-> _].
          destruct (from_directory_intro _ _ _ Hd) as [Hdir Hfresh].
          split; [|exact Hfresh]. exists wc. split; [exact Hc | exact Hdir]. }
        destruct (@in_turn_impl _ _ _ (generated_from self) unassigned
                    _ _ _ _ Hgen Hfor) as [Hrun Hfresh].
        split; [exact Hfresh|]. split; [exact Hnodir|].
        split; [intros _ Hne; contradiction | intros _ _; exact Hrun].
      + apply io_bind_Done in Hood.
        destruct Hood as (ood_lists & w3 & Hfor & Hood).
        injection Hood as <- <-.
        destruct (Hdatasets _ _ _ _ Hfor) as [Hrun Hfresh].
        split; [exact Hfresh|]. split; [exact Hnodir|].
        split; [intros _ _; exact Hrun|].
        intros _ Hnil. rewrite Hnil in El. discriminate El. }
  destruct Hoodfresh as (Hoodfresh & Hcase1 & Hcase2 & Hcase3).
  split; [exact Hidfresh|]. split; [exact Hoodfresh|].
  exists w1. auto.
Qed.

(** X16.  A directory of reference images takes precedence: when one is
    given (and not empty), the result of [_prepare_id_ood_data] depends on
    the datasets of the project only through those named [Dataset], and not
    on the corruption transform.  Two models with the same data directory,
    the same reference directory and the same in-distribution datasets
    behave alike in every world. *)
Theorem reference_directory_precedence :
  forall (self self' : Preparation.t),
    Preparation.data_dir self = Preparation.data_dir self' ->
    Preparation.ood_reference_images_dir self
    = Preparation.ood_reference_images_dir self' ->
    Preparation.truthy (Preparation.ood_reference_images_dir self) = true ->
    filter is_id_dataset (Preparation.datasets self)
    = filter is_id_dataset (Preparation.datasets self') ->
    forall w,
      Preparation._prepare_id_ood_data self w
      = Preparation._prepare_id_ood_data self' w.
Proof.
  intros [ds dir dd ct] [ds' dir' dd' ct'].
  cbn [Preparation.data_dir Preparation.ood_reference_images_dir
       Preparation.datasets].
  intros Hdd Hdir Htruthy Hfilter w. subst dd' dir'.
  unfold Preparation._prepare_id_ood_data.
  cbn [Preparation.data_dir Preparation.ood_reference_images_dir
       Preparation.datasets].
  unfold is_id_dataset in Hfilter. rewrite <- Hfilter, Htruthy.
  reflexivity.
Qed.

End IdOodData.

Lemma id_dataset_required_witness :
  @Preparation._prepare_id_ood_data Toy.third_party SampleWorld.platform
    (SampleWorld.self None [ "Train"; "OOD reference dataset" ]) SampleWorld.w0
  = (Raise (Raised ValueError), SampleWorld.w0).
Proof.
  apply (@id_dataset_required Toy.third_party SampleWorld.platform).
  intros d [<- | [<- | []]]; discriminate.
Defined.

Lemma create_ood_images_result_witness :
  exists w',
    @Preparation._create_ood_images SampleWorld.platform
      (SampleWorld.self None [ "Dataset" ]) (Dataset.mk "Dataset") SampleWorld_w1
    = (Done "data/ood_images", w').
Proof.
  destruct (@Preparation._create_ood_images SampleWorld.platform
              (SampleWorld.self None [ "Dataset" ]) (Dataset.mk "Dataset")
              SampleWorld_w1) as [[path|e] w'] eqn:E.
  - exists w'.
    rewrite (proj1 (@create_ood_images_result SampleWorld.platform
                      _ _ _ _ _ E)).
    reflexivity.
  - vm_compute in E. discriminate E.
Defined.

Lemma prepared_data_provenance_witness :
  exists r w' w1,
    @Preparation._prepare_id_ood_data Toy.third_party SampleWorld.platform
      (SampleWorld.self (Some "shots") [ "Dataset" ]) SampleWorld.w0
    = (Done r, w') /\
    @from_directory Toy.third_party SampleWorld.platform
      (SampleWorld.self (Some "shots") [ "Dataset" ]) "shots" w1
      (Preparation.ood_data r) w'.
Proof.
  destruct (@Preparation._prepare_id_ood_data Toy.third_party
              SampleWorld.platform
              (SampleWorld.self (Some "shots") [ "Dataset" ]) SampleWorld.w0)
    as [[r|e] w'] eqn:E.
  - destruct (@prepared_data_provenance Toy.third_party SampleWorld.platform
                _ _ _ _ E) as (_ & _ & w1 & _ & Hdir & _).
    exists r, w', w1. split; [reflexivity|].
    apply Hdir; [reflexivity | discriminate].
  - vm_compute in E. discriminate E.
Defined.

Lemma reference_directory_precedence_witness :
  @Preparation._prepare_id_ood_data Toy.third_party SampleWorld.platform
    (SampleWorld.self (Some "shots") [ "Dataset" ]) SampleWorld.w0
  = @Preparation._prepare_id_ood_data Toy.third_party SampleWorld.platform
      {| Preparation.datasets :=
           map Dataset.mk [ "OOD reference dataset"; "Dataset"; "Other" ];
         Preparation.ood_reference_images_dir := Some "shots";
         Preparation.data_dir := "data";
         Preparation.corruption_transform := true |} SampleWorld.w0.
Proof.
  apply (@reference_directory_precedence Toy.third_party SampleWorld.platform);
    reflexivity.
Defined.
